(** * UelDisplacement: the displacement finite element of
      include/uelDisplacement.h, embedded as Rocq functions.

    The element integrates a material response over its Gauss points.
    [double] is IEEE binary64, embedded as Rocq's primitive [float]; the
    C++ [int] and [size_t] are [Z] with their wrap-around written out.
    Stress and strain of a Gauss point are views ([Eigen::Map]) into the
    state buffer that the caller owns: a view is an offset into that
    buffer, and every read and write goes through the buffer. *)

From Stdlib Require Import ZArith Lia String.
From Stdlib Require Import Floats.PrimFloat.
From stdpp Require Import base option list.

Local Open Scope Z_scope.

(** ** Outcome of a call *)

(** What the C++ throws: [std::invalid_argument] with its message. *)
Inductive exception : Type :=
| invalid_argument (what : string).

(** A call returns, or leaves by an exception, or has no defined
    behaviour (a null pointer or unbound view is dereferenced, an index
    is out of range, an integer is divided by zero, or data has a shape
    that the fixed-size Eigen types exclude).  [Throws] keeps the memory
    as the call left it when the exception started to propagate. *)
Inductive outcome (A : Type) : Type :=
| Returns (a : A)
| Throws (e : exception) (a : A)
| Undefined.
Arguments Returns {A} a.
Arguments Throws {A} e a.
Arguments Undefined {A}.

(** Internal steps use [option]: [None] is undefined behaviour.  A member
    function that ends without an exception completes with [complete]. *)
Definition complete {A : Type} (o : option A) : outcome A :=
  match o with
  | Some a => Returns a
  | None => Undefined
  end.

(** ** Machine integers *)

(** Conversion to a 32-bit [int] and to a 64-bit [size_t]. *)
Definition to_int (z : Z) : Z := (z + 2 ^ 31) mod 2 ^ 32 - 2 ^ 31.
Definition to_size_t (z : Z) : Z := z mod 2 ^ 64.

Definition INT_MAX : Z := 2 ^ 31 - 1.

(** The displacement of [p + k] on a [double*], in doubles, for [k] of
    type [size_t]: an address has 64 bits and a double 8 bytes, so that
    [k] counts modulo [2 ^ 61], and a [k] from the upper half of that
    range leads below [p]. *)
Definition pointer_offset (k : Z) : Z := (k + 2 ^ 60) mod 2 ^ 61 - 2 ^ 60.

(** ** Vectors, matrices and the state buffer *)

Definition VectorXd : Type := list float.
Definition MatrixXd : Type := list (list float).

(** [Vector6] / [mVector6]: six doubles, full Voigt form. *)
Record Vector6 : Type := Vec6 {
  v6_0 : float; v6_1 : float; v6_2 : float;
  v6_3 : float; v6_4 : float; v6_5 : float
}.

Definition Vector6_data (v : Vector6) : list float :=
  [v6_0 v; v6_1 v; v6_2 v; v6_3 v; v6_4 v; v6_5 v].

(** [a + b] on [Vector6], coefficient by coefficient. *)
Definition Vector6_add (a b : Vector6) : Vector6 :=
  Vec6 (v6_0 a + v6_0 b) (v6_1 a + v6_1 b) (v6_2 a + v6_2 b)
       (v6_3 a + v6_3 b) (v6_4 a + v6_4 b) (v6_5 a + v6_5 b)%float.

(** A fixed-size vector of size 6 read from a dynamic one. *)
Definition Vector6_of (l : VectorXd) : option Vector6 :=
  match l with
  | [a; b; c; d; e; f] => Some (Vec6 a b c d e f)
  | _ => None
  end.

(** A [double*] into the state buffer: [None] is [nullptr], [Some p] is
    [stateVars + p]. *)
Definition pointer : Type := option Z.

(** [n] doubles read at offset [p]; [None] outside the buffer. *)
Definition load (buf : list float) (p : Z) (n : nat) : option (list float) :=
  if decide (0 <= p /\ (Z.to_nat p + n <= length buf)%nat)
  then Some (take n (drop (Z.to_nat p) buf))
  else None.

(** The doubles [vs] written at offset [p]; [None] outside the buffer. *)
Definition store (buf : list float) (p : Z) (vs : list float) : option (list float) :=
  if decide (0 <= p /\ (Z.to_nat p + length vs <= length buf)%nat)
  then Some (list_inserts (Z.to_nat p) vs buf)
  else None.

Definition load6 (buf : list float) (p : Z) : option Vector6 :=
  load buf p 6 ≫= Vector6_of.

Definition store6 (buf : list float) (p : Z) (v : Vector6) : option (list float) :=
  store buf p (Vector6_data v).

(** ** Eigen expressions

    Products are rows against columns, summed from the left.  The source
    leaves the order of the floating-point sums to Eigen; no theorem
    below depends on it. *)

Definition dot (a b : VectorXd) : float :=
  foldl (fun acc ab => (acc + ab.1 * ab.2)%float) 0%float (zip a b).

Fixpoint transpose (M : MatrixXd) : MatrixXd :=
  match M with
  | [] => []
  | [r] => map (fun x => [x]) r
  | r :: M' => zip_with cons r (transpose M')
  end.

Definition mat_vec (M : MatrixXd) (v : VectorXd) : VectorXd :=
  map (fun row => dot row v) M.

Definition mat_mul (M1 M2 : MatrixXd) : MatrixXd :=
  map (fun row => map (dot row) (transpose M2)) M1.

Definition vec_scale (v : VectorXd) (s : float) : VectorXd :=
  map (fun x => (x * s)%float) v.

Definition mat_scale (M : MatrixXd) (s : float) : MatrixXd :=
  map (fun row => vec_scale row s) M.

Definition vec_add (a b : VectorXd) : VectorXd := zip_with PrimFloat.add a b.
Definition vec_sub (a b : VectorXd) : VectorXd := zip_with PrimFloat.sub a b.
Definition mat_add (M1 M2 : MatrixXd) : MatrixXd := zip_with vec_add M1 M2.

(** ** Enumerations *)

Inductive SectionType : Type :=
| UniaxialStress
| PlaneStress
| PlaneStrain
| Solid.

#[global] Instance SectionType_eq_dec : EqDecision SectionType.
Proof. solve_decision. Defined.

(** Modelled from the spec: the initial-condition types of [BftElement]
    (bftElement.h is not part of the source): [GeostaticStress], and the
    other enumerators, told apart by their value. *)
Inductive StateTypes : Type :=
| GeostaticStress
| OtherStateType (value : Z).

(** Modelled from the spec: the distributed-load types of [BftElement]
    (bftElement.h is not part of the source): [Pressure], which is
    supported, and the other enumerators, told apart by their value. *)
Inductive DistributedLoadTypes : Type :=
| Pressure
| OtherLoadType (value : Z).

(** Modelled from the spec: [Vgt::VoigtSize] (bftVoigt.h is not part of
    the source), the length 6 of a stress or strain result. *)
Definition VoigtSize : Z := 6.

(** ** The material of a Gauss point *)

(** The class [BftMaterialHypoElastic] as the element uses it
    (bftMaterialHypoElastic.h is not part of the source).  A material is
    given by its routines, which are parameters.  The three stress
    routines take the stress (updated in place), the strain increment,
    the time, [dT] and the in/out fraction [pNewDT], and produce the 6x6
    tangent; a routine also sees and updates the material's own state
    variables and sees what the material object holds.  The element
    passes the strain increment as [dE6.data()], a pointer to its own
    array, and reads that array again after the call: the answer of a
    routine says what it leaves there ([dStrain], the increment itself
    for a routine that only reads it).  [stateVars] and [nStateVars] are
    the public members the element reads for the result "sdv".
    [getPermanentResultPointer] is the material's own lookup, [None]
    where it knows no result of that name (how a material reports that is
    not in the source). *)
Module Material.

Record Response : Type := {
  stress : Vector6;
  stateVars_written : list float;
  dStressDDStrain : MatrixXd;
  dStrain : Vector6;
  pNewDT : float
}.

(** characteristic length, state variables, stress, dStrain, time, dT,
    pNewDT *)
Definition Routine : Type :=
  float -> list float -> Vector6 -> Vector6 -> list float -> float -> float -> Response.

Record t : Type := {
  stateVars : pointer;
  nStateVars : Z;
  characteristicElementLength : float;
  getNumberOfRequiredStateVars : Z;
  computeStress : Routine;
  computePlaneStress : Routine;
  computeUniaxialStress : Routine;
  getPermanentResultPointer : string -> option (pointer * Z)
}.

(** Modelled from the spec: [assignStateVars( stateVars, nStateVars )] of
    the material, which is not part of the source, binds the state
    variables of the material to the slice it is passed. *)
Definition assignStateVars (m : t) (stateVars_ : pointer) (nStateVars_ : Z) : t :=
  {| stateVars := stateVars_;
     nStateVars := nStateVars_;
     characteristicElementLength := characteristicElementLength m;
     getNumberOfRequiredStateVars := getNumberOfRequiredStateVars m;
     computeStress := computeStress m;
     computePlaneStress := computePlaneStress m;
     computeUniaxialStress := computeUniaxialStress m;
     getPermanentResultPointer := getPermanentResultPointer m |}.

(** Modelled from the spec: [setCharacteristicElementLength( length )] of
    the material, which is not part of the source, keeps the length that
    the element forwards. *)
Definition setCharacteristicElementLength (m : t) (length : float) : t :=
  {| stateVars := stateVars m;
     nStateVars := nStateVars m;
     characteristicElementLength := length;
     getNumberOfRequiredStateVars := getNumberOfRequiredStateVars m;
     computeStress := computeStress m;
     computePlaneStress := computePlaneStress m;
     computeUniaxialStress := computeUniaxialStress m;
     getPermanentResultPointer := getPermanentResultPointer m |}.

(** One call of a stress routine, as the element makes it: the stress
    is passed as [stress.data()], a pointer into the state buffer.  The
    routine reads its state variables and the stress from the buffer
    and writes both back; it writes no more than [nStateVars] state
    variables.  The call gives the buffer, the tangent, the fraction and
    the strain increment array as the routine leaves them. *)
Definition call (routine : t -> Routine) (m : t) (buf : list float)
    (stress_data : pointer) (dStrain_ : Vector6) (time : list float)
    (dT pNewDT_ : float) : option (list float * MatrixXd * float * Vector6) :=
  sp ← stress_data;
  vp ← stateVars m;
  s ← load6 buf sp;
  sdv ← load buf vp (Z.to_nat (nStateVars m));
  let r := routine m (characteristicElementLength m) sdv s dStrain_ time dT pNewDT_ in
  buf1 ← store buf vp (take (Z.to_nat (nStateVars m)) (stateVars_written r));
  buf2 ← store6 buf1 sp (stress r);
  Some (buf2, dStressDDStrain r, pNewDT r, dStrain r).

End Material.

(** ** Gauss points and the element *)

Module Geometry.
Record t : Type := {
  J : MatrixXd;
  JInv : MatrixXd;
  detJ : float;
  dNdXi : MatrixXd;
  dNdX : MatrixXd;
  B : MatrixXd;
  intVol : float
}.
End Geometry.

Module GaussPt.

Definition nRequiredStateVars : Z := 6 + 6.

(** [material] and [geometry] are [unique_ptr]s, [stress] and [strain]
    are [mVector6] views given by their data pointer. *)
Record t : Type := {
  xi : VectorXd;
  weight : float;
  material : option Material.t;
  stress : pointer;
  strain : pointer;
  geometry : option Geometry.t
}.

(** [GaussPt( xi, weight )]: both views on [nullptr]. *)
Definition make (xi_ : VectorXd) (weight_ : float) : t :=
  {| xi := xi_; weight := weight_; material := None;
     stress := None; strain := None; geometry := None |}.

Definition set_material (gpt : t) (m : option Material.t) : t :=
  {| xi := xi gpt; weight := weight gpt; material := m;
     stress := stress gpt; strain := strain gpt; geometry := geometry gpt |}.

Definition set_geometry (gpt : t) (g : option Geometry.t) : t :=
  {| xi := xi gpt; weight := weight gpt; material := material gpt;
     stress := stress gpt; strain := strain gpt; geometry := g |}.

Definition set_views (gpt : t) (stress_ strain_ : pointer) : t :=
  {| xi := xi gpt; weight := weight gpt; material := material gpt;
     stress := stress_; strain := strain_; geometry := geometry gpt |}.

End GaussPt.

(** The members of [UelDisplacement<nDim, nNodes>]; [coordinates] is the
    member of the parent [BftGeometryElement]. *)
Record UelDisplacement : Type := {
  elementProperties : VectorXd;
  elLabel : Z;
  sectionType : SectionType;
  gaussPts : list GaussPt.t;
  coordinates : option VectorXd
}.

Definition set_gaussPts (el : UelDisplacement) (gpts : list GaussPt.t) : UelDisplacement :=
  {| elementProperties := elementProperties el; elLabel := elLabel el;
     sectionType := sectionType el; gaussPts := gpts;
     coordinates := coordinates el |}.

Definition set_elementProperties (el : UelDisplacement) (props : VectorXd) : UelDisplacement :=
  {| elementProperties := props; elLabel := elLabel el;
     sectionType := sectionType el; gaussPts := gaussPts el;
     coordinates := coordinates el |}.

Definition set_coordinates (el : UelDisplacement) (coords : option VectorXd) : UelDisplacement :=
  {| elementProperties := elementProperties el; elLabel := elLabel el;
     sectionType := sectionType el; gaussPts := gaussPts el;
     coordinates := coords |}.

(** What [computeYourself] reads and writes outside the element: the
    state buffer behind the views, and the arrays and the fraction the
    caller passes. *)
Record KernelMemory : Type := {
  stateVars : list float;
  Pe : VectorXd;
  Ke : MatrixXd;
  pNewDT : float
}.

(** The locals [S] and [C] of [computeYourself], declared before the loop
    without an initialiser and carried from one Gauss point to the next. *)
Module Locals.
Record t : Type := {
  S : VectorXd;
  C : MatrixXd
}.
End Locals.

(** How the loop over the Gauss points ends. *)
Inductive LoopEnd : Type :=
| Completed
| CutBackRequested.

(** ** What the element takes from outside the source *)

(** The parent class template [BftGeometryElement<nDim, nNodes>]
    (bftGeometryElement.h is not part of the source): the template
    parameters, the element shape, and the shape-function routines the
    element calls.  [Jacobian] reads the stored nodal coordinates, which
    are passed here. *)
Module ParentGeometryElement.
Class t : Type := {
  nDim : Z;
  nNodes : Z;
  ElementShapes : Type;
  shape : ElementShapes;
  N : VectorXd -> VectorXd;
  NB : VectorXd -> MatrixXd;
  dNdXi : VectorXd -> MatrixXd;
  Jacobian : VectorXd -> MatrixXd -> MatrixXd;
  dNdX : MatrixXd -> MatrixXd -> MatrixXd;
  B : MatrixXd -> MatrixXd
}.
End ParentGeometryElement.

(** The library routines the element calls (bftVoigt.h, bftMath.h,
    bftFunctions.h, bftFiniteElement.h, userLibrary.h, Eigen and <cmath>
    are not part of the source), one field per routine, named by its
    namespace. *)
Class Libraries `{ParentGeometryElement.t} : Type := {
  Vgt_planeVoigtToVoigt : VectorXd -> Vector6;
  Vgt_voigtToPlaneVoigt : Vector6 -> VectorXd;
  mechanics_getUniaxialStressTangent : MatrixXd -> float;
  mechanics_getPlaneStressTangent : MatrixXd -> MatrixXd;
  mechanics_getPlaneStrainTangent : MatrixXd -> MatrixXd;
  Math_linearInterpolation : float -> float -> float -> float -> float -> float;
  std_cbrt : float -> float;
  Eigen_inverse : MatrixXd -> MatrixXd;
  Eigen_determinant : MatrixXd -> float;
  IntegrationTypes : Type;
  NumIntegration_getGaussPointInfo :
    ParentGeometryElement.ElementShapes -> IntegrationTypes -> list (VectorXd * float);
  (** material code, material properties, their number, element label,
      Gauss point; the result after the [dynamic_cast], null when the
      cast fails *)
  userLibrary_bftMaterialFactory :
    Z -> list float -> Z -> Z -> Z -> option Material.t;
  BoundaryElement : Type;
  FiniteElement_BoundaryElement :
    ParentGeometryElement.ElementShapes -> Z -> Z -> VectorXd -> BoundaryElement;
  computeNormalLoadVector : BoundaryElement -> VectorXd;
  assembleIntoParentVector : BoundaryElement -> VectorXd -> VectorXd -> VectorXd
}.

(** [for ( size_t i = 0; i < v.size(); i++ )] over a vector, the body
    rewriting [v[i]]; the loop is undefined when one body is. *)
Fixpoint for_indexed {A : Type} (body : Z -> A -> option A) (i : Z) (v : list A)
    : option (list A) :=
  match v with
  | [] => Some []
  | x :: rest =>
      x' ← body i x;
      rest' ← for_indexed body (i + 1) rest;
      Some (x' :: rest')
  end.

(** [for ( GaussPt& gpt : gaussPts )], the body rewriting [gpt]. *)
Definition for_each {A : Type} (body : A -> option A) (v : list A) : option (list A) :=
  for_indexed (fun _ => body) 0 v.

(** [v[i]] for an [int] index. *)
Definition at_index {A : Type} (v : list A) (i : Z) : option A :=
  if decide (0 <= i) then v !! Z.to_nat i else None.

(** [for ( int i = 0; i < n; i++ )] with [count] passes left, the body
    rewriting what the loop works on; the loop is undefined when one
    body is. *)
Fixpoint for_int {A : Type} (body : Z -> A -> option A) (i : Z) (count : nat) (a : A)
    : option A :=
  match count with
  | O => Some a
  | S count' =>
      a' ← body i a;
      for_int body (i + 1) count' a'
  end.

(** ** The member functions of [UelDisplacement<nDim, nNodes>] *)

Section UelDisplacement.

Context `{Lib : Libraries}.

(** [UelDisplacement( noEl, integrationType, sectionType )] *)
Definition make (noEl : Z) (integrationType : IntegrationTypes)
    (sectionType_ : SectionType) : UelDisplacement :=
  {| elementProperties := [];
     elLabel := noEl;
     sectionType := sectionType_;
     gaussPts :=
       map (fun gaussPtInfo => GaussPt.make gaussPtInfo.1 gaussPtInfo.2)
           (NumIntegration_getGaussPointInfo ParentGeometryElement.shape integrationType);
     coordinates := None |}.

(** [( material + nRequiredStateVars ) * gaussPts.size()]: an [int]
    sum, multiplied as [size_t], returned as [int]. *)
Definition getNumberOfRequiredStateVars (el : UelDisplacement) : outcome Z :=
  complete (
    gpt ← gaussPts el !! 0%nat;
    m ← GaussPt.material gpt;
    Some (to_int (to_size_t
      (to_size_t (to_int (Material.getNumberOfRequiredStateVars m + GaussPt.nRequiredStateVars))
       * Z.of_nat (length (gaussPts el)))))).

(** The body of the loop of [assignStateVars] for [gaussPts[i]].  The
    product [i * ( nStateVarsMaterial + nRequiredStateVars )] is taken in
    [size_t] and added to the pointer, which is where a negative
    [nStateVarsMaterial + nRequiredStateVars] leads below [stateVars]. *)
Definition assignStateVars_body (stateVars_ nStateVarsMaterial : Z)
    (i : Z) (gpt : GaussPt.t) : option GaussPt.t :=
  m ← GaussPt.material gpt;
  let block :=
    to_size_t (i * to_size_t (to_int (nStateVarsMaterial + GaussPt.nRequiredStateVars))) in
  let m' :=
    Material.assignStateVars m (Some (stateVars_ + pointer_offset block))
      nStateVarsMaterial in
  Some (GaussPt.set_views (GaussPt.set_material gpt (Some m'))
          (Some (stateVars_ + nStateVarsMaterial + pointer_offset block))
          (Some (stateVars_ + nStateVarsMaterial + pointer_offset block + 6))).

(** [assignStateVars( stateVars, nStateVars )]; [stateVars_] is where
    the block of the element starts in the state buffer.  The quotient
    is taken in [size_t], and so is the difference, which is then
    stored in an [int]. *)
Definition assignStateVars (el : UelDisplacement) (stateVars_ nStateVars : Z)
    : outcome UelDisplacement :=
  complete (
    let size := Z.of_nat (length (gaussPts el)) in
    if decide (size = 0) then None
    else
      let nStateVarsMaterial :=
        to_int (to_size_t (to_size_t nStateVars / size - GaussPt.nRequiredStateVars)) in
      gpts ← for_indexed (assignStateVars_body stateVars_ nStateVarsMaterial) 0 (gaussPts el);
      Some (set_gaussPts el gpts)).

(** [assignProperty( const ElementProperties& )] *)
Definition assignProperty_ElementProperties (el : UelDisplacement)
    (elementPropertiesInfo : VectorXd) : UelDisplacement :=
  set_elementProperties el elementPropertiesInfo.

(** [assignProperty( const BftMaterialSection& )] *)
Definition assignProperty_BftMaterialSection (el : UelDisplacement)
    (materialCode : Z) (materialProperties : list float) (nMaterialProperties : Z)
    : UelDisplacement :=
  set_gaussPts el
    (imap (fun i gpt =>
             GaussPt.set_material gpt
               (userLibrary_bftMaterialFactory materialCode materialProperties
                  nMaterialProperties (elLabel el) (Z.of_nat i)))
          (gaussPts el)).

(** The body of the loop of [initializeYourself] for one Gauss point. *)
Definition initializeYourself_body (el : UelDisplacement) (coords : VectorXd)
    (gpt : GaussPt.t) : option GaussPt.t :=
  let dNdXi_ := ParentGeometryElement.dNdXi (GaussPt.xi gpt) in
  let J_ := ParentGeometryElement.Jacobian coords dNdXi_ in
  let JInv_ := Eigen_inverse J_ in
  let detJ_ := Eigen_determinant J_ in
  let dNdX_ := ParentGeometryElement.dNdX dNdXi_ JInv_ in
  let B_ := ParentGeometryElement.B dNdX_ in
  let geometry_ intVol_ :=
    {| Geometry.J := J_; Geometry.JInv := JInv_; Geometry.detJ := detJ_;
       Geometry.dNdXi := dNdXi_; Geometry.dNdX := dNdX_; Geometry.B := B_;
       Geometry.intVol := intVol_ |} in
  match sectionType el with
  | Solid =>
      m ← GaussPt.material gpt;
      Some (GaussPt.set_material
              (GaussPt.set_geometry gpt (Some (geometry_ (GaussPt.weight gpt * detJ_)%float)))
              (Some (Material.setCharacteristicElementLength m (std_cbrt (8 * detJ_)%float))))
  | PlaneStrain | PlaneStress =>
      thickness ← elementProperties el !! 0%nat;
      m ← GaussPt.material gpt;
      Some (GaussPt.set_material
              (GaussPt.set_geometry gpt
                 (Some (geometry_ (GaussPt.weight gpt * detJ_ * thickness)%float)))
              (Some (Material.setCharacteristicElementLength m (sqrt (4 * detJ_))%float)))
  | UniaxialStress =>
      crossSection ← elementProperties el !! 0%nat;
      m ← GaussPt.material gpt;
      Some (GaussPt.set_material
              (GaussPt.set_geometry gpt
                 (Some (geometry_ (GaussPt.weight gpt * detJ_ * crossSection)%float)))
              (Some (Material.setCharacteristicElementLength m (2 * detJ_)%float)))
  end.

(** [initializeYourself( coordinates )]: the parent stores the
    coordinates, then every Gauss point gets its geometry. *)
Definition initializeYourself (el : UelDisplacement) (coordinates_ : VectorXd)
    : outcome UelDisplacement :=
  complete (
    let el1 := set_coordinates el (Some coordinates_) in
    gpts ← for_each (initializeYourself_body el1 coordinates_) (gaussPts el1);
    Some (set_gaussPts el1 gpts)).

(** Lines 294-363 of the loop body of [computeYourself] for one Gauss
    point: the strain increment, the material call that rewrites the
    stress in place, the locals [C] and [S], and the strain.  [dE6'] (in
    three dimensions [dE']) is the strain increment array after the
    call, which [gaussPt.strain += ...] reads. *)
Definition computeYourself_update (el : UelDisplacement) (dQ : VectorXd)
    (time : list float) (dT : float) (gaussPt : GaussPt.t)
    (loc : Locals.t) (mem : KernelMemory) : option (Locals.t * KernelMemory) :=
  geom ← GaussPt.geometry gaussPt;
  let B_ := Geometry.B geom in
  let dE := mat_vec B_ dQ in
  if decide (ParentGeometryElement.nDim = 1) then
    dE6 ← match dE with
          | [e] => Some (Vec6 e 0 0 0 0 0)
          | _ => None
          end;
    m ← GaussPt.material gaussPt;
    '(buf, C66, pNewDT_, _) ←
      Material.call Material.computeUniaxialStress m (stateVars mem)
        (GaussPt.stress gaussPt) dE6 time dT (pNewDT mem);
    Some ({| Locals.S := Locals.S loc;
             Locals.C := [[mechanics_getUniaxialStressTangent C66]] |},
          {| stateVars := buf; Pe := Pe mem; Ke := Ke mem; pNewDT := pNewDT_ |})
  else if decide (ParentGeometryElement.nDim = 2) then
    let dE6 := Vgt_planeVoigtToVoigt dE in
    '(C_, buf, pNewDT_, dE6') ←
      match sectionType el with
      | PlaneStress =>
          m ← GaussPt.material gaussPt;
          '(buf, C66, pNewDT_, dE6') ←
            Material.call Material.computePlaneStress m (stateVars mem)
              (GaussPt.stress gaussPt) dE6 time dT (pNewDT mem);
          Some (mechanics_getPlaneStressTangent C66, buf, pNewDT_, dE6')
      | PlaneStrain =>
          m ← GaussPt.material gaussPt;
          '(buf, C66, pNewDT_, dE6') ←
            Material.call Material.computeStress m (stateVars mem)
              (GaussPt.stress gaussPt) dE6 time dT (pNewDT mem);
          Some (mechanics_getPlaneStrainTangent C66, buf, pNewDT_, dE6')
      | _ => Some (Locals.C loc, stateVars mem, pNewDT mem, dE6)
      end;
    stress_ ← GaussPt.stress gaussPt ≫= load6 buf;
    strain_data ← GaussPt.strain gaussPt;
    strain_ ← load6 buf strain_data;
    buf' ← store6 buf strain_data (Vector6_add strain_ dE6');
    Some ({| Locals.S := Vgt_voigtToPlaneVoigt stress_; Locals.C := C_ |},
          {| stateVars := buf'; Pe := Pe mem; Ke := Ke mem; pNewDT := pNewDT_ |})
  else if decide (ParentGeometryElement.nDim = 3) then
    dE6 ← Vector6_of dE;
    '(C_, buf, pNewDT_, dE') ←
      match sectionType el with
      | Solid =>
          m ← GaussPt.material gaussPt;
          '(buf, C_, pNewDT_, dE') ←
            Material.call Material.computeStress m (stateVars mem)
              (GaussPt.stress gaussPt) dE6 time dT (pNewDT mem);
          Some (C_, buf, pNewDT_, dE')
      | _ => Some (Locals.C loc, stateVars mem, pNewDT mem, dE6)
      end;
    stress_ ← GaussPt.stress gaussPt ≫= load6 buf;
    strain_data ← GaussPt.strain gaussPt;
    strain_ ← load6 buf strain_data;
    buf' ← store6 buf strain_data (Vector6_add strain_ dE');
    Some ({| Locals.S := Vector6_data stress_; Locals.C := C_ |},
          {| stateVars := buf'; Pe := Pe mem; Ke := Ke mem; pNewDT := pNewDT_ |})
  else Some (loc, mem).

(** Lines 368-369: [Ke += B^T * C * B * intVol] and
    [Pe -= B^T * S * intVol]. *)
Definition computeYourself_accumulate (gaussPt : GaussPt.t)
    (loc : Locals.t) (mem : KernelMemory) : option KernelMemory :=
  geom ← GaussPt.geometry gaussPt;
  let B_ := Geometry.B geom in
  Some {| stateVars := stateVars mem;
          Pe := vec_sub (Pe mem)
                  (vec_scale (mat_vec (transpose B_) (Locals.S loc)) (Geometry.intVol geom));
          Ke := mat_add (Ke mem)
                  (mat_scale (mat_mul (mat_mul (transpose B_) (Locals.C loc)) B_)
                     (Geometry.intVol geom));
          pNewDT := pNewDT mem |}.

(** The loop of [computeYourself] over the Gauss points that are left:
    [if ( pNewDT < 1.0 ) return;] ends it between the update and the
    accumulation. *)
Fixpoint computeYourself_loop (el : UelDisplacement) (dQ : VectorXd)
    (time : list float) (dT : float) (gpts : list GaussPt.t)
    (loc : Locals.t) (mem : KernelMemory) : option (LoopEnd * Locals.t * KernelMemory) :=
  match gpts with
  | [] => Some (Completed, loc, mem)
  | gaussPt :: rest =>
      '(loc1, mem1) ← computeYourself_update el dQ time dT gaussPt loc mem;
      if (pNewDT mem1 <? 1)%float then Some (CutBackRequested, loc1, mem1)
      else
        mem2 ← computeYourself_accumulate gaussPt loc1 mem1;
        computeYourself_loop el dQ time dT rest loc1 mem2
  end.

(** [computeYourself( QTotal, dQ, Pe, Ke, time, dT, pNewDT )]; [mem]
    holds [Pe], [Ke], [pNewDT] and the state buffer, [uninitialized] is
    what the locals [S] and [C] hold when the function starts.
    [QTotal] is not read. *)
Definition computeYourself (el : UelDisplacement) (dQ : VectorXd)
    (time : list float) (dT : float) (uninitialized : Locals.t)
    (mem : KernelMemory) : outcome KernelMemory :=
  complete (
    '(_, _, mem') ← computeYourself_loop el dQ time dT (gaussPts el) uninitialized mem;
    Some mem').

(** The body of the loop of [setInitialConditions] for one Gauss
    point, on the state buffer: [stress( 1 )] is written first and then
    read for [stress( 0 )] and [stress( 2 )]. *)
Definition setInitialConditions_body (el : UelDisplacement) (values : list float)
    (buf : list float) (gaussPt : GaussPt.t) : option (list float) :=
  coords ← coordinates el;
  let coordAtGauss :=
    mat_vec (ParentGeometryElement.NB (ParentGeometryElement.N (GaussPt.xi gaussPt))) coords in
  sigY1 ← values !! 0%nat;
  sigY2 ← values !! 2%nat;
  y1 ← values !! 1%nat;
  y2 ← values !! 3%nat;
  y ← coordAtGauss !! 1%nat;
  stress_data ← GaussPt.stress gaussPt;
  buf1 ← store buf (stress_data + 1) [Math_linearInterpolation y y1 y2 sigY1 sigY2];
  values4 ← values !! 4%nat;
  sigma_y ← load buf1 (stress_data + 1) 1 ≫= head;
  buf2 ← store buf1 stress_data [(values4 * sigma_y)%float];
  values5 ← values !! 5%nat;
  sigma_y' ← load buf2 (stress_data + 1) 1 ≫= head;
  store buf2 (stress_data + 2) [(values5 * sigma_y')%float].

(** [setInitialConditions( state, values )], on the state buffer. *)
Definition setInitialConditions (el : UelDisplacement) (state : StateTypes)
    (values : list float) (buf : list float) : outcome (list float) :=
  match state with
  | GeostaticStress =>
      if decide (ParentGeometryElement.nDim > 1) then
        complete (foldl (fun b gaussPt => b ≫= fun buf_ =>
                           setInitialConditions_body el values buf_ gaussPt)
                        (Some buf) (gaussPts el))
      else Returns buf
  | _ => Returns buf
  end.

(** [computeDistributedLoad( loadType, P, K, elementFace, load, QTotal,
    time, dT )], on the load vector [P]; [K], [QTotal], [time] and [dT]
    are not read. *)
Definition computeDistributedLoad (el : UelDisplacement)
    (loadType : DistributedLoadTypes) (P : VectorXd) (elementFace : Z)
    (load : list float) : outcome VectorXd :=
  match loadType with
  | Pressure =>
      complete (
        p ← load !! 0%nat;
        coords ← coordinates el;
        let boundaryEl :=
          FiniteElement_BoundaryElement ParentGeometryElement.shape elementFace
            ParentGeometryElement.nDim coords in
        let Pk := map (fun x => (- p * x)%float) (computeNormalLoadVector boundaryEl) in
        Pk' ← (if decide (ParentGeometryElement.nDim = 2)
               then thickness ← elementProperties el !! 0%nat; Some (vec_scale Pk thickness)
               else Some Pk);
        Some (assembleIntoParentVector boundaryEl Pk' P))
  | _ => Throws (invalid_argument "Invalid Load Type specified") P
  end.

(** [getPermanentResultPointer( resultName, gaussPt, resultLength )]:
    the pointer returned and the length written to [resultLength]. *)
Definition getPermanentResultPointer (el : UelDisplacement) (resultName : string)
    (gaussPt : Z) : outcome (pointer * Z) :=
  complete (
    gpt ← at_index (gaussPts el) gaussPt;
    if String.eqb resultName "stress" then Some (GaussPt.stress gpt, VoigtSize)
    else if String.eqb resultName "strain" then Some (GaussPt.strain gpt, VoigtSize)
    else if String.eqb resultName "sdv" then
      m ← GaussPt.material gpt;
      Some (Material.stateVars m, Material.nStateVars m)
    else
      m ← GaussPt.material gpt;
      Material.getPermanentResultPointer m resultName).

(** [sizeLoadVector = nNodes * nDim], a constant expression. *)
Definition sizeLoadVector : Z :=
  ParentGeometryElement.nNodes * ParentGeometryElement.nDim.

(** [getNNodes()] and [getNDofPerElement()] *)
Definition getNNodes : Z := ParentGeometryElement.nNodes.

Definition getNDofPerElement : Z := sizeLoadVector.

(** The body of the loop of [getNodeFields]: an empty vector is pushed
    back, then "displacement" is pushed back on [nodeFields[i]]. *)
Definition getNodeFields_body (i : Z) (nodeFields : list (list string))
    : option (list (list string)) :=
  let pushed := nodeFields ++ [[]] in
  fields ← at_index pushed i;
  Some (<[Z.to_nat i := fields ++ ["displacement"%string]]> pushed).

(** [getNodeFields()]; [nodeFields] is the static vector of the function,
    which all calls share, as the call finds it.  The call gives the
    static vector as it leaves it, and the copy it returns. *)
Definition getNodeFields (nodeFields : list (list string))
    : outcome (list (list string) * list (list string)) :=
  complete (
    nodeFields' ←
      match nodeFields with
      | [] =>
          for_int getNodeFields_body 0 (Z.to_nat ParentGeometryElement.nNodes) nodeFields
      | _ => Some nodeFields
      end;
    Some (nodeFields', nodeFields')).

(** [getDofIndicesPermutationPattern()], with its static vector
    [permutationPattern] as for [getNodeFields]. *)
Definition getDofIndicesPermutationPattern (permutationPattern : list Z)
    : outcome (list Z * list Z) :=
  complete (
    permutationPattern' ←
      match permutationPattern with
      | [] =>
          for_int (fun i pattern => Some (pattern ++ [i])) 0
            (Z.to_nat (ParentGeometryElement.nNodes * ParentGeometryElement.nDim))
            permutationPattern
      | _ => Some permutationPattern
      end;
    Some (permutationPattern', permutationPattern')).

(** The body of the loop of [computeBodyForce] for one Gauss point:
    [Pe += NB( N( xi ) )^T * f * intVol], with [f] the first [nDim]
    doubles at [load]. *)
Definition computeBodyForce_body (load_ : list float) (Pe_ : VectorXd)
    (gpt : GaussPt.t) : option VectorXd :=
  f ← load load_ 0 (Z.to_nat ParentGeometryElement.nDim);
  geom ← GaussPt.geometry gpt;
  Some (vec_add Pe_
          (vec_scale
             (mat_vec
                (transpose (ParentGeometryElement.NB (ParentGeometryElement.N (GaussPt.xi gpt))))
                f)
             (Geometry.intVol geom))).

(** [computeBodyForce( P, K, load, QTotal, time, dT )], on the load
    vector [P]; [K], [QTotal], [time] and [dT] are not read. *)
Definition computeBodyForce (el : UelDisplacement) (P_ : VectorXd) (load_ : list float)
    : outcome VectorXd :=
  complete (foldl (fun pe gpt => pe ≫= fun Pe_ => computeBodyForce_body load_ Pe_ gpt)
                  (Some P_) (gaussPts el)).

End UelDisplacement.

(** ** Two instances: a bar and a triangle

    A two-node bar ([nDim = 1]) and a three-node triangle ([nDim = 2])
    with their shape functions, the Voigt routines, and a linear material
    with a stress limit, for running the element on concrete data. *)

Module Instances.

Inductive Shape : Type := Bar2 | Triangle3.
Inductive Integration : Type := FullIntegration.

Definition row_at (M : MatrixXd) (i : nat) : VectorXd := default [] (M !! i).
Definition coeff (M : MatrixXd) (i j : nat) : float := default 0%float (row_at M i !! j).

(** The coordinates of the nodes along axis [axis] out of [n] axes. *)
Definition along (n axis : nat) (coords : VectorXd) : VectorXd :=
  map (fun node => default 0%float (coords !! (node * n + axis)%nat))
      (seq 0 (length coords / n)).

Definition Jacobian (n : nat) (coords : VectorXd) (dNdXi : MatrixXd) : MatrixXd :=
  map (fun axis => map (fun dN => dot dN (along n axis coords)) dNdXi) (seq 0 n).

Definition determinant (M : MatrixXd) : float :=
  match M with
  | [[a]] => a
  | [[a; b]; [c; d]] => (a * d - b * c)%float
  | _ => 0%float
  end.

Definition inverse (M : MatrixXd) : MatrixXd :=
  match M with
  | [[a]] => [[(1 / a)%float]]
  | [[a; b]; [c; d]] =>
      let det := (a * d - b * c)%float in
      [[(d / det)%float; (- b / det)%float]; [(- c / det)%float; (a / det)%float]]
  | _ => M
  end.

Definition dNdX (dNdXi JInv : MatrixXd) : MatrixXd := mat_mul (transpose JInv) dNdXi.

(** Bar: one row of derivatives.  Triangle: rows xx, yy, xy over the
    degrees of freedom (x and y of node 1, 2, 3). *)
Definition B_bar (dNdX_ : MatrixXd) : MatrixXd := dNdX_.

Definition B_triangle (dNdX_ : MatrixXd) : MatrixXd :=
  let dx := row_at dNdX_ 0 in
  let dy := row_at dNdX_ 1 in
  [ flat_map (fun ab => [ab.1; 0%float]) (zip dx dy);
    flat_map (fun ab => [0%float; ab.2]) (zip dx dy);
    flat_map (fun ab => [ab.2; ab.1]) (zip dx dy) ].

Definition N_bar (xi : VectorXd) : VectorXd :=
  match xi with
  | [x] => [((1 - x) / 2)%float; ((1 + x) / 2)%float]
  | _ => []
  end.

Definition N_triangle (xi : VectorXd) : VectorXd :=
  match xi with
  | [x; y] => [(1 - x - y)%float; x; y]
  | _ => []
  end.

Definition NB_bar (N_ : VectorXd) : MatrixXd := [N_].

Definition NB_triangle (N_ : VectorXd) : MatrixXd :=
  [ flat_map (fun n => [n; 0%float]) N_; flat_map (fun n => [0%float; n]) N_ ].

#[export] Instance bar : ParentGeometryElement.t := {|
  ParentGeometryElement.nDim := 1;
  ParentGeometryElement.nNodes := 2;
  ParentGeometryElement.ElementShapes := Shape;
  ParentGeometryElement.shape := Bar2;
  ParentGeometryElement.N := N_bar;
  ParentGeometryElement.NB := NB_bar;
  ParentGeometryElement.dNdXi := fun _ => [[(-0.5)%float; 0.5%float]];
  ParentGeometryElement.Jacobian := Jacobian 1;
  ParentGeometryElement.dNdX := dNdX;
  ParentGeometryElement.B := B_bar
|}.

#[export] Instance triangle : ParentGeometryElement.t := {|
  ParentGeometryElement.nDim := 2;
  ParentGeometryElement.nNodes := 3;
  ParentGeometryElement.ElementShapes := Shape;
  ParentGeometryElement.shape := Triangle3;
  ParentGeometryElement.N := N_triangle;
  ParentGeometryElement.NB := NB_triangle;
  ParentGeometryElement.dNdXi :=
    fun _ => [[(-1)%float; 1%float; 0%float]; [(-1)%float; 0%float; 1%float]];
  ParentGeometryElement.Jacobian := Jacobian 2;
  ParentGeometryElement.dNdX := dNdX;
  ParentGeometryElement.B := B_triangle
|}.

(** Two points for the bar, the three mid-side points for the
    triangle. *)
Definition getGaussPointInfo (s : Shape) (_ : Integration)
    : list (VectorXd * float) :=
  match s with
  | Bar2 => [([(-0.5)%float], 1%float); ([0.5%float], 1%float)]
  | Triangle3 =>
      [([0.5%float; 0%float], 0.25%float);
       ([0.5%float; 0.5%float], 0.125%float);
       ([0%float; 0.5%float], 0.125%float)]
  end.

Definition planeVoigtToVoigt (v : VectorXd) : Vector6 :=
  match v with
  | [a; b; c] => Vec6 a b 0 c 0 0
  | _ => Vec6 0 0 0 0 0 0
  end.

Definition voigtToPlaneVoigt (v : Vector6) : VectorXd := [v6_0 v; v6_1 v; v6_3 v].

Definition getUniaxialStressTangent (C66 : MatrixXd) : float := coeff C66 0 0.

Definition getPlaneTangent (C66 : MatrixXd) : MatrixXd :=
  map (fun i => map (fun j => coeff C66 i j) [0; 1; 3]%nat) [0; 1; 3]%nat.

Definition linearInterpolation (x x0 x1 y0 y1 : float) : float :=
  (y0 + (x - x0) * (y1 - y0) / (x1 - x0))%float.

(** A cube root by Newton steps, exact on the cubes used below. *)
Definition cbrt (x : float) : float :=
  Nat.iter 64 (fun r => ((2 * r + x / (r * r)) / 3)%float) 1%float.

Definition identity6 : MatrixXd :=
  map (fun i => map (fun j => if Nat.eqb i j then 1%float else 0%float) (seq 0 6)) (seq 0 6).

(** The linear material: [stress += modulus * dStrain], the tangent is
    [modulus] on the diagonal, the state variable counts the calls, the
    strain increment is only read, and the fraction 0.5 is requested when
    the axial stress passes [limit]. *)
Definition linear_routine (modulus limit : float) : Material.Routine :=
  fun _ sdv stress dStrain _ _ pNewDT_ =>
    let stress' :=
      Vector6_add stress
        (Vec6 (modulus * v6_0 dStrain) (modulus * v6_1 dStrain) (modulus * v6_2 dStrain)
              (modulus * v6_3 dStrain) (modulus * v6_4 dStrain) (modulus * v6_5 dStrain))%float in
    {| Material.stress := stress';
       Material.stateVars_written := map (fun x => (x + 1)%float) sdv;
       Material.dStressDDStrain := mat_scale identity6 modulus;
       Material.dStrain := dStrain;
       Material.pNewDT := if (limit <? abs (v6_0 stress'))%float then 0.5%float else pNewDT_ |}.

Definition linear_material (modulus limit : float) : Material.t :=
  {| Material.stateVars := None;
     Material.nStateVars := 0;
     Material.characteristicElementLength := 0%float;
     Material.getNumberOfRequiredStateVars := 1;
     Material.computeStress := linear_routine modulus limit;
     Material.computePlaneStress := linear_routine modulus limit;
     Material.computeUniaxialStress := linear_routine modulus limit;
     Material.getPermanentResultPointer := fun _ => None |}.

(** Material code 1 is the linear material, with the modulus and the
    limit as its two properties. *)
Definition bftMaterialFactory (materialCode : Z) (materialProperties : list float)
    (nMaterialProperties elLabel_ gaussPt : Z) : option Material.t :=
  match materialCode, materialProperties with
  | 1, [modulus; limit] => Some (linear_material modulus limit)
  | _, _ => None
  end.

(** The boundary element of a face: the face number and the nodal
    coordinates.  Its load vector is one unit per node of the parent,
    and it is assembled by adding. *)
Definition libraries (G : ParentGeometryElement.t)
    (shapes : ParentGeometryElement.ElementShapes -> Shape) : @Libraries G := {|
  Vgt_planeVoigtToVoigt := planeVoigtToVoigt;
  Vgt_voigtToPlaneVoigt := voigtToPlaneVoigt;
  mechanics_getUniaxialStressTangent := getUniaxialStressTangent;
  mechanics_getPlaneStressTangent := getPlaneTangent;
  mechanics_getPlaneStrainTangent := getPlaneTangent;
  Math_linearInterpolation := linearInterpolation;
  std_cbrt := cbrt;
  Eigen_inverse := inverse;
  Eigen_determinant := determinant;
  IntegrationTypes := Integration;
  NumIntegration_getGaussPointInfo := fun s => getGaussPointInfo (shapes s);
  userLibrary_bftMaterialFactory := bftMaterialFactory;
  BoundaryElement := (Z * VectorXd)%type;
  FiniteElement_BoundaryElement := fun _ face _ coords => (face, coords);
  computeNormalLoadVector := fun b => map (fun _ => 1%float) b.2;
  assembleIntoParentVector := fun _ Pk fU => vec_add fU Pk
|}.

Definition bar_libraries : @Libraries bar := libraries bar (fun s => s).
Definition triangle_libraries : @Libraries triangle := libraries triangle (fun s => s).

(** After an [outcome] that is known to return. *)
Definition returned {A : Type} (o : outcome A) (otherwise : A) : A :=
  match o with
  | Returns a => a
  | _ => otherwise
  end.

(** The triangle with nodes (0,0), (1,0), (0,1), plane strain,
    thickness 2, modulus 4 and stress limit 10, through its life cycle:
    created, properties and material assigned, bound to a state buffer
    of 39 doubles, initialised. *)
Definition triangle_new : UelDisplacement :=
  make (Lib := triangle_libraries) 7 FullIntegration PlaneStrain.

Definition triangle_assigned : UelDisplacement :=
  assignProperty_BftMaterialSection (Lib := triangle_libraries)
    (assignProperty_ElementProperties triangle_new [2%float])
    1 [4%float; 10%float] 2.

Definition triangle_bound : UelDisplacement :=
  returned (assignStateVars triangle_assigned 0 39) triangle_assigned.

Definition triangle_element : UelDisplacement :=
  returned (initializeYourself (Lib := triangle_libraries) triangle_bound
              [0; 0; 1; 0; 0; 1]%float)
           triangle_bound.

(** The bar from 0 to 2 with cross section 3, the same material, bound
    to a state buffer of 26 doubles. *)
Definition bar_new : UelDisplacement :=
  make (Lib := bar_libraries) 8 FullIntegration UniaxialStress.

Definition bar_assigned : UelDisplacement :=
  assignProperty_BftMaterialSection (Lib := bar_libraries)
    (assignProperty_ElementProperties bar_new [3%float])
    1 [4%float; 10%float] 2.

Definition bar_bound : UelDisplacement :=
  returned (assignStateVars bar_assigned 0 26) bar_assigned.

Definition bar_element : UelDisplacement :=
  returned (initializeYourself (Lib := bar_libraries) bar_bound [0; 2]%float) bar_bound.

Definition zeros (n : nat) : list float := replicate n 0%float.

(** A call of [computeYourself] on the triangle: node 2 moves by 1 along
    x, so the strain increment is (1, 0, 0) in every Gauss point; [Pe]
    and [Ke] come in as zeros and the fraction as 1.  The axial stress of
    the second Gauss point (offset 14 of the buffer) starts at 8, the
    others at 0: with modulus 4 and limit 10 the material keeps the
    fraction at the first Gauss point and requests 0.5 at the second. *)
Definition triangle_dQ : VectorXd := [0; 0; 1; 0; 0; 0]%float.

Definition triangle_memory : KernelMemory :=
  {| stateVars := <[14%nat := 8%float]> (zeros 39);
     Pe := zeros 6;
     Ke := replicate 6 (zeros 6);
     pNewDT := 1%float |}.

(** A call on the bar: node 2 moves by 2, the strain increment is 1. *)
Definition bar_dQ : VectorXd := [0; 2]%float.

Definition bar_memory : KernelMemory :=
  {| stateVars := zeros 26;
     Pe := zeros 2;
     Ke := replicate 2 (zeros 2);
     pNewDT := 1%float |}.

Definition time_zero : list float := [0; 0]%float.

(** Some contents for the uninitialised locals. *)
Definition garbage : Locals.t := {| Locals.S := [7%float]; Locals.C := [[9%float]] |}.

(** The triangle at rest: no stress anywhere, so that with the strain
    increment of [triangle_dQ] no Gauss point reaches the stress limit
    and the call completes. *)
Definition triangle_rest : KernelMemory :=
  {| stateVars := zeros 39;
     Pe := zeros 6;
     Ke := replicate 6 (zeros 6);
     pNewDT := 1%float |}.

(** The same triangle declared as [Solid], a section type that the
    two-dimensional branch of [computeYourself] does not handle. *)
Definition triangle_solid_new : UelDisplacement :=
  make (Lib := triangle_libraries) 9 FullIntegration Solid.

Definition triangle_solid_assigned : UelDisplacement :=
  assignProperty_BftMaterialSection (Lib := triangle_libraries)
    (assignProperty_ElementProperties triangle_solid_new [2%float])
    1 [4%float; 10%float] 2.

Definition triangle_solid_bound : UelDisplacement :=
  returned (assignStateVars triangle_solid_assigned 0 39) triangle_solid_assigned.

Definition triangle_solid_element : UelDisplacement :=
  returned (initializeYourself (Lib := triangle_libraries) triangle_solid_bound
              [0; 0; 1; 0; 0; 1]%float)
           triangle_solid_bound.

(** What the calls of [computeYourself] on these data leave: the
    triangle under stress cuts back, the triangle at rest and the bar
    complete. *)
Definition triangle_cut_back : KernelMemory :=
  returned (computeYourself (Lib := triangle_libraries) triangle_element triangle_dQ
              time_zero 1 garbage triangle_memory)
           triangle_memory.

Definition triangle_completed : KernelMemory :=
  returned (computeYourself (Lib := triangle_libraries) triangle_element triangle_dQ
              time_zero 1 garbage triangle_rest)
           triangle_rest.

Definition triangle_solid_returned : KernelMemory :=
  returned (computeYourself (Lib := triangle_libraries) triangle_solid_element triangle_dQ
              time_zero 1 garbage triangle_memory)
           triangle_memory.

Definition bar_completed : KernelMemory :=
  returned (computeYourself (Lib := bar_libraries) bar_element bar_dQ
              time_zero 1 garbage bar_memory)
           bar_memory.

End Instances.

(** ** Vocabulary of the properties *)

(** [buf'] differs from [buf] at most at the offsets from [lo] up to
    [hi]. *)
Definition same_outside (lo hi : Z) (buf buf' : list float) : Prop :=
  length buf' = length buf /\
  forall i : nat, ~ (lo <= Z.of_nat i < hi) -> buf' !! i = buf !! i.

(** A call that does not return: it throws or has no defined behaviour. *)
Definition fails {A : Type} (o : outcome A) : Prop :=
  match o with
  | Returns _ => False
  | _ => True
  end.

(** The layout of the state buffer from offset [base] on: one block per
    Gauss point, [m] state variables of the material, then 6 doubles of
    stress, then 6 doubles of strain.  [bound_at base m i gpt]: the views
    of Gauss point [i] and the state variables of its material are bound
    to block [i]. *)
Definition bound_at (base m i : Z) (gpt : GaussPt.t) : bool :=
  match GaussPt.stress gpt, GaussPt.strain gpt, GaussPt.material gpt with
  | Some s, Some e, Some mat =>
      (s =? base + m + i * (m + 12))
      && (e =? base + m + i * (m + 12) + 6)
      && match Material.stateVars mat with
         | Some v => v =? base + i * (m + 12)
         | None => false
         end
      && (Material.nStateVars mat =? m)
  | _, _, _ => false
  end.

Fixpoint bound_from (base m i : Z) (gpts : list GaussPt.t) : bool :=
  match gpts with
  | [] => true
  | gpt :: rest => bound_at base m i gpt && bound_from base m (i + 1) rest
  end.

(** The element is bound to a buffer [buf] that holds all its blocks. *)
Definition partitioned (base m : Z) (el : UelDisplacement) (buf : list float) : bool :=
  (0 <=? base) && (0 <=? m)
  && bound_from base m 0 (gaussPts el)
  && (base + Z.of_nat (length (gaussPts el)) * (m + 12) <=? Z.of_nat (length buf)).

(** The determinant that [initializeYourself] caches for a Gauss point. *)
Definition detJ_at `{Lib : Libraries} (coords : VectorXd) (gpt : GaussPt.t) : float :=
  Eigen_determinant
    (ParentGeometryElement.Jacobian coords (ParentGeometryElement.dNdXi (GaussPt.xi gpt))).

(** The physical coordinates of a Gauss point, as [setInitialConditions]
    takes them from the shape functions. *)
Definition coordAtGauss `{Lib : Libraries} (coords : VectorXd) (gpt : GaussPt.t) : VectorXd :=
  mat_vec (ParentGeometryElement.NB (ParentGeometryElement.N (GaussPt.xi gpt))) coords.

(** The stress that [setInitialConditions] leaves in a Gauss point whose
    physical y-coordinate is [y] and whose stress was [old], for the
    values [sigY1, y1, sigY2, y2, ratio_x, ratio_z]. *)
Definition geostatic `{Lib : Libraries} (sigY1 y1 sigY2 y2 ratio_x ratio_z : float)
    (y : float) (old : Vector6) : Vector6 :=
  let sigma_y := Math_linearInterpolation y y1 y2 sigY1 sigY2 in
  Vec6 (ratio_x * sigma_y) sigma_y (ratio_z * sigma_y) (v6_3 old) (v6_4 old) (v6_5 old).

(** The strain increment of a Gauss point in full Voigt form, as
    [computeYourself] passes it to the material: [B * dQ], followed by
    zeros in one dimension, expanded by [planeVoigtToVoigt] in two, as it
    is in three. *)
Definition dE6_at `{Lib : Libraries} (dQ : VectorXd) (gaussPt : GaussPt.t) : option Vector6 :=
  geom ← GaussPt.geometry gaussPt;
  let dE := mat_vec (Geometry.B geom) dQ in
  if decide (ParentGeometryElement.nDim = 1) then
    match dE with
    | [e] => Some (Vec6 e 0 0 0 0 0)
    | _ => None
    end
  else if decide (ParentGeometryElement.nDim = 2) then Some (Vgt_planeVoigtToVoigt dE)
  else if decide (ParentGeometryElement.nDim = 3) then Vector6_of dE
  else None.

(** The stress routine that [computeYourself] calls for the dimension and
    the section type of the element, if it calls one. *)
Definition routine_called `{Lib : Libraries} (el : UelDisplacement)
    : option (Material.t -> Material.Routine) :=
  if decide (ParentGeometryElement.nDim = 1) then Some Material.computeUniaxialStress
  else if decide (ParentGeometryElement.nDim = 2) then
    match sectionType el with
    | PlaneStress => Some Material.computePlaneStress
    | PlaneStrain => Some Material.computeStress
    | _ => None
    end
  else if decide (ParentGeometryElement.nDim = 3) then
    match sectionType el with
    | Solid => Some Material.computeStress
    | _ => None
    end
  else None.

(** What the material of a Gauss point answers when [computeYourself]
    calls it on the memory [mem]: the routine of [routine_called],
    applied to the state variables and the stress that the buffer holds
    for the Gauss point, the strain increment, and the fraction [pNewDT]
    as it stands. *)
Definition material_response `{Lib : Libraries} (el : UelDisplacement)
    (dQ : VectorXd) (time : list float) (dT : float) (gaussPt : GaussPt.t)
    (mem : KernelMemory) : option Material.Response :=
  routine ← routine_called el;
  dE6 ← dE6_at dQ gaussPt;
  mat ← GaussPt.material gaussPt;
  stress_data ← GaussPt.stress gaussPt;
  vp ← Material.stateVars mat;
  stress_ ← load6 (stateVars mem) stress_data;
  sdv ← load (stateVars mem) vp (Z.to_nat (Material.nStateVars mat));
  Some (routine mat (Material.characteristicElementLength mat) sdv stress_ dE6 time dT
          (pNewDT mem)).

(** The increment that [computeYourself] adds to the strain of a Gauss
    point in two and three dimensions: the strain increment array as the
    called routine leaves it, or the strain increment itself when no
    routine is called. *)
Definition dE6_added `{Lib : Libraries} (el : UelDisplacement)
    (dQ : VectorXd) (time : list float) (dT : float) (gaussPt : GaussPt.t)
    (mem : KernelMemory) : option Vector6 :=
  match routine_called el with
  | Some _ => Material.dStrain <$> material_response el dQ time dT gaussPt mem
  | None => dE6_at dQ gaussPt
  end.

(** The Gauss point has its geometry, and its [B] has the rows of the
    fixed-size strain increment where the shape decides whether a step
    is defined: one row in one dimension, six in three. *)
Definition initialised `{Lib : Libraries} (gpt : GaussPt.t) : bool :=
  match GaussPt.geometry gpt with
  | Some geom =>
      if decide (ParentGeometryElement.nDim = 1)
      then Nat.eqb (length (Geometry.B geom)) 1
      else if decide (ParentGeometryElement.nDim = 3)
           then Nat.eqb (length (Geometry.B geom)) 6
           else true
  | None => false
  end.

(** The matrix [B] that [initializeYourself] caches for a Gauss point at
    [xi], for the nodal coordinates [coords]. *)
Definition B_at `{Lib : Libraries} (coords : VectorXd) (xi : VectorXd) : MatrixXd :=
  let dNdXi_ := ParentGeometryElement.dNdXi xi in
  ParentGeometryElement.B
    (ParentGeometryElement.dNdX dNdXi_
       (Eigen_inverse (ParentGeometryElement.Jacobian coords dNdXi_))).

(** A stress in the form in which [computeYourself] assigns it to [S]
    in two dimensions ([voigtToPlaneVoigt]) and in three (as it is). *)
Definition stress_form `{Lib : Libraries} (s : Vector6) : VectorXd :=
  if decide (ParentGeometryElement.nDim = 2) then Vgt_voigtToPlaneVoigt s else Vector6_data s.

(** The stress that the buffer holds for a Gauss point, in that form. *)
Definition stress_at `{Lib : Libraries} (buf : list float) (gpt : GaussPt.t)
    : option VectorXd :=
  stress_data ← GaussPt.stress gpt;
  s ← load6 buf stress_data;
  Some (stress_form s).

(** [Pe -= B^T * S * intVol] for one Gauss point after the other, with
    [S_at] giving the [S] of each. *)
Fixpoint integrate_Pe (S_at : GaussPt.t -> option VectorXd) (Pe_ : VectorXd)
    (gpts : list GaussPt.t) : option VectorXd :=
  match gpts with
  | [] => Some Pe_
  | gpt :: rest =>
      geom ← GaussPt.geometry gpt;
      S_ ← S_at gpt;
      integrate_Pe S_at
        (vec_sub Pe_
           (vec_scale (mat_vec (transpose (Geometry.B geom)) S_) (Geometry.intVol geom)))
        rest
  end.

(** The integration volume of a Gauss point for the section type of the
    element and the nodal coordinates [coords]: weight * det(J), times
    [elementProperties[0]] unless the section is [Solid]. *)
Definition intVol_at `{Lib : Libraries} (el : UelDisplacement) (coords : VectorXd)
    (gpt : GaussPt.t) : option float :=
  match sectionType el with
  | Solid => Some (GaussPt.weight gpt * detJ_at coords gpt)%float
  | _ =>
      a ← elementProperties el !! 0%nat;
      Some (GaussPt.weight gpt * detJ_at coords gpt * a)%float
  end.

(** [P += NB( N( xi ) )^T * f * volume] for one Gauss point after the
    other, with [volume] giving the integration volume of each. *)
Fixpoint integrate_body_force `{Lib : Libraries} (f : VectorXd)
    (volume : GaussPt.t -> option float) (P : VectorXd) (gpts : list GaussPt.t)
    : option VectorXd :=
  match gpts with
  | [] => Some P
  | gpt :: rest =>
      v ← volume gpt;
      integrate_body_force f volume
        (vec_add P
           (vec_scale
              (mat_vec
                 (transpose
                    (ParentGeometryElement.NB (ParentGeometryElement.N (GaussPt.xi gpt))))
                 f)
              v))
        rest
  end.
(** * Properties *)

(** ** Machine integers *)

Lemma to_size_t_small (z : Z) : 0 <= z < 2 ^ 64 -> to_size_t z = z.
Proof. intros Hz. unfold to_size_t. apply Z.mod_small. exact Hz. Qed.

Lemma to_int_small (z : Z) : - 2 ^ 31 <= z < 2 ^ 31 -> to_int z = z.
Proof.
  intros Hz. unfold to_int.
  rewrite Z.mod_small by lia. lia.
Qed.

(** A value in the range of [int] survives the detour through [size_t]. *)
Lemma to_int_to_size_t (z : Z) : - 2 ^ 31 <= z < 2 ^ 31 -> to_int (to_size_t z) = z.
Proof.
  intros Hz. unfold to_int, to_size_t.
  destruct (Z_lt_le_dec z 0) as [Hneg | Hpos].
  - assert (Hm : z mod 2 ^ 64 = z + 2 ^ 64).
    { symmetry. apply (Z.mod_unique z (2 ^ 64) (-1)); lia. }
    rewrite Hm.
    replace (z + 2 ^ 64 + 2 ^ 31) with (z + 2 ^ 31 + 2 ^ 32 * 2 ^ 32) by lia.
    rewrite Z_mod_plus_full, Z.mod_small by lia. lia.
  - rewrite (Z.mod_small z) by lia.
    rewrite Z.mod_small by lia. lia.
Qed.

(** ** The state buffer *)

Section Buffer.

Implicit Types (buf : list float) (p q : Z) (n : nat) (vs : list float).

Lemma load_Some buf p n l :
  load buf p n = Some l <->
  0 <= p /\ (Z.to_nat p + n <= length buf)%nat /\ l = take n (drop (Z.to_nat p) buf).
Proof.
  unfold load. case_decide as Hr; split.
  - intros [= <-]. tauto.
  - intros (_ & _ & ->). reflexivity.
  - discriminate.
  - intros (? & ? & _). tauto.
Qed.

Lemma load_length buf p n l : load buf p n = Some l -> length l = n.
Proof.
  intros (_ & Hn & ->)%load_Some.
  rewrite length_take, length_drop. lia.
Qed.

Lemma load_lookup buf p n l (i : nat) :
  load buf p n = Some l -> (i < n)%nat -> l !! i = buf !! (Z.to_nat p + i)%nat.
Proof.
  intros (_ & _ & ->)%load_Some Hi.
  rewrite lookup_take_lt, lookup_drop by lia. reflexivity.
Qed.

Lemma load_is_Some buf p n :
  0 <= p -> (Z.to_nat p + n <= length buf)%nat -> is_Some (load buf p n).
Proof. intros ? ?. unfold load. rewrite decide_True by tauto. eauto. Qed.

Lemma store_Some buf p vs buf' :
  store buf p vs = Some buf' <->
  0 <= p /\ (Z.to_nat p + length vs <= length buf)%nat
  /\ buf' = list_inserts (Z.to_nat p) vs buf.
Proof.
  unfold store. case_decide as Hr; split.
  - intros [= <-]. tauto.
  - intros (_ & _ & ->). reflexivity.
  - discriminate.
  - intros (? & ? & _). tauto.
Qed.

Lemma store_length buf p vs buf' : store buf p vs = Some buf' -> length buf' = length buf.
Proof. intros (_ & _ & ->)%store_Some. apply length_inserts. Qed.

Lemma store_is_Some buf p vs :
  0 <= p -> (Z.to_nat p + length vs <= length buf)%nat -> is_Some (store buf p vs).
Proof. intros ? ?. unfold store. rewrite decide_True by tauto. eauto. Qed.

Lemma same_outside_refl lo hi buf : same_outside lo hi buf buf.
Proof. split; reflexivity || auto. Qed.

Lemma same_outside_trans lo hi buf1 buf2 buf3 :
  same_outside lo hi buf1 buf2 -> same_outside lo hi buf2 buf3 ->
  same_outside lo hi buf1 buf3.
Proof.
  intros [Hl1 H1] [Hl2 H2]. split; [congruence |].
  intros i Hi. rewrite H2, H1 by exact Hi. reflexivity.
Qed.

Lemma same_outside_weaken lo hi lo' hi' buf buf' :
  lo' <= lo -> hi <= hi' -> same_outside lo hi buf buf' -> same_outside lo' hi' buf buf'.
Proof.
  intros ? ? [Hl H]. split; [exact Hl |].
  intros i Hi. apply H. lia.
Qed.

Lemma store_same_outside buf p vs buf' :
  store buf p vs = Some buf' -> same_outside p (p + Z.of_nat (length vs)) buf buf'.
Proof.
  intros Hs. split; [eapply store_length; eassumption |].
  apply store_Some in Hs as (Hp & Hr & ->).
  intros i Hi.
  destruct (decide (i < Z.to_nat p)%nat).
  - apply list_lookup_inserts_lt. assumption.
  - apply list_lookup_inserts_ge. lia.
Qed.

(** A window read outside the changed offsets reads the same. *)
Lemma load_same_outside lo hi buf buf' q n :
  same_outside lo hi buf buf' ->
  q + Z.of_nat n <= lo \/ hi <= q ->
  load buf' q n = load buf q n.
Proof.
  intros [Hl H] Hq. unfold load. rewrite Hl.
  case_decide as Hr; [| reflexivity].
  f_equal. apply list_eq. intros i.
  destruct (decide (i < n)%nat).
  - rewrite !lookup_take_lt, !lookup_drop by assumption. apply H. lia.
  - rewrite !lookup_take_ge by lia. reflexivity.
Qed.

Lemma load_store_same buf p vs buf' :
  store buf p vs = Some buf' -> load buf' p (length vs) = Some vs.
Proof.
  intros Hs. pose proof (store_length _ _ _ _ Hs) as Hl.
  apply store_Some in Hs as (Hp & Hr & ->).
  unfold load. rewrite decide_True by (rewrite Hl; tauto).
  f_equal. apply list_eq. intros i.
  destruct (decide (i < length vs)%nat).
  - rewrite lookup_take_lt, lookup_drop by assumption.
    rewrite list_lookup_inserts by lia. f_equal. lia.
  - rewrite lookup_take_ge by lia. symmetry. apply lookup_ge_None. lia.
Qed.

Lemma Vector6_of_data v : Vector6_of (Vector6_data v) = Some v.
Proof. destruct v. reflexivity. Qed.

Lemma Vector6_of_Some l v : Vector6_of l = Some v -> l = Vector6_data v.
Proof.
  destruct l as [| a [| b [| c [| d [| e [| f [| g l]]]]]]]; try discriminate.
  intros [= <-]. reflexivity.
Qed.

Lemma load6_store6_same buf p v buf' : store6 buf p v = Some buf' -> load6 buf' p = Some v.
Proof.
  intros Hs. unfold load6. apply load_store_same in Hs. simpl in Hs.
  rewrite Hs. simpl. apply Vector6_of_data.
Qed.

Lemma load6_same_outside lo hi buf buf' q :
  same_outside lo hi buf buf' -> q + 6 <= lo \/ hi <= q -> load6 buf' q = load6 buf q.
Proof.
  intros H Hq. unfold load6.
  rewrite (load_same_outside lo hi buf buf' q 6 H) by (simpl; lia). reflexivity.
Qed.

Lemma store6_same_outside buf p v buf' :
  store6 buf p v = Some buf' -> same_outside p (p + 6) buf buf'.
Proof. intros Hs. apply store_same_outside in Hs. exact Hs. Qed.

Lemma load6_is_Some buf p :
  0 <= p -> (Z.to_nat p + 6 <= length buf)%nat -> is_Some (load6 buf p).
Proof.
  intros Hp Hr. unfold load6.
  destruct (load_is_Some buf p 6 Hp Hr) as [l Hl]. rewrite Hl. simpl.
  pose proof (load_length _ _ _ _ Hl) as Hlen.
  destruct l as [| a [| b [| c [| d [| e [| f [| g l]]]]]]]; try discriminate.
  simpl. eauto.
Qed.

End Buffer.

(** ** Loops over the Gauss points *)

Section Loops.

Context {A : Type}.
Implicit Types (body : Z -> A -> option A) (v : list A).

Lemma for_indexed_Some body i v v' :
  for_indexed body i v = Some v' ->
  length v' = length v /\
  forall (j : nat) x, v !! j = Some x ->
    exists x', body (i + Z.of_nat j) x = Some x' /\ v' !! j = Some x'.
Proof.
  revert i v'. induction v as [| x v IH]; intros i v' Hv; simpl in Hv.
  - injection Hv as <-. split; [reflexivity |]. intros j y Hj. discriminate.
  - destruct (body i x) as [x' |] eqn:Hx; [| discriminate]. simpl in Hv.
    destruct (for_indexed body (i + 1) v) as [rest' |] eqn:Hrest; [| discriminate].
    injection Hv as <-. destruct (IH _ _ Hrest) as [Hlen Hlook].
    split; [simpl; congruence |].
    intros [| j] y Hj; simpl in Hj.
    + injection Hj as <-. exists x'. rewrite Z.add_0_r. auto.
    + destruct (Hlook j y Hj) as (y' & Hb & Hy').
      exists y'. split; [| exact Hy'].
      rewrite <- Hb. f_equal. lia.
Qed.

Lemma for_indexed_is_Some body i v :
  (forall (j : nat) x, v !! j = Some x -> is_Some (body (i + Z.of_nat j) x)) ->
  is_Some (for_indexed body i v).
Proof.
  revert i. induction v as [| x v IH]; intros i Hb; simpl; [eauto |].
  destruct (Hb 0%nat x eq_refl) as [x' Hx]. rewrite Z.add_0_r in Hx. rewrite Hx. simpl.
  destruct (IH (i + 1)) as [rest' Hrest].
  - intros j y Hj. specialize (Hb (S j) y Hj).
    replace (i + 1 + Z.of_nat j) with (i + Z.of_nat (S j)) by lia. exact Hb.
  - rewrite Hrest. simpl. eauto.
Qed.

End Loops.

(** ** State variables *)

(** C4: with a material on the first Gauss point, the element requires
    (state variables of the material + 12) times the number of Gauss
    points, as long as that number fits an [int]. *)
Theorem getNumberOfRequiredStateVars_value (el : UelDisplacement) gpt m :
  gaussPts el !! 0%nat = Some gpt ->
  GaussPt.material gpt = Some m ->
  0 <= Material.getNumberOfRequiredStateVars m ->
  (Material.getNumberOfRequiredStateVars m + 12) * Z.of_nat (length (gaussPts el)) <= INT_MAX ->
  getNumberOfRequiredStateVars el =
    Returns ((Material.getNumberOfRequiredStateVars m + 12) * Z.of_nat (length (gaussPts el))).
Proof.
  intros Hgpt Hm Hpos Hmax. unfold getNumberOfRequiredStateVars.
  rewrite Hgpt. simpl. rewrite Hm. simpl. f_equal.
  unfold GaussPt.nRequiredStateVars, INT_MAX in *.
  change (6 + 6) with 12.
  set (r := Material.getNumberOfRequiredStateVars m) in *.
  set (g := Z.of_nat (length (gaussPts el))) in *.
  assert (Hg : 1 <= g).
  { apply lookup_lt_Some in Hgpt. unfold g. lia. }
  assert (Hr : r + 12 <= 2 ^ 31 - 1) by nia.
  rewrite (to_int_small (r + 12)) by lia.
  rewrite (to_size_t_small (r + 12)) by lia.
  apply to_int_to_size_t. nia.
Qed.

Lemma getNumberOfRequiredStateVars_value_witness :
  getNumberOfRequiredStateVars Instances.triangle_assigned = Returns 39.
Proof.
  apply (getNumberOfRequiredStateVars_value Instances.triangle_assigned
           (GaussPt.set_material
              (GaussPt.make [0.5%float; 0%float] 0.25%float)
              (Some (Instances.linear_material 4 10)))
           (Instances.linear_material 4 10)).
  - reflexivity.
  - reflexivity.
  - simpl. lia.
  - vm_compute. discriminate.
Defined.

Lemma bound_at_true base m i gpt :
  bound_at base m i gpt = true <->
  GaussPt.stress gpt = Some (base + m + i * (m + 12)) /\
  GaussPt.strain gpt = Some (base + m + i * (m + 12) + 6) /\
  exists mat, GaussPt.material gpt = Some mat /\
    Material.stateVars mat = Some (base + i * (m + 12)) /\
    Material.nStateVars mat = m.
Proof.
  unfold bound_at.
  destruct (GaussPt.stress gpt) as [s |], (GaussPt.strain gpt) as [e |],
    (GaussPt.material gpt) as [mat |];
    try (split; [discriminate | intros (? & ? & ? & ? & _); congruence]).
  rewrite !andb_true_iff, !Z.eqb_eq. split.
  - intros [[[-> ->] Hv] Hn]. repeat split. exists mat.
    destruct (Material.stateVars mat) as [v |]; [| discriminate].
    apply Z.eqb_eq in Hv. subst v. auto.
  - intros ([= ->] & [= ->] & mat' & [= <-] & Hv & Hn).
    rewrite Hv. rewrite Z.eqb_refl. auto.
Qed.

Lemma bound_from_lookup base m i gpts :
  bound_from base m i gpts = true <->
  forall (j : nat) gpt, gpts !! j = Some gpt -> bound_at base m (i + Z.of_nat j) gpt = true.
Proof.
  revert i. induction gpts as [| g gpts IH]; intros i; simpl.
  - split; [intros _ j gpt Hj; discriminate | reflexivity].
  - rewrite andb_true_iff, IH. split.
    + intros [Hg Hrest] [| j] gpt Hj; simpl in Hj.
      * injection Hj as <-. rewrite Z.add_0_r. exact Hg.
      * replace (i + Z.of_nat (S j)) with (i + 1 + Z.of_nat j) by lia. auto.
    + intros H. split.
      * specialize (H 0%nat g eq_refl). rewrite Z.add_0_r in H. exact H.
      * intros j gpt Hj. specialize (H (S j) gpt Hj).
        replace (i + Z.of_nat (S j)) with (i + 1 + Z.of_nat j) in H by lia. exact H.
Qed.

(** What [assignStateVars] computes when the length is in the range of
    [int]: the quotient, minus the 12 doubles of stress and strain. *)
Lemma nStateVarsMaterial_value (n g : Z) :
  0 <= n <= INT_MAX -> 1 <= g ->
  to_int (to_size_t (to_size_t n / g - GaussPt.nRequiredStateVars)) = n / g - 12.
Proof.
  unfold INT_MAX, GaussPt.nRequiredStateVars. intros Hn Hg. change (6 + 6) with 12.
  rewrite (to_size_t_small n) by lia.
  assert (0 <= n / g <= n).
  { split; [apply Z.div_pos; lia |]. apply Z.div_le_upper_bound; nia. }
  apply to_int_to_size_t. lia.
Qed.

Lemma pointer_offset_small (k : Z) :
  - 2 ^ 60 <= k < 2 ^ 60 -> pointer_offset k = k.
Proof.
  intros Hk. unfold pointer_offset.
  rewrite Z.mod_small by lia. lia.
Qed.

Lemma assignStateVars_block (n g i : Z) :
  0 <= n <= INT_MAX -> 1 <= g -> 0 <= i < g ->
  pointer_offset
    (to_size_t (i * to_size_t (to_int (n / g - 12 + GaussPt.nRequiredStateVars))))
  = i * (n / g - 12 + 12).
Proof.
  unfold INT_MAX, GaussPt.nRequiredStateVars. intros Hn Hg Hi. change (6 + 6) with 12.
  assert (0 <= n / g <= n).
  { split; [apply Z.div_pos; lia |]. apply Z.div_le_upper_bound; nia. }
  assert (g * (n / g) <= n) by (apply Z.mul_div_le; lia).
  replace (n / g - 12 + 12) with (n / g) by lia.
  rewrite (to_int_small (n / g)) by lia.
  rewrite (to_size_t_small (n / g)) by lia.
  rewrite (to_size_t_small (i * (n / g))) by nia.
  apply pointer_offset_small. nia.
Qed.

(** With a material on every Gauss point, [assignStateVars] returns and
    binds Gauss point [i] to block [i] of the layout for
    [nStateVars / gaussPts.size() - 12] state variables. *)
Lemma assignStateVars_binds (el : UelDisplacement) (base n : Z) :
  gaussPts el <> [] ->
  Forall (fun gpt => is_Some (GaussPt.material gpt)) (gaussPts el) ->
  0 <= n <= INT_MAX ->
  exists el',
    assignStateVars el base n = Returns el' /\
    length (gaussPts el') = length (gaussPts el) /\
    bound_from base (n / Z.of_nat (length (gaussPts el)) - 12) 0 (gaussPts el') = true.
Proof.
  intros Hne Hmat Hn. unfold assignStateVars.
  set (g := Z.of_nat (length (gaussPts el))).
  assert (Hg : 1 <= g).
  { unfold g. destruct (gaussPts el); [congruence | simpl; lia]. }
  rewrite decide_False by lia.
  rewrite (nStateVarsMaterial_value n g Hn Hg).
  destruct (for_indexed_is_Some (assignStateVars_body base (n / g - 12)) 0 (gaussPts el))
    as [gpts Hgpts].
  { intros j gpt Hj. rewrite Forall_lookup in Hmat.
    destruct (Hmat j gpt Hj) as [mat Hm].
    unfold assignStateVars_body. rewrite Hm. simpl. eauto. }
  rewrite Hgpts. simpl. eexists. split; [reflexivity |].
  apply for_indexed_Some in Hgpts as [Hlen Hlook]. simpl.
  split; [exact Hlen |].
  apply bound_from_lookup. intros j gpt' Hj.
  assert (Hjg : (j < length (gaussPts el))%nat).
  { rewrite <- Hlen. eapply lookup_lt_Some. eassumption. }
  destruct (lookup_lt_is_Some_2 _ _ Hjg) as [gpt Hgpt].
  destruct (Hlook j gpt Hgpt) as (gpt'' & Hbody & Hj').
  rewrite Hj in Hj'. injection Hj' as <-.
  unfold assignStateVars_body in Hbody.
  destruct (GaussPt.material gpt) as [mat |]; [| discriminate]. simpl in Hbody.
  injection Hbody as <-.
  rewrite (assignStateVars_block n g (0 + Z.of_nat j)) by (unfold g; lia).
  generalize (n / g). intros q.
  apply bound_at_true. simpl.
  split; [f_equal; lia | split; [f_equal; lia |]].
  eexists. split; [reflexivity |]. simpl. split; [f_equal; lia | reflexivity].
Qed.

(** What [assignStateVars] leaves as it was: the members of the element
    other than the Gauss points, and of each Gauss point its position,
    weight and geometry. *)
Lemma assignStateVars_keeps (el : UelDisplacement) (base n : Z) el' :
  assignStateVars el base n = Returns el' ->
  el' = set_gaussPts el (gaussPts el') /\
  forall (i : nat) gpt, gaussPts el !! i = Some gpt ->
    exists gpt',
      gaussPts el' !! i = Some gpt' /\
      GaussPt.xi gpt' = GaussPt.xi gpt /\
      GaussPt.weight gpt' = GaussPt.weight gpt /\
      GaussPt.geometry gpt' = GaussPt.geometry gpt.
Proof.
  unfold assignStateVars. case_decide; [discriminate |].
  destruct (for_indexed _ 0 (gaussPts el)) as [gpts |] eqn:Hgpts; [| discriminate].
  simpl. intros [= <-]. split; [reflexivity |].
  apply for_indexed_Some in Hgpts as [_ Hlook].
  intros i gpt Hi. destruct (Hlook i gpt Hi) as (gpt' & Hbody & Hi').
  exists gpt'. split; [exact Hi' |].
  unfold assignStateVars_body in Hbody.
  destruct (GaussPt.material gpt) as [mat |]; [| discriminate]. simpl in Hbody.
  injection Hbody as <-. auto.
Qed.

(** C3, as the code has it: [assignStateVars] checks no length.  On an
    element with at least one Gauss point and a material in every Gauss
    point, for any length from 0 to [INT_MAX] it returns.  The element it
    leaves has the same number of Gauss points, each with the position,
    weight and geometry it had, and nothing else of the element is
    changed; every Gauss point is bound to its block of the layout for
    the truncated quotient [totalLength / gaussPointCount - 12].  A
    length that is no exact multiple is not rejected. *)
Theorem assignStateVars_checks_no_length (el : UelDisplacement) (base n : Z) :
  gaussPts el <> [] ->
  Forall (fun gpt => is_Some (GaussPt.material gpt)) (gaussPts el) ->
  0 <= n <= INT_MAX ->
  exists el',
    assignStateVars el base n = Returns el' /\
    el' = set_gaussPts el (gaussPts el') /\
    length (gaussPts el') = length (gaussPts el) /\
    bound_from base (n / Z.of_nat (length (gaussPts el)) - 12) 0 (gaussPts el') = true /\
    forall (i : nat) gpt, gaussPts el !! i = Some gpt ->
      exists gpt',
        gaussPts el' !! i = Some gpt' /\
        GaussPt.xi gpt' = GaussPt.xi gpt /\
        GaussPt.weight gpt' = GaussPt.weight gpt /\
        GaussPt.geometry gpt' = GaussPt.geometry gpt.
Proof.
  intros Hne Hmat Hn.
  destruct (assignStateVars_binds el base n Hne Hmat Hn) as (el' & Hr & Hlen & Hb).
  destruct (assignStateVars_keeps el base n el' Hr) as [Hel Hkeep].
  exists el'. auto.
Qed.

Lemma assignStateVars_checks_no_length_witness :
  exists el',
    assignStateVars Instances.triangle_assigned 0 40 = Returns el' /\
    el' = set_gaussPts Instances.triangle_assigned (gaussPts el') /\
    length (gaussPts el') = length (gaussPts Instances.triangle_assigned) /\
    bound_from 0 (40 / Z.of_nat (length (gaussPts Instances.triangle_assigned)) - 12) 0
      (gaussPts el') = true /\
    forall (i : nat) gpt, gaussPts Instances.triangle_assigned !! i = Some gpt ->
      exists gpt',
        gaussPts el' !! i = Some gpt' /\
        GaussPt.xi gpt' = GaussPt.xi gpt /\
        GaussPt.weight gpt' = GaussPt.weight gpt /\
        GaussPt.geometry gpt' = GaussPt.geometry gpt.
Proof.
  apply (assignStateVars_checks_no_length Instances.triangle_assigned 0 40).
  - vm_compute. discriminate.
  - vm_compute. repeat constructor; eexists; reflexivity.
  - vm_compute. split; discriminate.
Defined.

(** C3, as stated, fails: a length of 40 for three Gauss points with one
    state variable each is no multiple of 39, and the call returns with
    the binding it makes for 39. *)
Lemma assignStateVars_does_not_fail_fast :
  40 mod ((Material.getNumberOfRequiredStateVars (Instances.linear_material 4 10) + 12)
          * Z.of_nat (length (gaussPts Instances.triangle_assigned))) <> 0 /\
  assignStateVars Instances.triangle_assigned 0 40 = Returns Instances.triangle_bound /\
  ~ fails (assignStateVars Instances.triangle_assigned 0 40).
Proof.
  split; [vm_compute; discriminate |].
  split; [vm_compute; reflexivity |].
  vm_compute. tauto.
Qed.

Lemma getPermanentResultPointer_stress (el : UelDisplacement) (i : nat) gpt :
  gaussPts el !! i = Some gpt ->
  getPermanentResultPointer el "stress" (Z.of_nat i) = Returns (GaussPt.stress gpt, 6).
Proof.
  intros Hi. unfold getPermanentResultPointer, at_index.
  rewrite decide_True by lia. rewrite Nat2Z.id, Hi. reflexivity.
Qed.

Lemma getPermanentResultPointer_strain (el : UelDisplacement) (i : nat) gpt :
  gaussPts el !! i = Some gpt ->
  getPermanentResultPointer el "strain" (Z.of_nat i) = Returns (GaussPt.strain gpt, 6).
Proof.
  intros Hi. unfold getPermanentResultPointer, at_index.
  rewrite decide_True by lia. rewrite Nat2Z.id, Hi. reflexivity.
Qed.

(** C6: six stress values and six strain values written into the slots
    of Gauss point [i] in the state buffer are read back, after
    [assignStateVars] on that buffer, through the pointers of length 6
    that [getPermanentResultPointer] returns for "stress" and "strain";
    for every length that leaves each Gauss point its 12 doubles. *)
Theorem stress_strain_round_trip (el : UelDisplacement) (base n : Z)
    (buf : list float) (i : nat) (s e : Vector6) :
  Forall (fun gpt => is_Some (GaussPt.material gpt)) (gaussPts el) ->
  (i < length (gaussPts el))%nat ->
  0 <= base -> 0 <= n <= INT_MAX ->
  12 * Z.of_nat (length (gaussPts el)) <= n ->
  base + n <= Z.of_nat (length buf) ->
  let m := n / Z.of_nat (length (gaussPts el)) - 12 in
  let slot := base + Z.of_nat i * (m + 12) + m in
  exists buf1 buf2 el' p q,
    store6 buf slot s = Some buf1 /\
    store6 buf1 (slot + 6) e = Some buf2 /\
    assignStateVars el base n = Returns el' /\
    getPermanentResultPointer el' "stress" (Z.of_nat i) = Returns (Some p, 6) /\
    load6 buf2 p = Some s /\
    getPermanentResultPointer el' "strain" (Z.of_nat i) = Returns (Some q, 6) /\
    load6 buf2 q = Some e.
Proof.
  intros Hmat Hi Hbase Hn Hroom Hbuf m slot.
  assert (Hne : gaussPts el <> []) by (destruct (gaussPts el); [simpl in Hi; lia | congruence]).
  destruct (assignStateVars_binds el base n Hne Hmat Hn) as (el' & Hr & Hlen & Hb).
  fold m in Hb.
  set (g := Z.of_nat (length (gaussPts el))) in *.
  assert (Hg : 1 <= g) by (unfold g; lia).
  assert (Hq : 12 <= n / g) by (apply Z.div_le_lower_bound; lia).
  assert (Hgq : g * (n / g) <= n) by (apply Z.mul_div_le; lia).
  assert (Hm : 0 <= m) by (unfold m; lia).
  assert (Hslot : 0 <= slot /\ slot + 12 <= Z.of_nat (length buf)).
  { unfold slot, m in *. generalize dependent (n / g). intros k. intros. nia. }
  destruct (store_is_Some buf slot (Vector6_data s)) as [buf1 Hs1]; [lia | simpl; lia |].
  pose proof (store_length _ _ _ _ Hs1) as Hl1.
  destruct (store_is_Some buf1 (slot + 6) (Vector6_data e)) as [buf2 Hs2];
    [lia | simpl; lia |].
  assert (Hi' : (i < length (gaussPts el'))%nat) by lia.
  destruct (lookup_lt_is_Some_2 _ _ Hi') as [gpt' Hgpt'].
  rewrite bound_from_lookup in Hb. specialize (Hb i gpt' Hgpt').
  apply bound_at_true in Hb as (Hstress & Hstrain & _).
  exists buf1, buf2, el', slot, (slot + 6).
  split; [exact Hs1 |]. split; [exact Hs2 |]. split; [exact Hr |].
  split.
  { rewrite (getPermanentResultPointer_stress el' i gpt' Hgpt'), Hstress.
    do 3 f_equal. unfold slot. lia. }
  split.
  { rewrite (load6_same_outside (slot + 6) (slot + 6 + 6) buf1 buf2 slot).
    - apply (load6_store6_same buf slot s buf1 Hs1).
    - apply (store6_same_outside buf1 (slot + 6) e buf2 Hs2).
    - lia. }
  split.
  { rewrite (getPermanentResultPointer_strain el' i gpt' Hgpt'), Hstrain.
    do 3 f_equal. unfold slot. lia. }
  apply (load6_store6_same buf1 (slot + 6) e buf2 Hs2).
Qed.

Lemma stress_strain_round_trip_witness :
  exists buf1 buf2 el' p q,
    store6 (Instances.zeros 39) 14 (Vec6 1 2 3 4 5 6) = Some buf1 /\
    store6 buf1 (14 + 6) (Vec6 7 8 9 10 11 12) = Some buf2 /\
    assignStateVars Instances.triangle_assigned 0 39 = Returns el' /\
    getPermanentResultPointer el' "stress" 1 = Returns (Some p, 6) /\
    load6 buf2 p = Some (Vec6 1 2 3 4 5 6) /\
    getPermanentResultPointer el' "strain" 1 = Returns (Some q, 6) /\
    load6 buf2 q = Some (Vec6 7 8 9 10 11 12).
Proof.
  apply (stress_strain_round_trip Instances.triangle_assigned 0 39 (Instances.zeros 39) 1
           (Vec6 1 2 3 4 5 6) (Vec6 7 8 9 10 11 12)).
  - vm_compute. repeat constructor; eexists; reflexivity.
  - vm_compute. lia.
  - lia.
  - vm_compute. split; discriminate.
  - vm_compute. discriminate.
  - vm_compute. discriminate.
Defined.

(** ** Loads and initial conditions *)

Section Loads.

Context `{Lib : Libraries}.

(** C7: a load type other than [Pressure] makes [computeDistributedLoad]
    throw [std::invalid_argument], and the load vector [P] is as it was
    passed. *)
Theorem computeDistributedLoad_unsupported (el : UelDisplacement)
    (loadType : DistributedLoadTypes) (P : VectorXd) (elementFace : Z) (load : list float) :
  loadType <> Pressure ->
  computeDistributedLoad el loadType P elementFace load
  = Throws (invalid_argument "Invalid Load Type specified") P.
Proof.
  intros Hload. destruct loadType as [| value]; [congruence | reflexivity].
Qed.

(** C10: [setInitialConditions] with a state type other than
    [GeostaticStress], or with [GeostaticStress] in one dimension,
    returns and leaves the state buffer, and so the stress and strain
    of every Gauss point, as it was. *)
Theorem setInitialConditions_no_op (el : UelDisplacement) (state : StateTypes)
    (values buf : list float) :
  state <> GeostaticStress \/ ParentGeometryElement.nDim = 1 ->
  setInitialConditions el state values buf = Returns buf.
Proof.
  intros [Hstate | Hdim]; unfold setInitialConditions.
  - destruct state; [congruence | reflexivity].
  - destruct state; [| reflexivity].
    rewrite decide_False by lia. reflexivity.
Qed.

End Loads.

Lemma computeDistributedLoad_unsupported_witness :
  computeDistributedLoad (Lib := Instances.triangle_libraries) Instances.triangle_element
    (OtherLoadType 1) [1; 2; 3; 4; 5; 6]%float 0 [10%float]
  = Throws (invalid_argument "Invalid Load Type specified") [1; 2; 3; 4; 5; 6]%float.
Proof.
  apply (computeDistributedLoad_unsupported (Lib := Instances.triangle_libraries)).
  discriminate.
Defined.

Lemma setInitialConditions_no_op_witness :
  setInitialConditions (Lib := Instances.bar_libraries) Instances.bar_element
    GeostaticStress [-1; 0; -3; 2; 0.5; 0.5]%float (Instances.zeros 26)
  = Returns (Instances.zeros 26).
Proof.
  apply (setInitialConditions_no_op (Lib := Instances.bar_libraries)).
  right. reflexivity.
Defined.

(** ** Initialisation *)

Section Initialisation.

Context `{Lib : Libraries}.

(** C5: [initializeYourself] gives every Gauss point its integrated
    volume and forwards the characteristic length to its material:
    weight * det(J) and cbrt(8 det(J)) for [Solid]; weight * det(J) *
    thickness and sqrt(4 det(J)) for [PlaneStress] and [PlaneStrain];
    weight * det(J) * crossSection and 2 det(J) for [UniaxialStress];
    thickness and crossSection being [elementProperties[0]]. *)
Theorem initializeYourself_volume_and_length (el : UelDisplacement) (coords : VectorXd) :
  Forall (fun gpt => is_Some (GaussPt.material gpt)) (gaussPts el) ->
  sectionType el = Solid \/ is_Some (elementProperties el !! 0%nat) ->
  exists el',
    initializeYourself el coords = Returns el' /\
    length (gaussPts el') = length (gaussPts el) /\
    forall (i : nat) gpt, gaussPts el !! i = Some gpt ->
      exists gpt' geom mat',
        gaussPts el' !! i = Some gpt' /\
        GaussPt.geometry gpt' = Some geom /\
        GaussPt.material gpt' = Some mat' /\
        Geometry.detJ geom = detJ_at coords gpt /\
        match sectionType el with
        | Solid =>
            Geometry.intVol geom = (GaussPt.weight gpt * detJ_at coords gpt)%float /\
            Material.characteristicElementLength mat'
            = std_cbrt (8 * detJ_at coords gpt)%float
        | PlaneStress | PlaneStrain =>
            exists thickness,
              elementProperties el !! 0%nat = Some thickness /\
              Geometry.intVol geom
              = (GaussPt.weight gpt * detJ_at coords gpt * thickness)%float /\
              Material.characteristicElementLength mat'
              = sqrt (4 * detJ_at coords gpt)%float
        | UniaxialStress =>
            exists crossSection,
              elementProperties el !! 0%nat = Some crossSection /\
              Geometry.intVol geom
              = (GaussPt.weight gpt * detJ_at coords gpt * crossSection)%float /\
              Material.characteristicElementLength mat'
              = (2 * detJ_at coords gpt)%float
        end.
Proof.
  intros Hmat Hprops. unfold initializeYourself, for_each.
  set (el1 := set_coordinates el (Some coords)).
  change (gaussPts el1) with (gaussPts el).
  destruct (for_indexed_is_Some (fun _ => initializeYourself_body el1 coords) 0 (gaussPts el))
    as [gpts Hgpts].
  { intros j gpt Hj. rewrite Forall_lookup in Hmat.
    destruct (Hmat j gpt Hj) as [mat Hm].
    unfold initializeYourself_body. change (sectionType el1) with (sectionType el).
    change (elementProperties el1) with (elementProperties el).
    destruct Hprops as [-> | [x Hx]].
    - rewrite Hm. simpl. eauto.
    - rewrite Hx, Hm. destruct (sectionType el); simpl; eauto. }
  rewrite Hgpts. simpl. eexists. split; [reflexivity |].
  apply for_indexed_Some in Hgpts as [Hlen Hlook]. simpl.
  split; [exact Hlen |].
  intros i gpt Hi. destruct (Hlook i gpt Hi) as (gpt' & Hbody & Hi').
  unfold initializeYourself_body in Hbody.
  change (sectionType el1) with (sectionType el) in Hbody.
  change (elementProperties el1) with (elementProperties el) in Hbody.
  destruct (sectionType el).
  - destruct (elementProperties el !! 0%nat) as [crossSection |]; [| discriminate].
    destruct (GaussPt.material gpt) as [mat |]; [| discriminate].
    simpl in Hbody. injection Hbody as <-.
    do 3 eexists. split; [exact Hi' |]. simpl.
    split; [reflexivity |]. split; [reflexivity |]. split; [reflexivity |].
    exists crossSection. auto.
  - destruct (elementProperties el !! 0%nat) as [thickness |]; [| discriminate].
    destruct (GaussPt.material gpt) as [mat |]; [| discriminate].
    simpl in Hbody. injection Hbody as <-.
    do 3 eexists. split; [exact Hi' |]. simpl.
    split; [reflexivity |]. split; [reflexivity |]. split; [reflexivity |].
    exists thickness. auto.
  - destruct (elementProperties el !! 0%nat) as [thickness |]; [| discriminate].
    destruct (GaussPt.material gpt) as [mat |]; [| discriminate].
    simpl in Hbody. injection Hbody as <-.
    do 3 eexists. split; [exact Hi' |]. simpl.
    split; [reflexivity |]. split; [reflexivity |]. split; [reflexivity |].
    exists thickness. auto.
  - destruct (GaussPt.material gpt) as [mat |]; [| discriminate].
    simpl in Hbody. injection Hbody as <-.
    do 3 eexists. split; [exact Hi' |]. simpl.
    split; [reflexivity |]. split; [reflexivity |]. split; [reflexivity |].
    auto.
Qed.

End Initialisation.

Lemma initializeYourself_volume_and_length_witness :
  exists el' gpt' geom mat',
    initializeYourself (Lib := Instances.bar_libraries) Instances.bar_bound [0; 2]%float
    = Returns el' /\
    gaussPts el' !! 0%nat = Some gpt' /\
    GaussPt.geometry gpt' = Some geom /\
    GaussPt.material gpt' = Some mat' /\
    Geometry.intVol geom = 3%float /\
    Material.characteristicElementLength mat' = 2%float.
Proof.
  destruct (initializeYourself_volume_and_length (Lib := Instances.bar_libraries)
              Instances.bar_bound [0; 2]%float) as (el' & Hr & _ & Hall).
  - vm_compute. repeat constructor; eexists; reflexivity.
  - right. vm_compute. eexists; reflexivity.
  - destruct (Hall 0%nat
                _ eq_refl) as (gpt' & geom & mat' & Hi & Hg & Hm & _ & Hsec).
    exists el', gpt', geom, mat'.
    destruct Hsec as (crossSection & Hcs & Hvol & Hlen).
    vm_compute in Hcs. injection Hcs as <-.
    repeat split; assumption.
Defined.

(** ** Single coefficients of a view *)

Lemma store_singleton_lookup (buf : list float) (q : Z) (x : float) buf' (j : nat) :
  store buf q [x] = Some buf' ->
  buf' !! j = if decide (j = Z.to_nat q) then Some x else buf !! j.
Proof.
  intros (Hq & Hr & ->)%store_Some. simpl in Hr. case_decide as Hj.
  - subst j. rewrite list_lookup_inserts by (simpl; lia).
    rewrite Nat.sub_diag. reflexivity.
  - destruct (decide (j < Z.to_nat q)%nat).
    + apply list_lookup_inserts_lt. assumption.
    + apply list_lookup_inserts_ge. simpl. lia.
Qed.

Lemma load_head (buf : list float) (q : Z) :
  0 <= q -> load buf q 1 ≫= head = buf !! Z.to_nat q.
Proof.
  intros Hq. unfold load. case_decide as Hr.
  - simpl. destruct (drop (Z.to_nat q) buf) as [| x l] eqn:Hd.
    + apply (f_equal length) in Hd. rewrite length_drop in Hd. simpl in Hd. lia.
    + simpl. rewrite <- (Nat.add_0_r (Z.to_nat q)), <- lookup_drop, Hd. reflexivity.
  - simpl. symmetry. apply lookup_ge_None. lia.
Qed.

Lemma load6_Some (buf : list float) (p : Z) (v : Vector6) :
  load6 buf p = Some v <->
  0 <= p /\
  buf !! (Z.to_nat p + 0)%nat = Some (v6_0 v) /\
  buf !! (Z.to_nat p + 1)%nat = Some (v6_1 v) /\
  buf !! (Z.to_nat p + 2)%nat = Some (v6_2 v) /\
  buf !! (Z.to_nat p + 3)%nat = Some (v6_3 v) /\
  buf !! (Z.to_nat p + 4)%nat = Some (v6_4 v) /\
  buf !! (Z.to_nat p + 5)%nat = Some (v6_5 v).
Proof.
  unfold load6. split.
  - destruct (load buf p 6) as [l |] eqn:Hl; [| discriminate]. simpl.
    intros Hv. apply Vector6_of_Some in Hv. subst l.
    pose proof (proj1 (load_Some _ _ _ _) Hl) as (Hp & _ & _).
    split; [exact Hp |].
    repeat split;
      (erewrite <- (load_lookup buf p 6 _ _ Hl) by lia; reflexivity).
  - intros (Hp & H0 & H1 & H2 & H3 & H4 & H5).
    assert (Hr : (Z.to_nat p + 6 <= length buf)%nat).
    { apply lookup_lt_Some in H5. lia. }
    destruct (load_is_Some buf p 6 Hp Hr) as [l Hl]. rewrite Hl. simpl.
    pose proof (load_length _ _ _ _ Hl) as Hlen.
    pose proof (fun i Hi => load_lookup buf p 6 l i Hl Hi) as Hlk.
    destruct l as [| a [| b [| c [| d [| e [| f [| g l]]]]]]]; try discriminate.
    pose proof (Hlk 0%nat ltac:(lia)) as L0. pose proof (Hlk 1%nat ltac:(lia)) as L1.
    pose proof (Hlk 2%nat ltac:(lia)) as L2. pose proof (Hlk 3%nat ltac:(lia)) as L3.
    pose proof (Hlk 4%nat ltac:(lia)) as L4. pose proof (Hlk 5%nat ltac:(lia)) as L5.
    simpl in L0, L1, L2, L3, L4, L5.
    rewrite H0 in L0. rewrite H1 in L1. rewrite H2 in L2.
    rewrite H3 in L3. rewrite H4 in L4. rewrite H5 in L5.
    destruct v. simpl in *. congruence.
Qed.

Section InitialConditions.

Context `{Lib : Libraries}.

Variables (el : UelDisplacement) (coords : VectorXd).
Variables (sigY1 y1 sigY2 y2 ratio_x ratio_z : float).

Hypothesis coordinates_bound : coordinates el = Some coords.

Lemma setInitialConditions_body_spec (buf : list float) (gpt : GaussPt.t) p y old :
  GaussPt.stress gpt = Some p ->
  coordAtGauss coords gpt !! 1%nat = Some y ->
  load6 buf p = Some old ->
  exists buf',
    setInitialConditions_body el [sigY1; y1; sigY2; y2; ratio_x; ratio_z] buf gpt = Some buf' /\
    same_outside p (p + 3) buf buf' /\
    load6 buf' p = Some (geostatic sigY1 y1 sigY2 y2 ratio_x ratio_z y old).
Proof.
  intros Hp Hy Hold. unfold setInitialConditions_body.
  rewrite coordinates_bound. simpl.
  unfold coordAtGauss in Hy. rewrite Hy, Hp. simpl.
  apply load6_Some in Hold as (Hp0 & H0 & H1 & H2 & H3 & H4 & H5).
  assert (Hlen : (Z.to_nat p + 6 <= length buf)%nat).
  { apply lookup_lt_Some in H5. lia. }
  set (sigma_y := Math_linearInterpolation y y1 y2 sigY1 sigY2).
  destruct (store_is_Some buf (p + 1) [sigma_y]) as [buf1 Hs1]; [lia | simpl; lia |].
  rewrite Hs1. simpl.
  pose proof (store_length _ _ _ _ Hs1) as Hl1.
  rewrite load_head by lia.
  rewrite (store_singleton_lookup buf (p + 1) sigma_y buf1 _ Hs1).
  rewrite decide_True by reflexivity. simpl.
  destruct (store_is_Some buf1 p [(ratio_x * sigma_y)%float]) as [buf2 Hs2];
    [lia | simpl; lia |].
  rewrite Hs2. simpl.
  pose proof (store_length _ _ _ _ Hs2) as Hl2.
  rewrite load_head by lia.
  rewrite (store_singleton_lookup buf1 p _ buf2 _ Hs2).
  rewrite decide_False by lia.
  rewrite (store_singleton_lookup buf (p + 1) sigma_y buf1 _ Hs1).
  rewrite decide_True by reflexivity. simpl.
  destruct (store_is_Some buf2 (p + 2) [(ratio_z * sigma_y)%float]) as [buf3 Hs3];
    [lia | simpl; lia |].
  exists buf3. split; [exact Hs3 |].
  pose proof (store_length _ _ _ _ Hs3) as Hl3.
  assert (Hlook : forall j : nat,
    buf3 !! j =
      if decide (j = Z.to_nat (p + 2)) then Some (ratio_z * sigma_y)%float
      else if decide (j = Z.to_nat p) then Some (ratio_x * sigma_y)%float
      else if decide (j = Z.to_nat (p + 1)) then Some sigma_y
      else buf !! j).
  { intros j.
    rewrite (store_singleton_lookup buf2 (p + 2) _ buf3 j Hs3).
    case_decide; [reflexivity |].
    rewrite (store_singleton_lookup buf1 p _ buf2 j Hs2).
    case_decide; [reflexivity |].
    apply (store_singleton_lookup buf (p + 1) sigma_y buf1 j Hs1). }
  split.
  - split; [congruence |]. intros j Hj. rewrite Hlook.
    rewrite !decide_False by lia. reflexivity.
  - apply load6_Some. split; [exact Hp0 |]. rewrite !Hlook. unfold geostatic. simpl.
    fold sigma_y.
    repeat split;
      repeat (first [rewrite decide_True by lia | rewrite decide_False by lia]);
      first [reflexivity | assumption].
Qed.

Variables (base m : Z).

Lemma setInitialConditions_loop_spec (gpts : list GaussPt.t) :
  forall (o : Z) (buf : list float),
    0 <= base -> 0 <= m -> 0 <= o ->
    (forall (j : nat) gpt, gpts !! j = Some gpt ->
       bound_at base m (o + Z.of_nat j) gpt = true) ->
    base + (o + Z.of_nat (length gpts)) * (m + 12) <= Z.of_nat (length buf) ->
    Forall (fun gpt => is_Some (coordAtGauss coords gpt !! 1%nat)) gpts ->
    exists buf',
      foldl (fun b gaussPt => b ≫= fun buf_ =>
               setInitialConditions_body el [sigY1; y1; sigY2; y2; ratio_x; ratio_z]
                 buf_ gaussPt)
            (Some buf) gpts
      = Some buf' /\
      same_outside (base + o * (m + 12)) (base + (o + Z.of_nat (length gpts)) * (m + 12))
        buf buf' /\
      forall (j : nat) gpt, gpts !! j = Some gpt ->
        exists p old y,
          GaussPt.stress gpt = Some p /\
          load6 buf p = Some old /\
          coordAtGauss coords gpt !! 1%nat = Some y /\
          load6 buf' p = Some (geostatic sigY1 y1 sigY2 y2 ratio_x ratio_z y old).
Proof.
  induction gpts as [| g rest IH]; intros o buf Hbase Hm Ho Hbound Hroom Hcoord.
  - exists buf. simpl. split; [reflexivity |]. split; [apply same_outside_refl |].
    intros j gpt Hj. discriminate.
  - simpl length in *.
    set (b := m + 12) in *.
    assert (Hb : 12 <= b) by (unfold b; lia).
    assert (Hrest : 0 <= Z.of_nat (length rest) * b) by nia.
    assert (Hob : 0 <= o * b) by nia.
    pose proof (Hbound 0%nat g eq_refl) as Hg.
    apply bound_at_true in Hg as (Hstress & _). fold b in Hstress.
    rewrite Z.add_0_r in Hstress.
    set (p := base + m + o * b) in *.
    apply Forall_cons in Hcoord as [[y Hy] Hcoord].
    destruct (load6_is_Some buf p) as [old Hold]; [lia | nia |].
    destruct (setInitialConditions_body_spec buf g p y old Hstress Hy Hold)
      as (buf1 & Hbody & Hsame1 & Hload1).
    pose proof (proj1 Hsame1) as Hl1.
    destruct (IH (o + 1) buf1 Hbase Hm ltac:(lia)) as (buf' & Hfold & Hsame & Hall).
    { intros j gpt Hj. specialize (Hbound (S j) gpt Hj).
      replace (o + 1 + Z.of_nat j) with (o + Z.of_nat (S j)) by lia. exact Hbound. }
    { rewrite Hl1. fold b. nia. }
    { exact Hcoord. }
    fold b in Hsame.
    exists buf'. split; [simpl; rewrite Hbody; exact Hfold |].
    split.
    { apply (same_outside_trans _ _ buf buf1 buf').
      - apply (same_outside_weaken p (p + 3)); [unfold p; lia | unfold p; nia | exact Hsame1].
      - apply (same_outside_weaken ((base + (o + 1) * b))
                 (base + (o + 1 + Z.of_nat (length rest)) * b));
          [nia | nia | exact Hsame]. }
    intros [| j] gpt Hj; simpl in Hj.
    + injection Hj as <-. exists p, old, y.
      split; [exact Hstress |]. split; [exact Hold |]. split; [exact Hy |].
      rewrite (load6_same_outside _ _ buf1 buf' p Hsame) by (unfold p; nia).
      exact Hload1.
    + destruct (Hall j gpt Hj) as (q & old1 & yq & Hq & Hold1 & Hyq & Hloadq).
      exists q, old1, yq.
      split; [exact Hq |]. split; [| split; [exact Hyq | exact Hloadq]].
      rewrite <- Hold1. symmetry.
      apply (load6_same_outside p (p + 3) buf buf1 q Hsame1).
      specialize (Hbound (S j) gpt Hj).
      apply bound_at_true in Hbound as (Hq' & _). fold b in Hq'.
      rewrite Hq in Hq'. injection Hq' as ->. right. unfold p. nia.
Qed.

(** C8: in two or three dimensions, [setInitialConditions] with
    [GeostaticStress] and the values [sigY1, y1, sigY2, y2, ratio_x,
    ratio_z] gives every Gauss point [stress(1)] interpolated at its
    physical y-coordinate between [(y1, sigY1)] and [(y2, sigY2)],
    [stress(0) = ratio_x * stress(1)] and [stress(2) = ratio_z *
    stress(1)]; the shear components stay. *)
Theorem setInitialConditions_GeostaticStress (buf : list float) :
  ParentGeometryElement.nDim > 1 ->
  partitioned base m el buf = true ->
  Forall (fun gpt => is_Some (coordAtGauss coords gpt !! 1%nat)) (gaussPts el) ->
  exists buf',
    setInitialConditions el GeostaticStress
      [sigY1; y1; sigY2; y2; ratio_x; ratio_z] buf = Returns buf' /\
    forall (i : nat) gpt, gaussPts el !! i = Some gpt ->
      exists p old y,
        GaussPt.stress gpt = Some p /\
        load6 buf p = Some old /\
        coordAtGauss coords gpt !! 1%nat = Some y /\
        let sigma_y := Math_linearInterpolation y y1 y2 sigY1 sigY2 in
        load6 buf' p =
          Some (Vec6 (ratio_x * sigma_y) sigma_y (ratio_z * sigma_y)
                     (v6_3 old) (v6_4 old) (v6_5 old)).
Proof.
  intros Hdim Hpart Hcoord. unfold partitioned in Hpart.
  rewrite !andb_true_iff, !Z.leb_le in Hpart.
  destruct Hpart as [[[Hbase Hm] Hbound] Hroom].
  rewrite bound_from_lookup in Hbound.
  destruct (setInitialConditions_loop_spec (gaussPts el) 0 buf Hbase Hm ltac:(lia)
              Hbound ltac:(lia) Hcoord) as (buf' & Hfold & _ & Hall).
  exists buf'. unfold setInitialConditions.
  rewrite decide_True by exact Hdim.
  rewrite Hfold. split; [reflexivity |]. exact Hall.
Qed.

End InitialConditions.

Lemma setInitialConditions_GeostaticStress_witness :
  exists buf',
    setInitialConditions (Lib := Instances.triangle_libraries) Instances.triangle_element
      GeostaticStress [-1; 0; -3; 2; 0.5; 0.25]%float (Instances.zeros 39) = Returns buf' /\
    load6 buf' 14 = Some (Vec6 (-0.75) (-1.5) (-0.375) 0 0 0).
Proof.
  destruct (setInitialConditions_GeostaticStress (Lib := Instances.triangle_libraries)
              Instances.triangle_element [0; 0; 1; 0; 0; 1]%float
              (-1) 0 (-3) 2 0.5 0.25 eq_refl 0 1 (Instances.zeros 39))
    as (buf' & Hr & Hall).
  - reflexivity.
  - vm_compute. reflexivity.
  - vm_compute. repeat constructor; eexists; reflexivity.
  - destruct (Hall 1%nat _ eq_refl) as (p & old & y & Hp & Hold & Hy & Hload).
    vm_compute in Hp. injection Hp as <-.
    vm_compute in Hold. injection Hold as <-.
    vm_compute in Hy. injection Hy as <-.
    exists buf'. split; [exact Hr |]. exact Hload.
Defined.

(** ** The computation kernel *)

Section Kernel.

Context `{Lib : Libraries}.

Variables (el : UelDisplacement) (dQ : VectorXd) (time : list float) (dT : float).

(** The loop over [l1 ++ l2] is the loop over [l1] and, when that
    completes, the loop over [l2]. *)
Lemma computeYourself_loop_app (l1 l2 : list GaussPt.t) loc mem :
  computeYourself_loop el dQ time dT (l1 ++ l2) loc mem =
    match computeYourself_loop el dQ time dT l1 loc mem with
    | Some (Completed, loc1, mem1) => computeYourself_loop el dQ time dT l2 loc1 mem1
    | other => other
    end.
Proof.
  revert loc mem. induction l1 as [| g l1 IH]; intros loc mem; simpl; [reflexivity |].
  destruct (computeYourself_update el dQ time dT g loc mem) as [[loc1 mem1] |]; simpl;
    [| reflexivity].
  destruct (pNewDT mem1 <? 1)%float; [reflexivity |].
  destruct (computeYourself_accumulate g loc1 mem1) as [mem2 |]; simpl; [| reflexivity].
  apply IH.
Qed.

(** The loop completes over [l ++ [g]] exactly when it completes over
    [l], the update of [g] does not request a cut-back, and the
    contribution of [g] is accumulated. *)
Lemma computeYourself_loop_snoc (l : list GaussPt.t) (g : GaussPt.t) loc mem loc' mem' :
  computeYourself_loop el dQ time dT (l ++ [g]) loc mem = Some (Completed, loc', mem') <->
  exists loc1 mem1 mem2,
    computeYourself_loop el dQ time dT l loc mem = Some (Completed, loc1, mem1) /\
    computeYourself_update el dQ time dT g loc1 mem1 = Some (loc', mem2) /\
    (pNewDT mem2 <? 1)%float = false /\
    computeYourself_accumulate g loc' mem2 = Some mem'.
Proof.
  rewrite computeYourself_loop_app. split.
  - destruct (computeYourself_loop el dQ time dT l loc mem) as [[[[] loc1] mem1] |];
      try discriminate.
    simpl.
    destruct (computeYourself_update el dQ time dT g loc1 mem1) as [[loc2 mem2] |] eqn:Hup;
      [| discriminate].
    simpl.
    destruct (pNewDT mem2 <? 1)%float eqn:Hcut; [discriminate |].
    destruct (computeYourself_accumulate g loc2 mem2) as [mem3 |] eqn:Hacc; [| discriminate].
    simpl. intros [= <- <-]. exists loc1, mem1, mem2.
    repeat split; assumption || reflexivity.
  - intros (loc1 & mem1 & mem2 & -> & Hup & Hcut & Hacc).
    simpl. rewrite Hup. simpl. rewrite Hcut, Hacc. reflexivity.
Qed.

(** The accumulation writes [Pe] and [Ke] only. *)
Lemma computeYourself_accumulate_frame g loc mem mem' :
  computeYourself_accumulate g loc mem = Some mem' ->
  stateVars mem' = stateVars mem /\ pNewDT mem' = pNewDT mem.
Proof.
  unfold computeYourself_accumulate.
  destruct (GaussPt.geometry g); [| discriminate]. simpl.
  intros [= <-]. auto.
Qed.

Local Arguments Material.call : simpl never.

(** Taking apart a sequence of steps that is known to be defined. *)
Ltac defined_step H :=
  match type of H with
  | mbind _ ?o = Some _ =>
      let E := fresh "E" in
      destruct o eqn:E; simpl in H; [| discriminate H]
  | (let '(_, _) := ?p in _) = Some _ => destruct p
  | (if decide ?P then _ else _) = Some _ => destruct (decide P)
  end.

Ltac defined_steps H := repeat defined_step H.

Ltac defined_all :=
  repeat match goal with
         | H : mbind _ _ = Some _ |- _ => defined_step H
         | H : (let '(_, _) := _ in _) = Some _ |- _ => defined_step H
         | H : Some (_, _, _, _) = Some (_, _, _, _) |- _ => injection H as <- <- <- <-
         end.

(** A stress routine called on a Gauss point writes inside the state
    variables and the stress of that Gauss point. *)
Lemma Material_call_frame routine (mat : Material.t) (buf : list float) (vp m : Z)
    (dE6 : Vector6) (p : float) buf' C66 p' dE6' :
  Material.stateVars mat = Some vp ->
  Material.nStateVars mat = m ->
  0 <= m ->
  Material.call routine mat buf (Some (vp + m)) dE6 time dT p = Some (buf', C66, p', dE6') ->
  same_outside vp (vp + m + 6) buf buf'.
Proof.
  intros Hvp Hn Hm Hcall. unfold Material.call in Hcall. simpl in Hcall.
  rewrite Hvp, Hn in Hcall. simpl in Hcall.
  defined_steps Hcall. injection Hcall as <- <- <- <-.
  match goal with
  | E1 : store buf vp _ = Some ?b1, E2 : store6 ?b1 _ _ = Some ?b2 |- _ =>
      apply (same_outside_trans _ _ buf b1 b2);
      [ apply store_same_outside in E1;
        eapply same_outside_weaken; [| | exact E1]; [lia | rewrite length_take; lia]
      | apply store6_same_outside in E2;
        eapply same_outside_weaken; [| | exact E2]; lia ]
  end.
Qed.

(** What a call leaves: the stress that the routine answers, in the
    stress of the Gauss point, and its tangent, its fraction and its
    strain increment array. *)
Lemma Material_call_answer routine (mat : Material.t) (buf : list float) (sp vp : Z)
    (dE6 : Vector6) (p : float) buf' C66 p' dE6' :
  Material.stateVars mat = Some vp ->
  Material.call routine mat buf (Some sp) dE6 time dT p = Some (buf', C66, p', dE6') ->
  exists stress_ sdv,
    load6 buf sp = Some stress_ /\
    load buf vp (Z.to_nat (Material.nStateVars mat)) = Some sdv /\
    let r := routine mat (Material.characteristicElementLength mat) sdv stress_ dE6 time dT p in
    load6 buf' sp = Some (Material.stress r) /\
    C66 = Material.dStressDDStrain r /\
    p' = Material.pNewDT r /\
    dE6' = Material.dStrain r.
Proof.
  intros Hvp Hcall. unfold Material.call in Hcall. simpl in Hcall.
  rewrite Hvp in Hcall. simpl in Hcall.
  defined_steps Hcall. injection Hcall as <- <- <- <-.
  do 2 eexists. split; [reflexivity |]. split; [reflexivity |]. simpl.
  split; [| repeat split; reflexivity].
  match goal with
  | E2 : store6 _ _ _ = Some ?b2 |- load6 ?b2 _ = _ => apply (load6_store6_same _ _ _ _ E2)
  end.
Qed.

(** [strain += dE6] after a step that wrote below the strain. *)
Lemma strain_accumulated (buf0 buf buf' : list float) (vp m : Z) (strain_ dE6 : Vector6) :
  0 <= m ->
  same_outside vp (vp + m + 6) buf0 buf ->
  load6 buf (vp + m + 6) = Some strain_ ->
  store6 buf (vp + m + 6) (Vector6_add strain_ dE6) = Some buf' ->
  same_outside vp (vp + m + 12) buf0 buf' /\
  load6 buf0 (vp + m + 6) = Some strain_ /\
  load6 buf' (vp + m + 6) = Some (Vector6_add strain_ dE6).
Proof.
  intros Hm Hf Hload Hstore. split; [| split].
  - apply (same_outside_trans _ _ buf0 buf buf').
    + apply (same_outside_weaken vp (vp + m + 6)); [lia | lia | exact Hf].
    + apply store6_same_outside in Hstore.
      apply (same_outside_weaken (vp + m + 6) (vp + m + 6 + 6)); [lia | lia | exact Hstore].
  - rewrite <- Hload. symmetry. apply (load6_same_outside _ _ _ _ _ Hf). lia.
  - apply (load6_store6_same _ _ _ _ Hstore).
Qed.

Variables (base m : Z).

Lemma bound_at_block (i : Z) (g : GaussPt.t) :
  bound_at base m i g = true ->
  GaussPt.stress g = Some (base + i * (m + 12) + m) /\
  GaussPt.strain g = Some (base + i * (m + 12) + m + 6) /\
  exists mat, GaussPt.material g = Some mat /\
    Material.stateVars mat = Some (base + i * (m + 12)) /\
    Material.nStateVars mat = m.
Proof.
  intros (Hs & He & Hmat)%bound_at_true.
  rewrite Hs, He. split; [f_equal; lia |]. split; [f_equal; lia |]. exact Hmat.
Qed.

(** What [material_response] is for a Gauss point whose parts are
    known. *)
Lemma material_response_value (g : GaussPt.t) (mem : KernelMemory) rt dE6 mat sp vp
    stress_ sdv :
  routine_called el = Some rt ->
  dE6_at dQ g = Some dE6 ->
  GaussPt.material g = Some mat ->
  GaussPt.stress g = Some sp ->
  Material.stateVars mat = Some vp ->
  load6 (stateVars mem) sp = Some stress_ ->
  load (stateVars mem) vp (Z.to_nat (Material.nStateVars mat)) = Some sdv ->
  material_response el dQ time dT g mem
  = Some (rt mat (Material.characteristicElementLength mat) sdv stress_ dE6 time dT
            (pNewDT mem)).
Proof.
  intros Hrt HdE Hmat Hsp Hvp Hl1 Hl2. unfold material_response.
  rewrite Hrt, HdE, Hmat, Hsp. simpl. rewrite Hvp. simpl. rewrite Hl1. simpl.
  rewrite Hl2. reflexivity.
Qed.

(** The update of Gauss point [i] writes inside block [i] of the state
    buffer and leaves [Pe] and [Ke]; in one dimension it leaves the
    strain, in two and three it adds to it the strain increment as the
    material call left it. *)
Lemma computeYourself_update_spec (i : Z) (g : GaussPt.t) loc mem loc' mem' :
  bound_at base m i g = true ->
  0 <= m ->
  computeYourself_update el dQ time dT g loc mem = Some (loc', mem') ->
  same_outside (base + i * (m + 12)) (base + i * (m + 12) + m + 12)
    (stateVars mem) (stateVars mem') /\
  Pe mem' = Pe mem /\ Ke mem' = Ke mem /\
  (ParentGeometryElement.nDim = 1 ->
     load6 (stateVars mem') (base + i * (m + 12) + m + 6)
     = load6 (stateVars mem) (base + i * (m + 12) + m + 6)) /\
  (ParentGeometryElement.nDim = 2 \/ ParentGeometryElement.nDim = 3 ->
     exists e dE6',
       load6 (stateVars mem) (base + i * (m + 12) + m + 6) = Some e /\
       dE6_added el dQ time dT g mem = Some dE6' /\
       load6 (stateVars mem') (base + i * (m + 12) + m + 6) = Some (Vector6_add e dE6')).
Proof.
  intros Hbound Hm Hup.
  apply bound_at_block in Hbound as (Hstress & Hstrain & mat & Hmat & Hvp & Hn).
  set (vp := base + i * (m + 12)) in *.
  unfold computeYourself_update in Hup.
  rewrite Hstress, Hstrain, Hmat in Hup.
  pose proof (eq_refl (routine_called el)) as Hrc. unfold routine_called in Hrc at 2.
  pose proof (eq_refl (dE6_at dQ g)) as HdE6. unfold dE6_at in HdE6 at 2.
  destruct (GaussPt.geometry g) as [geom |]; [| discriminate]. simpl in Hup, HdE6.
  assert (Hcall : forall routine buf dE6 p buf' C66 p' dE6',
            Material.call routine mat buf (Some (vp + m)) dE6 time dT p
            = Some (buf', C66, p', dE6') ->
            same_outside vp (vp + m + 6) buf buf').
  { intros routine buf dE6 p buf' C66 p' dE6'. apply Material_call_frame; assumption. }
  assert (Hadded : forall rt buf C66 p' dE6 dE6',
            dE6_at dQ g = Some dE6 ->
            routine_called el = Some rt ->
            Material.call rt mat (stateVars mem) (Some (vp + m)) dE6 time dT (pNewDT mem)
            = Some (buf, C66, p', dE6') ->
            dE6_added el dQ time dT g mem = Some dE6').
  { intros rt buf C66 p' dE6 dE6' HdE Hrt Hc. unfold dE6_added. rewrite Hrt.
    destruct (Material_call_answer _ _ _ _ _ _ _ _ _ _ _ Hvp Hc)
      as (stress_ & sdv & Hl1 & Hl2 & _ & _ & _ & ->).
    rewrite (material_response_value g mem rt dE6 mat _ _ _ _ Hrt HdE Hmat Hstress Hvp Hl1 Hl2).
    reflexivity. }
  assert (Hplain : forall dE6,
            dE6_at dQ g = Some dE6 -> routine_called el = None ->
            dE6_added el dQ time dT g mem = Some dE6).
  { intros dE6 HdE Hrt. unfold dE6_added. rewrite Hrt. exact HdE. }
  destruct (decide (ParentGeometryElement.nDim = 1)) as [Hd1 | Hd1].
  { defined_steps Hup. injection Hup as <- <-. simpl.
    match goal with E : Material.call _ _ _ _ _ _ _ _ = Some _ |- _ =>
      apply Hcall in E; rename E into Hf end.
    split; [apply (same_outside_weaken vp (vp + m + 6)); [lia | lia | exact Hf] |].
    split; [reflexivity |]. split; [reflexivity |]. split.
    - intros _. apply (load6_same_outside _ _ _ _ _ Hf). lia.
    - intros [Hd | Hd]; lia. }
  destruct (decide (ParentGeometryElement.nDim = 2)) as [Hd2 | Hd2].
  { destruct (sectionType el); simpl in Hrc; defined_all; injection Hup as <- <-; simpl;
    match goal with
    | E1 : load6 ?l ?q = Some ?s, E2 : store6 ?l ?q _ = Some _ |- _ =>
        assert (Hf : same_outside vp (vp + m + 6) (stateVars mem) l)
          by first [ eapply Hcall; eassumption | apply same_outside_refl ];
        destruct (strain_accumulated _ _ _ _ _ _ _ Hm Hf E1 E2) as (Hs1 & Hs2 & Hs3);
        split; [exact Hs1 |]; split; [reflexivity |]; split; [reflexivity |];
        split; [intros ?; lia |];
        intros _; do 2 eexists; split; [first [exact Hs2 | reflexivity] |];
        split; [| exact Hs3]
    end;
    first [ eapply Hadded; eassumption | apply Hplain; assumption ]. }
  destruct (decide (ParentGeometryElement.nDim = 3)) as [Hd3 | Hd3].
  { destruct (sectionType el); simpl in Hrc; defined_all; injection Hup as <- <-; simpl;
    match goal with
    | E1 : load6 ?l ?q = Some ?s, E2 : store6 ?l ?q _ = Some _ |- _ =>
        assert (Hf : same_outside vp (vp + m + 6) (stateVars mem) l)
          by first [ eapply Hcall; eassumption | apply same_outside_refl ];
        destruct (strain_accumulated _ _ _ _ _ _ _ Hm Hf E1 E2) as (Hs1 & Hs2 & Hs3);
        split; [exact Hs1 |]; split; [reflexivity |]; split; [reflexivity |];
        split; [intros ?; lia |];
        intros _; do 2 eexists; split; [first [exact Hs2 | reflexivity] |];
        split; [| exact Hs3]
    end;
    first [ eapply Hadded; eassumption | apply Hplain; assumption ]. }
  injection Hup as <- <-.
  split; [apply same_outside_refl |]. split; [reflexivity |]. split; [reflexivity |].
  split; [reflexivity |]. intros [Hd | Hd]; contradiction.
Qed.

(** When the update of Gauss point [i] calls the material, it leaves the
    stress and the fraction that the material answers. *)
Lemma computeYourself_update_answer (i : Z) (g : GaussPt.t) loc mem loc' mem' r :
  bound_at base m i g = true ->
  0 <= m ->
  computeYourself_update el dQ time dT g loc mem = Some (loc', mem') ->
  material_response el dQ time dT g mem = Some r ->
  load6 (stateVars mem') (base + i * (m + 12) + m) = Some (Material.stress r) /\
  pNewDT mem' = Material.pNewDT r.
Proof.
  intros Hbound Hm Hup Hr.
  apply bound_at_block in Hbound as (Hstress & Hstrain & mat & Hmat & Hvp & Hn).
  set (vp := base + i * (m + 12)) in *.
  unfold computeYourself_update in Hup.
  unfold material_response, routine_called, dE6_at in Hr.
  rewrite Hstress, Hstrain, Hmat in Hup. rewrite Hstress, Hmat in Hr.
  destruct (GaussPt.geometry g) as [geom |]; [| discriminate]. simpl in Hup, Hr.
  rewrite Hvp, Hn in Hr.
  assert (Hfinish : forall routine dE6 buf buf' C66 p' dE6',
    Material.call routine mat (stateVars mem) (Some (vp + m)) dE6 time dT (pNewDT mem)
    = Some (buf, C66, p', dE6') ->
    same_outside (vp + m + 6) (vp + m + 6 + 6) buf buf' ->
    forall stress_ sdv,
      load6 (stateVars mem) (vp + m) = Some stress_ ->
      load (stateVars mem) vp (Z.to_nat m) = Some sdv ->
      load6 buf' (vp + m)
      = Some (Material.stress
                (routine mat (Material.characteristicElementLength mat) sdv stress_ dE6
                   time dT (pNewDT mem))) /\
      p' = Material.pNewDT
             (routine mat (Material.characteristicElementLength mat) sdv stress_ dE6
                time dT (pNewDT mem))).
  { intros routine dE6 buf buf' C66 p' dE6' Hcall Hsame stress_ sdv Hl1 Hl2.
    destruct (Material_call_answer _ _ _ _ _ _ _ _ _ _ _ Hvp Hcall)
      as (stress' & sdv' & Hl1' & Hl2' & Hl3 & _ & Hp & _).
    rewrite Hl1 in Hl1'. injection Hl1' as <-.
    rewrite Hn, Hl2 in Hl2'. injection Hl2' as <-.
    split; [| exact Hp].
    rewrite (load6_same_outside _ _ _ _ _ Hsame) by lia. exact Hl3. }
  destruct (decide (ParentGeometryElement.nDim = 1)) as [Hd1 | Hd1].
  { simpl in Hr. defined_all. injection Hup as <- <-. simpl.
    repeat match goal with
           | E : Some ?a = Some ?b |- _ => first [injection E as <- | injection E as ->]
           end.
    match goal with E : Material.call _ _ _ _ _ _ _ _ = Some _ |- _ =>
      eapply (Hfinish _ _ _ _ _ _ _ E); [ apply same_outside_refl
        | first [eassumption | reflexivity]
        | first [eassumption | reflexivity] ]
    end. }
  destruct (decide (ParentGeometryElement.nDim = 2)) as [Hd2 | Hd2].
  { destruct (sectionType el); simpl in Hr; try discriminate;
      defined_all; injection Hup as <- <-; simpl;
      repeat match goal with
             | E : Some ?a = Some ?b |- _ => first [injection E as <- | injection E as ->]
             end;
      match goal with
      | E : Material.call _ _ _ _ _ _ _ _ = Some _, E' : store6 _ _ _ = Some _ |- _ =>
          eapply (Hfinish _ _ _ _ _ _ _ E);
            [ apply (store6_same_outside _ _ _ _ E')
            | first [eassumption | reflexivity]
            | first [eassumption | reflexivity] ]
      end. }
  destruct (decide (ParentGeometryElement.nDim = 3)) as [Hd3 | Hd3].
  { destruct (sectionType el); simpl in Hr; try discriminate;
      defined_all; injection Hup as <- <-; simpl;
      repeat match goal with
             | E : Some ?a = Some ?b |- _ => first [injection E as <- | injection E as ->]
             end;
      match goal with
      | E : Material.call _ _ _ _ _ _ _ _ = Some _, E' : store6 _ _ _ = Some _ |- _ =>
          eapply (Hfinish _ _ _ _ _ _ _ E);
            [ apply (store6_same_outside _ _ _ _ E')
            | first [eassumption | reflexivity]
            | first [eassumption | reflexivity] ]
      end. }
  discriminate.
Qed.


(** The loop over the Gauss points bound to blocks [o], [o + 1], ...
    writes inside these blocks. *)
Lemma computeYourself_loop_frame (gpts : list GaussPt.t) :
  forall (o : Z) loc mem e loc' mem',
    0 <= m -> 0 <= o ->
    (forall (j : nat) gpt, gpts !! j = Some gpt ->
       bound_at base m (o + Z.of_nat j) gpt = true) ->
    computeYourself_loop el dQ time dT gpts loc mem = Some (e, loc', mem') ->
    same_outside (base + o * (m + 12)) (base + (o + Z.of_nat (length gpts)) * (m + 12))
      (stateVars mem) (stateVars mem').
Proof.
  induction gpts as [| g rest IH]; intros o loc mem e loc' mem' Hm Ho Hbound Hloop.
  - simpl in Hloop. injection Hloop as <- <- <-. apply same_outside_refl.
  - simpl in Hloop. simpl length.
    destruct (computeYourself_update el dQ time dT g loc mem) as [[loc1 mem1] |] eqn:Hup;
      [| discriminate].
    simpl in Hloop.
    pose proof (Hbound 0%nat g eq_refl) as Hg. rewrite Z.add_0_r in Hg.
    destruct (computeYourself_update_spec o g loc mem loc1 mem1 Hg Hm Hup) as (Hf & _).
    set (b := m + 12) in *.
    assert (Hb : 12 <= b) by (unfold b; lia).
    assert (Hrest : 0 <= Z.of_nat (length rest) * b) by nia.
    destruct (pNewDT mem1 <? 1)%float.
    + injection Hloop as <- <- <-.
      apply (same_outside_weaken (base + o * b) (base + o * b + m + 12));
        [lia | unfold b in *; nia | exact Hf].
    + destruct (computeYourself_accumulate g loc1 mem1) as [mem2 |] eqn:Hacc;
        [| discriminate].
      simpl in Hloop.
      apply computeYourself_accumulate_frame in Hacc as [Hsv _].
      specialize (IH (o + 1) loc1 mem2 e loc' mem' Hm ltac:(lia)).
      rewrite Hsv in IH. fold b in IH.
      apply (same_outside_trans _ _ _ (stateVars mem1)).
      * apply (same_outside_weaken (base + o * b) (base + o * b + m + 12));
          [lia | unfold b in *; nia | exact Hf].
      * apply (same_outside_weaken (base + (o + 1) * b)
                 (base + (o + 1 + Z.of_nat (length rest)) * b)); [nia | nia |].
        apply IH; [| exact Hloop].
        intros j gpt Hj. specialize (Hbound (S j) gpt Hj).
        replace (o + 1 + Z.of_nat j) with (o + Z.of_nat (S j)) by lia. exact Hbound.
Qed.

(** The update of a Gauss point leaves [Pe] and [Ke]. *)
Lemma computeYourself_update_outputs (g : GaussPt.t) loc mem loc' mem' :
  computeYourself_update el dQ time dT g loc mem = Some (loc', mem') ->
  Pe mem' = Pe mem /\ Ke mem' = Ke mem.
Proof.
  intros Hup. unfold computeYourself_update in Hup.
  destruct (GaussPt.geometry g) as [geom |]; [| discriminate]. simpl in Hup.
  destruct (decide (ParentGeometryElement.nDim = 1)) as [Hd1 | Hd1];
    [| destruct (decide (ParentGeometryElement.nDim = 2)) as [Hd2 | Hd2];
       [| destruct (decide (ParentGeometryElement.nDim = 3)) as [Hd3 | Hd3]]];
    try destruct (sectionType el);
    defined_all; injection Hup as <- <-; simpl; split; reflexivity.
Qed.

(** A cut-back at Gauss point [k] ends the loop with the memory that the
    update of that Gauss point leaves. *)
Lemma computeYourself_loop_cut_back (uninitialized : Locals.t) (mem : KernelMemory)
    (k : nat) gaussPt loc1 mem1 loc2 mem2 :
  gaussPts el !! k = Some gaussPt ->
  computeYourself_loop el dQ time dT (take k (gaussPts el)) uninitialized mem
  = Some (Completed, loc1, mem1) ->
  computeYourself_update el dQ time dT gaussPt loc1 mem1 = Some (loc2, mem2) ->
  (pNewDT mem2 <? 1)%float = true ->
  computeYourself el dQ time dT uninitialized mem = Returns mem2.
Proof.
  intros Hk Hpre Hup Hcut. unfold computeYourself.
  rewrite <- (take_drop_middle (gaussPts el) k gaussPt Hk) at 1.
  rewrite computeYourself_loop_app, Hpre. simpl.
  rewrite Hup. simpl. rewrite Hcut. reflexivity.
Qed.


(** While the loop completes over a list of Gauss points, each of them is
    updated without a cut-back, and what follows it writes inside the
    blocks after its own. *)
Lemma computeYourself_loop_completed_at (l : list GaussPt.t) (o : Z) loc mem loc1 mem1
    (j : nat) (g : GaussPt.t) :
  0 <= m -> 0 <= o ->
  (forall (i : nat) gpt, l !! i = Some gpt -> bound_at base m (o + Z.of_nat i) gpt = true) ->
  computeYourself_loop el dQ time dT l loc mem = Some (Completed, loc1, mem1) ->
  l !! j = Some g ->
  exists loc_j mem_j loc_j' mem_j',
    computeYourself_loop el dQ time dT (take j l) loc mem = Some (Completed, loc_j, mem_j) /\
    computeYourself_update el dQ time dT g loc_j mem_j = Some (loc_j', mem_j') /\
    (pNewDT mem_j' <? 1)%float = false /\
    same_outside (base + (o + Z.of_nat j + 1) * (m + 12))
      (base + (o + Z.of_nat (length l)) * (m + 12))
      (stateVars mem_j') (stateVars mem1).
Proof.
  intros Hm Ho Hbound Hloop Hj.
  pose proof (lookup_lt_Some _ _ _ Hj) as Hjl.
  rewrite <- (take_drop_middle l j g Hj) in Hloop.
  rewrite computeYourself_loop_app in Hloop.
  destruct (computeYourself_loop el dQ time dT (take j l) loc mem)
    as [[[[] loc_j] mem_j] |]; try discriminate.
  simpl in Hloop.
  destruct (computeYourself_update el dQ time dT g loc_j mem_j) as [[loc_j' mem_j'] |] eqn:Hup;
    [| discriminate].
  simpl in Hloop.
  destruct (pNewDT mem_j' <? 1)%float eqn:Hcut; [discriminate |].
  destruct (computeYourself_accumulate g loc_j' mem_j') as [mem2 |] eqn:Hacc; [| discriminate].
  simpl in Hloop.
  apply computeYourself_accumulate_frame in Hacc as [Hsv _].
  exists loc_j, mem_j, loc_j', mem_j'.
  split; [reflexivity |]. split; [exact Hup |]. split; [exact Hcut |].
  rewrite <- Hsv.
  pose proof (computeYourself_loop_frame (drop (S j) l) (o + Z.of_nat j + 1)
                loc_j' mem2 Completed loc1 mem1 Hm ltac:(lia)) as Hframe.
  rewrite length_drop in Hframe.
  replace (o + Z.of_nat j + 1 + Z.of_nat (length l - S j)) with (o + Z.of_nat (length l))
    in Hframe by lia.
  apply Hframe; [| exact Hloop].
  intros i gpt Hi. rewrite lookup_drop in Hi. specialize (Hbound _ _ Hi).
  replace (o + Z.of_nat j + 1 + Z.of_nat i) with (o + Z.of_nat (S j + i)) by lia.
  exact Hbound.
Qed.

(** C9: when the check [pNewDT < 1.0] fires at Gauss point [k], nothing
    is rolled back.  Every Gauss point [j] up to [k] was updated, and at
    the return its stress and its strain are as that update left them:
    the stress is the one its material answered, and in two and three
    dimensions the strain is the strain from before the call plus the
    strain increment that the update added. *)
Theorem computeYourself_cut_back_keeps_state (uninitialized : Locals.t)
    (mem : KernelMemory) (k : nat) gaussPt_k loc1 mem1 loc2 mem2 :
  partitioned base m el (stateVars mem) = true ->
  gaussPts el !! k = Some gaussPt_k ->
  computeYourself_loop el dQ time dT (take k (gaussPts el)) uninitialized mem
  = Some (Completed, loc1, mem1) ->
  computeYourself_update el dQ time dT gaussPt_k loc1 mem1 = Some (loc2, mem2) ->
  (pNewDT mem2 <? 1)%float = true ->
  computeYourself el dQ time dT uninitialized mem = Returns mem2 /\
  forall (j : nat) gaussPt, (j <= k)%nat -> gaussPts el !! j = Some gaussPt ->
    exists loc_j mem_j loc_j' mem_j' stress_data strain_data,
      computeYourself_loop el dQ time dT (take j (gaussPts el)) uninitialized mem
      = Some (Completed, loc_j, mem_j) /\
      computeYourself_update el dQ time dT gaussPt loc_j mem_j = Some (loc_j', mem_j') /\
      GaussPt.stress gaussPt = Some stress_data /\
      GaussPt.strain gaussPt = Some strain_data /\
      load6 (stateVars mem2) stress_data = load6 (stateVars mem_j') stress_data /\
      load6 (stateVars mem2) strain_data = load6 (stateVars mem_j') strain_data /\
      (forall r, material_response el dQ time dT gaussPt mem_j = Some r ->
         load6 (stateVars mem2) stress_data = Some (Material.stress r)) /\
      (ParentGeometryElement.nDim = 2 \/ ParentGeometryElement.nDim = 3 ->
         exists e dE6',
           load6 (stateVars mem) strain_data = Some e /\
           dE6_added el dQ time dT gaussPt mem_j = Some dE6' /\
           load6 (stateVars mem2) strain_data = Some (Vector6_add e dE6')).
Proof.
  intros Hpart Hk Hpre Hup Hcut.
  split; [eapply computeYourself_loop_cut_back; eassumption |].
  intros j gaussPt Hjk Hj.
  unfold partitioned in Hpart. rewrite !andb_true_iff, !Z.leb_le in Hpart.
  destruct Hpart as [[[Hbase Hm] Hbound] _].
  rewrite bound_from_lookup in Hbound.
  pose proof (lookup_lt_Some _ _ _ Hk) as Hkl.
  pose proof (Hbound j gaussPt Hj) as Hbj.
  pose proof (Hbound k gaussPt_k Hk) as Hbk.
  destruct (computeYourself_update_spec _ _ _ _ _ _ Hbk Hm Hup) as (Hfk & _).
  set (b := m + 12) in *.
  assert (Hb : 12 <= b) by (unfold b; lia).
  assert (Hsteps : exists loc_j mem_j loc_j' mem_j',
    computeYourself_loop el dQ time dT (take j (gaussPts el)) uninitialized mem
    = Some (Completed, loc_j, mem_j) /\
    computeYourself_update el dQ time dT gaussPt loc_j mem_j = Some (loc_j', mem_j') /\
    same_outside (base + (Z.of_nat j + 1) * b) (base + (Z.of_nat k + 1) * b)
      (stateVars mem_j') (stateVars mem2)).
  { destruct (decide (j = k)) as [-> | Hne].
    - rewrite Hk in Hj. injection Hj as <-.
      exists loc1, mem1, loc2, mem2.
      split; [exact Hpre |]. split; [exact Hup |]. apply same_outside_refl.
    - assert (Hjl : take k (gaussPts el) !! j = Some gaussPt)
        by (rewrite lookup_take_lt by lia; exact Hj).
      destruct (computeYourself_loop_completed_at (take k (gaussPts el)) 0
                  uninitialized mem loc1 mem1 j gaussPt Hm ltac:(lia))
        as (loc_j & mem_j & loc_j' & mem_j' & Hpre_j & Hup_j & _ & Hframe);
        [| exact Hpre | exact Hjl |].
      { intros i gpt Hi. apply lookup_take_Some in Hi as [Hi _]. apply Hbound. exact Hi. }
      rewrite take_take in Hpre_j. replace (j `min` k)%nat with j in Hpre_j by lia.
      rewrite length_take_le in Hframe by lia. fold b in Hframe.
      exists loc_j, mem_j, loc_j', mem_j'.
      split; [exact Hpre_j |]. split; [exact Hup_j |].
      apply (same_outside_trans _ _ _ (stateVars mem1)).
      + apply (same_outside_weaken (base + (0 + Z.of_nat j + 1) * b)
                 (base + (0 + Z.of_nat k) * b)); [nia | nia | exact Hframe].
      + apply (same_outside_weaken (base + (0 + Z.of_nat k) * b)
                 (base + (0 + Z.of_nat k) * b + m + 12));
          [nia | unfold b in *; nia | exact Hfk]. }
  destruct Hsteps as (loc_j & mem_j & loc_j' & mem_j' & Hpre_j & Hup_j & Hafter).
  destruct (computeYourself_update_spec _ _ _ _ _ _ Hbj Hm Hup_j)
    as (_ & _ & _ & _ & Hstrain_j).
  pose proof (computeYourself_loop_frame (take j (gaussPts el)) 0 uninitialized mem
                Completed loc_j mem_j Hm ltac:(lia)) as Hbefore.
  rewrite length_take_le in Hbefore by lia. fold b in Hbefore.
  specialize (Hbefore
    ltac:(intros i gpt Hi; apply lookup_take_Some in Hi as [Hi _]; apply Hbound; exact Hi)
    Hpre_j).
  pose proof Hbj as Hblock. apply bound_at_block in Hblock as (Hstress & Hstrain & _).
  fold b in Hstress, Hstrain, Hstrain_j.
  exists loc_j, mem_j, loc_j', mem_j',
    (base + (0 + Z.of_nat j) * b + m), (base + (0 + Z.of_nat j) * b + m + 6).
  split; [exact Hpre_j |]. split; [exact Hup_j |].
  split; [exact Hstress |]. split; [exact Hstrain |].
  assert (Hs : load6 (stateVars mem2) (base + (0 + Z.of_nat j) * b + m)
               = load6 (stateVars mem_j') (base + (0 + Z.of_nat j) * b + m)).
  { apply (load6_same_outside _ _ _ _ _ Hafter). left. unfold b in *. nia. }
  assert (He : load6 (stateVars mem2) (base + (0 + Z.of_nat j) * b + m + 6)
               = load6 (stateVars mem_j') (base + (0 + Z.of_nat j) * b + m + 6)).
  { apply (load6_same_outside _ _ _ _ _ Hafter). left. unfold b in *. nia. }
  split; [exact Hs |]. split; [exact He |]. split.
  - intros r Hr. rewrite Hs.
    apply (computeYourself_update_answer _ _ _ _ _ _ r Hbj Hm Hup_j Hr).
  - intros Hdim. destruct (Hstrain_j Hdim) as (e & dE6 & He0 & HdE & He1).
    exists e, dE6. split; [| split; [exact HdE | rewrite He; exact He1]].
    rewrite <- He0. symmetry.
    apply (load6_same_outside _ _ _ _ _ Hbefore). right. unfold b in *. nia.
Qed.

End Kernel.



Lemma computeYourself_cut_back_keeps_state_witness :
  exists mem2,
    computeYourself (Lib := Instances.triangle_libraries) Instances.triangle_element
      Instances.triangle_dQ Instances.time_zero 1 Instances.garbage Instances.triangle_memory
    = Returns mem2 /\
    load6 (stateVars mem2) 1 = Some (Vec6 4 0 0 0 0 0) /\
    load6 (stateVars mem2) 7 = Some (Vec6 1 0 0 0 0 0).
Proof.
  edestruct (computeYourself_cut_back_keeps_state (Lib := Instances.triangle_libraries)
               Instances.triangle_element Instances.triangle_dQ Instances.time_zero 1
               0 1 Instances.garbage Instances.triangle_memory 1%nat)
    as (Hr & Hall).
  - vm_compute. reflexivity.
  - reflexivity.
  - vm_compute. reflexivity.
  - vm_compute. reflexivity.
  - vm_compute. reflexivity.
  - edestruct (Hall 0%nat) as
      (loc_j & mem_j & loc_j' & mem_j' & stress_data & strain_data
       & Hpre & Hup & Hs & He & _ & _ & Hanswer & Hstrain).
    + lia.
    + reflexivity.
    + vm_compute in Hs. injection Hs as <-.
      vm_compute in He. injection He as <-.
      vm_compute in Hpre. injection Hpre as <- <-.
      destruct (Hstrain ltac:(left; reflexivity)) as (e & dE6 & He0 & HdE & He1).
      vm_compute in He0. injection He0 as <-.
      vm_compute in HdE. injection HdE as <-.
      eexists. split; [exact Hr |].
      split; [| rewrite He1; vm_compute; reflexivity].
      rewrite (Hanswer _ eq_refl). vm_compute. reflexivity.
Defined.

(** C2 on the bar ([nDim = 1]): the strain increment of both Gauss points
    is (1, 0, 0, 0, 0, 0), the call returns, and the strain of both Gauss
    points is still zero. *)
Theorem computeYourself_bar_strain_not_accumulated :
  exists mem',
    computeYourself (Lib := Instances.bar_libraries) Instances.bar_element
      Instances.bar_dQ Instances.time_zero 1 Instances.garbage Instances.bar_memory
    = Returns mem' /\
    Forall (fun gaussPt =>
              exists strain_data,
                GaussPt.strain gaussPt = Some strain_data /\
                dE6_at (Lib := Instances.bar_libraries) Instances.bar_dQ gaussPt
                = Some (Vec6 1 0 0 0 0 0) /\
                load6 (stateVars Instances.bar_memory) strain_data = Some (Vec6 0 0 0 0 0 0) /\
                load6 (stateVars mem') strain_data = Some (Vec6 0 0 0 0 0 0))
           (gaussPts Instances.bar_element).
Proof.
  eexists. split; [vm_compute; reflexivity |].
  vm_compute gaussPts.
  repeat constructor; eexists; (split; [reflexivity |]);
    (split; [vm_compute; reflexivity |]); split; vm_compute; reflexivity.
Qed.

(** * Further properties of the element *)

(** ** Indexing and loops *)

Lemma at_index_of_nat {A : Type} (v : list A) (i : nat) : at_index v (Z.of_nat i) = v !! i.
Proof. unfold at_index. rewrite decide_True by lia. rewrite Nat2Z.id. reflexivity. Qed.

Lemma at_index_out_of_range {A : Type} (v : list A) (i : Z) :
  i < 0 \/ Z.of_nat (length v) <= i -> at_index v i = None.
Proof.
  intros Hi. unfold at_index. case_decide as Hpos; [| reflexivity].
  apply lookup_ge_None. lia.
Qed.

Lemma at_index_Some {A : Type} (v : list A) (i : Z) (x : A) :
  at_index v i = Some x -> 0 <= i /\ v !! Z.to_nat i = Some x.
Proof. unfold at_index. case_decide; [auto | discriminate]. Qed.

(** A loop is undefined as soon as its body is undefined for one
    element. *)
Lemma for_indexed_None {A : Type} (body : Z -> A -> option A) (i : Z) (v : list A)
    (j : nat) (x : A) :
  v !! j = Some x -> body (i + Z.of_nat j) x = None -> for_indexed body i v = None.
Proof.
  intros Hj Hx.
  destruct (for_indexed body i v) as [v' |] eqn:Hv; [| reflexivity].
  apply for_indexed_Some in Hv as [_ Hlook].
  destruct (Hlook j x Hj) as (x' & Hb & _). congruence.
Qed.

(** A second loop over what a first loop left, when the second body
    forgets what the first one did. *)
Lemma for_indexed_after {A : Type} (f g h : Z -> A -> option A) (i : Z) (v v1 : list A) :
  for_indexed f i v = Some v1 ->
  (forall (j : nat) x x1, v !! j = Some x -> f (i + Z.of_nat j) x = Some x1 ->
     g (i + Z.of_nat j) x1 = h (i + Z.of_nat j) x) ->
  for_indexed g i v1 = for_indexed h i v.
Proof.
  revert i v1. induction v as [| x v IH]; intros i v1 Hf Hgh; simpl in Hf.
  - injection Hf as <-. reflexivity.
  - destruct (f i x) as [x1 |] eqn:Hx; [| discriminate]. simpl in Hf.
    destruct (for_indexed f (i + 1) v) as [rest1 |] eqn:Hrest; [| discriminate].
    injection Hf as <-. simpl.
    pose proof (Hgh 0%nat x x1 eq_refl) as H0. rewrite Z.add_0_r in H0.
    rewrite (H0 Hx). rewrite (IH (i + 1) rest1 Hrest); [reflexivity |].
    intros j y y1 Hj Hy.
    replace (i + 1 + Z.of_nat j) with (i + Z.of_nat (S j)) in * by lia.
    apply Hgh; assumption.
Qed.

(** A loop over an accumulator that is undefined stays undefined. *)
Lemma foldl_undefined {A B : Type} (body : A -> B -> option A) (l : list B) :
  foldl (fun a x => a ≫= fun a_ => body a_ x) None l = None.
Proof. induction l as [| x l IH]; [reflexivity | exact IH]. Qed.

(** Taking apart a sequence of steps that is known to be defined. *)
Ltac split_step H :=
  match type of H with
  | mbind _ ?o = Some _ =>
      let E := fresh "E" in
      destruct o eqn:E; simpl in H; [| discriminate H]
  | (let '(_, _) := ?p in _) = Some _ => destruct p
  | (if decide ?P then _ else _) = Some _ => destruct (decide P)
  end.

Ltac split_steps H := repeat split_step H.

Ltac split_all :=
  repeat match goal with
         | H : mbind _ _ = Some _ |- _ => split_step H
         | H : (let '(_, _) := _ in _) = Some _ |- _ => split_step H
         | H : Some (_, _, _, _) = Some (_, _, _, _) |- _ => injection H as <- <- <- <-
         end.

(** ** Node fields and the permutation pattern *)

Section NodeFields.

Context `{Lib : Libraries}.

Lemma getNodeFields_body_next (k : nat) :
  getNodeFields_body (Z.of_nat k) (replicate k ["displacement"%string])
  = Some (replicate (S k) ["displacement"%string]).
Proof.
  unfold getNodeFields_body, at_index.
  rewrite decide_True by lia. rewrite Nat2Z.id.
  rewrite lookup_app_r by (rewrite length_replicate; lia).
  rewrite length_replicate, Nat.sub_diag. simpl.
  rewrite insert_app_r_alt by (rewrite length_replicate; lia).
  rewrite length_replicate, Nat.sub_diag. simpl.
  f_equal. symmetry. apply (replicate_S_end k).
Qed.

Lemma getNodeFields_loop (n k : nat) :
  for_int getNodeFields_body (Z.of_nat k) n (replicate k ["displacement"%string])
  = Some (replicate (k + n) ["displacement"%string]).
Proof.
  revert k. induction n as [| n IH]; intros k; cbn [for_int].
  - rewrite Nat.add_0_r. reflexivity.
  - rewrite getNodeFields_body_next. cbn [mbind option_bind].
    replace (Z.of_nat k + 1) with (Z.of_nat (S k)) by lia.
    rewrite IH. f_equal. f_equal. lia.
Qed.

(** X1: [getNodeFields] returns one entry per node, each with the single
    field "displacement": on the first call, which fills the static
    vector, and on every later call, which finds it filled and adds
    nothing to it. *)
Theorem getNodeFields_displacement :
  let fields := replicate (Z.to_nat getNNodes) ["displacement"%string] in
  getNodeFields [] = Returns (fields, fields) /\
  getNodeFields fields = Returns (fields, fields).
Proof.
  intros fields.
  assert (H1 : getNodeFields [] = Returns (fields, fields)).
  { unfold getNodeFields.
    rewrite (getNodeFields_loop (Z.to_nat ParentGeometryElement.nNodes) 0). reflexivity. }
  split; [exact H1 |].
  destruct fields as [| x l] eqn:Hf; [exact H1 | reflexivity].
Qed.

Lemma permutationPattern_loop (n k : nat) (pattern : list Z) :
  length pattern = k ->
  (forall i : nat, (i < k)%nat -> pattern !! i = Some (Z.of_nat i)) ->
  exists pattern',
    for_int (fun i p => Some (p ++ [i])) (Z.of_nat k) n pattern = Some pattern' /\
    length pattern' = (k + n)%nat /\
    forall i : nat, (i < k + n)%nat -> pattern' !! i = Some (Z.of_nat i).
Proof.
  revert k pattern. induction n as [| n IH]; intros k pattern Hlen Hid; simpl.
  - exists pattern. rewrite Nat.add_0_r. auto.
  - replace (Z.of_nat k + 1) with (Z.of_nat (S k)) by lia.
    destruct (IH (S k) (pattern ++ [Z.of_nat k])) as (pattern' & Hloop & Hlen' & Hid').
    + rewrite length_app. simpl. lia.
    + intros i Hi. destruct (decide (i < k)%nat).
      * rewrite lookup_app_l by lia. auto.
      * rewrite lookup_app_r by lia. replace (i - length pattern)%nat with 0%nat by lia.
        simpl. f_equal. lia.
    + exists pattern'. split; [exact Hloop |].
      split; [lia |]. intros i Hi. apply Hid'. lia.
Qed.

(** X2: [getDofIndicesPermutationPattern] returns the identity
    permutation of the degrees of freedom of the element: as many
    entries as [getNDofPerElement] says, entry [i] being [i]; a later
    call returns the same pattern. *)
Theorem getDofIndicesPermutationPattern_identity :
  exists pattern,
    getDofIndicesPermutationPattern [] = Returns (pattern, pattern) /\
    getDofIndicesPermutationPattern pattern = Returns (pattern, pattern) /\
    Z.of_nat (length pattern) = Z.max 0 getNDofPerElement /\
    forall i : nat, (i < length pattern)%nat -> pattern !! i = Some (Z.of_nat i).
Proof.
  destruct (permutationPattern_loop
              (Z.to_nat (ParentGeometryElement.nNodes * ParentGeometryElement.nDim)) 0 [])
    as (pattern & Hloop & Hlen & Hid); [reflexivity | intros i Hi; lia |].
  assert (H1 : getDofIndicesPermutationPattern [] = Returns (pattern, pattern)).
  { unfold getDofIndicesPermutationPattern. change (Z.of_nat 0) with 0 in Hloop.
    rewrite Hloop. reflexivity. }
  exists pattern. split; [exact H1 |]. split.
  - destruct pattern; [exact H1 | reflexivity].
  - split.
    + rewrite Hlen. unfold getNDofPerElement, sizeLoadVector. lia.
    + intros i Hi. apply Hid. lia.
Qed.

End NodeFields.

(** ** Results and the layout of the state buffer *)

Lemma getPermanentResultPointer_sdv (el : UelDisplacement) (i : nat) gpt mat :
  gaussPts el !! i = Some gpt ->
  GaussPt.material gpt = Some mat ->
  getPermanentResultPointer el "sdv" (Z.of_nat i)
  = Returns (Material.stateVars mat, Material.nStateVars mat).
Proof.
  intros Hi Hm. unfold getPermanentResultPointer.
  rewrite at_index_of_nat, Hi. simpl. rewrite Hm. reflexivity.
Qed.

(** X3: a Gauss point index below zero or from [gaussPts.size()] on
    leaves [getPermanentResultPointer] without defined behaviour, for
    every result name: the index is not checked. *)
Theorem getPermanentResultPointer_out_of_range (el : UelDisplacement)
    (resultName : string) (gaussPt : Z) :
  gaussPt < 0 \/ Z.of_nat (length (gaussPts el)) <= gaussPt ->
  getPermanentResultPointer el resultName gaussPt = Undefined.
Proof.
  intros Hi. unfold getPermanentResultPointer.
  rewrite at_index_out_of_range by exact Hi. reflexivity.
Qed.

Lemma getPermanentResultPointer_out_of_range_witness :
  getPermanentResultPointer Instances.triangle_element "stress" 3 = Undefined.
Proof.
  apply (getPermanentResultPointer_out_of_range Instances.triangle_element "stress" 3).
  right. vm_compute. discriminate.
Defined.

(** X4: after [assignStateVars] with a length that leaves every Gauss
    point at least its 12 doubles, the results "sdv", "stress" and
    "strain" of Gauss point [i] follow each other in block [i] of the
    buffer; the blocks have [nStateVars / gaussPts.size()] doubles each,
    and the last one ends inside the [nStateVars] doubles. *)
Theorem assignStateVars_layout (el : UelDisplacement) (base n : Z) :
  Forall (fun gpt => is_Some (GaussPt.material gpt)) (gaussPts el) ->
  0 <= n <= INT_MAX ->
  12 * Z.of_nat (length (gaussPts el)) <= n ->
  gaussPts el <> [] ->
  let block := n / Z.of_nat (length (gaussPts el)) in
  exists el',
    assignStateVars el base n = Returns el' /\
    length (gaussPts el') = length (gaussPts el) /\
    12 <= block /\
    forall i : nat, (i < length (gaussPts el))%nat ->
      getPermanentResultPointer el' "sdv" (Z.of_nat i)
      = Returns (Some (base + Z.of_nat i * block), block - 12) /\
      getPermanentResultPointer el' "stress" (Z.of_nat i)
      = Returns (Some (base + Z.of_nat i * block + (block - 12)), 6) /\
      getPermanentResultPointer el' "strain" (Z.of_nat i)
      = Returns (Some (base + Z.of_nat i * block + (block - 12) + 6), 6) /\
      base + Z.of_nat i * block + block <= base + n.
Proof.
  intros Hmat Hn Hroom Hne block.
  destruct (assignStateVars_binds el base n Hne Hmat Hn) as (el' & Hr & Hlen & Hb).
  fold block in Hb.
  set (g := Z.of_nat (length (gaussPts el))) in *.
  assert (Hg : 1 <= g).
  { unfold g. destruct (gaussPts el); [congruence | simpl; lia]. }
  assert (Hq : 12 <= block) by (apply Z.div_le_lower_bound; lia).
  assert (Hgq : g * block <= n) by (apply Z.mul_div_le; lia).
  exists el'. split; [exact Hr |]. split; [exact Hlen |]. split; [exact Hq |].
  intros i Hi.
  assert (Hi' : (i < length (gaussPts el'))%nat) by lia.
  destruct (lookup_lt_is_Some_2 _ _ Hi') as [gpt' Hgpt'].
  rewrite bound_from_lookup in Hb. specialize (Hb i gpt' Hgpt').
  apply bound_at_true in Hb as (Hstress & Hstrain & mat & Hm & Hvp & Hnm).
  rewrite (getPermanentResultPointer_sdv el' i gpt' mat Hgpt' Hm), Hvp, Hnm.
  rewrite (getPermanentResultPointer_stress el' i gpt' Hgpt'), Hstress.
  rewrite (getPermanentResultPointer_strain el' i gpt' Hgpt'), Hstrain.
  generalize dependent block. intros block. intros.
  split; [do 3 f_equal; lia |].
  split; [do 3 f_equal; lia |].
  split; [do 3 f_equal; lia |].
  assert (Z.of_nat i + 1 <= g) by (unfold g; lia). nia.
Qed.

Lemma assignStateVars_layout_witness :
  exists el',
    assignStateVars Instances.triangle_assigned 0 39 = Returns el' /\
    getPermanentResultPointer el' "sdv" 2 = Returns (Some 26, 1) /\
    getPermanentResultPointer el' "stress" 2 = Returns (Some 27, 6) /\
    getPermanentResultPointer el' "strain" 2 = Returns (Some 33, 6).
Proof.
  destruct (assignStateVars_layout Instances.triangle_assigned 0 39)
    as (el' & Hr & _ & _ & Hall).
  - vm_compute. repeat constructor; eexists; reflexivity.
  - vm_compute. split; discriminate.
  - vm_compute. discriminate.
  - vm_compute. discriminate.
  - destruct (Hall 2%nat) as (Hsdv & Hstress & Hstrain & _); [vm_compute; lia |].
    exists el'. split; [exact Hr |].
    split; [exact Hsdv |]. split; [exact Hstress | exact Hstrain].
Defined.

(** X5: with fewer than 12 doubles per Gauss point, [assignStateVars]
    still returns: the material of the first Gauss point is given a
    negative number of state variables, and the stress of the first
    Gauss point is bound to doubles that lie before the slice of the
    element, in what the state buffer holds below it. *)
Theorem assignStateVars_short_buffer (el : UelDisplacement) (base n : Z) :
  Forall (fun gpt => is_Some (GaussPt.material gpt)) (gaussPts el) ->
  gaussPts el <> [] ->
  0 <= n <= INT_MAX ->
  n < 12 * Z.of_nat (length (gaussPts el)) ->
  12 <= base ->
  exists el' count p,
    assignStateVars el base n = Returns el' /\
    getPermanentResultPointer el' "sdv" 0 = Returns (Some base, count) /\
    count < 0 /\
    getPermanentResultPointer el' "stress" 0 = Returns (Some p, 6) /\
    0 <= p < base.
Proof.
  intros Hmat Hne Hn Hshort Hbase.
  destruct (assignStateVars_binds el base n Hne Hmat Hn) as (el' & Hr & Hlen & Hb).
  set (g := Z.of_nat (length (gaussPts el))) in *.
  assert (Hg : 1 <= g).
  { unfold g. destruct (gaussPts el); [congruence | simpl; lia]. }
  assert (Hq : n / g < 12) by (apply Z.div_lt_upper_bound; lia).
  assert (Hq0 : 0 <= n / g) by (apply Z.div_pos; lia).
  assert (H0 : (0 < length (gaussPts el'))%nat) by lia.
  destruct (lookup_lt_is_Some_2 _ _ H0) as [gpt' Hgpt'].
  rewrite bound_from_lookup in Hb. specialize (Hb 0%nat gpt' Hgpt').
  apply bound_at_true in Hb as (Hstress & _ & mat & Hm & Hvp & Hnm).
  exists el', (n / g - 12), (base + (n / g - 12)).
  split; [exact Hr |].
  split.
  { pose proof (getPermanentResultPointer_sdv el' 0 gpt' mat Hgpt' Hm) as Hsdv.
    change (Z.of_nat 0) with 0 in Hsdv. rewrite Hsdv, Hvp, Hnm.
    do 3 f_equal. lia. }
  split; [lia |].
  split; [| lia].
  pose proof (getPermanentResultPointer_stress el' 0 gpt' Hgpt') as Hs.
  change (Z.of_nat 0) with 0 in Hs. rewrite Hs, Hstress.
  do 3 f_equal. lia.
Qed.

Lemma assignStateVars_short_buffer_witness :
  exists el' count p,
    assignStateVars Instances.triangle_assigned 20 30 = Returns el' /\
    getPermanentResultPointer el' "sdv" 0 = Returns (Some 20, count) /\
    count < 0 /\
    getPermanentResultPointer el' "stress" 0 = Returns (Some p, 6) /\
    0 <= p < 20.
Proof.
  apply (assignStateVars_short_buffer Instances.triangle_assigned 20 30).
  - vm_compute. repeat constructor; eexists; reflexivity.
  - vm_compute. discriminate.
  - vm_compute. split; discriminate.
  - vm_compute. reflexivity.
  - lia.
Defined.

(** X6: the length that [getNumberOfRequiredStateVars] returns, passed
    to [assignStateVars], gives the material of every Gauss point
    exactly the number of state variables that the material of the
    first Gauss point requires. *)
Theorem assignStateVars_of_required (el : UelDisplacement) (base : Z) gpt0 m0 :
  gaussPts el !! 0%nat = Some gpt0 ->
  GaussPt.material gpt0 = Some m0 ->
  Forall (fun gpt => is_Some (GaussPt.material gpt)) (gaussPts el) ->
  0 <= Material.getNumberOfRequiredStateVars m0 ->
  (Material.getNumberOfRequiredStateVars m0 + 12) * Z.of_nat (length (gaussPts el))
  <= INT_MAX ->
  exists n el',
    getNumberOfRequiredStateVars el = Returns n /\
    assignStateVars el base n = Returns el' /\
    forall i : nat, (i < length (gaussPts el))%nat ->
      getPermanentResultPointer el' "sdv" (Z.of_nat i)
      = Returns (Some (base + Z.of_nat i * (Material.getNumberOfRequiredStateVars m0 + 12)),
                 Material.getNumberOfRequiredStateVars m0).
Proof.
  intros Hgpt Hm Hmat Hpos Hmax.
  set (r := Material.getNumberOfRequiredStateVars m0) in *.
  set (g := Z.of_nat (length (gaussPts el))) in *.
  assert (Hg : 1 <= g).
  { apply lookup_lt_Some in Hgpt. unfold g. lia. }
  assert (Hne : gaussPts el <> []) by (intros E; rewrite E in Hgpt; discriminate).
  unfold INT_MAX in Hmax.
  assert (Hreq : getNumberOfRequiredStateVars el = Returns ((r + 12) * g)).
  { unfold getNumberOfRequiredStateVars. rewrite Hgpt. simpl. rewrite Hm. simpl. f_equal.
    unfold GaussPt.nRequiredStateVars. change (6 + 6) with 12. fold r g.
    rewrite (to_int_small (r + 12)) by nia.
    rewrite (to_size_t_small (r + 12)) by lia.
    apply to_int_to_size_t. nia. }
  assert (Hn : 0 <= (r + 12) * g <= INT_MAX) by (unfold INT_MAX; nia).
  destruct (assignStateVars_binds el base ((r + 12) * g) Hne Hmat Hn) as (el' & Hr & Hlen & Hb).
  fold g in Hb. rewrite Z.div_mul in Hb by lia.
  exists ((r + 12) * g), el'. split; [exact Hreq |]. split; [exact Hr |].
  intros i Hi.
  assert (Hi' : (i < length (gaussPts el'))%nat) by lia.
  destruct (lookup_lt_is_Some_2 _ _ Hi') as [gpt' Hgpt'].
  rewrite bound_from_lookup in Hb. specialize (Hb i gpt' Hgpt').
  apply bound_at_true in Hb as (_ & _ & mat & Hm' & Hvp & Hnm).
  rewrite (getPermanentResultPointer_sdv el' i gpt' mat Hgpt' Hm'), Hvp, Hnm.
  do 3 f_equal; lia.
Qed.

Lemma assignStateVars_of_required_witness :
  exists n el',
    getNumberOfRequiredStateVars Instances.triangle_assigned = Returns n /\
    assignStateVars Instances.triangle_assigned 0 n = Returns el' /\
    getPermanentResultPointer el' "sdv" 1 = Returns (Some 13, 1).
Proof.
  destruct (assignStateVars_of_required Instances.triangle_assigned 0
              (GaussPt.set_material
                 (GaussPt.make [0.5%float; 0%float] 0.25%float)
                 (Some (Instances.linear_material 4 10)))
              (Instances.linear_material 4 10))
    as (n & el' & Hreq & Hr & Hall).
  - reflexivity.
  - reflexivity.
  - vm_compute. repeat constructor; eexists; reflexivity.
  - simpl. lia.
  - vm_compute. discriminate.
  - exists n, el'. split; [exact Hreq |]. split; [exact Hr |].
    apply (Hall 1%nat). vm_compute. lia.
Defined.

Lemma assignStateVars_material_missing (el : UelDisplacement) (base n : Z) (i : nat) gpt :
  gaussPts el !! i = Some gpt ->
  GaussPt.material gpt = None ->
  assignStateVars el base n = Undefined.
Proof.
  intros Hi Hm. unfold assignStateVars.
  case_decide; [reflexivity |].
  rewrite (for_indexed_None _ 0 (gaussPts el) i gpt Hi); [reflexivity |].
  unfold assignStateVars_body. rewrite Hm. reflexivity.
Qed.

(** ** Construction, properties and initialisation *)

Section LifeCycle.

Context `{Lib : Libraries}.

Lemma initializeYourself_material_missing (el : UelDisplacement) (coords : VectorXd)
    (i : nat) gpt :
  gaussPts el !! i = Some gpt ->
  GaussPt.material gpt = None ->
  initializeYourself el coords = Undefined.
Proof.
  intros Hi Hm. unfold initializeYourself, for_each.
  change (gaussPts (set_coordinates el (Some coords))) with (gaussPts el).
  rewrite (for_indexed_None _ 0 (gaussPts el) i gpt Hi); [reflexivity |].
  unfold initializeYourself_body. rewrite Hm.
  destruct (sectionType _); simpl; try reflexivity;
    destruct (elementProperties _ !! 0%nat); reflexivity.
Qed.

Lemma assignProperty_BftMaterialSection_lookup (el : UelDisplacement) code props nprops
    (i : nat) gpt :
  gaussPts el !! i = Some gpt ->
  gaussPts (assignProperty_BftMaterialSection el code props nprops) !! i
  = Some (GaussPt.set_material gpt
            (userLibrary_bftMaterialFactory code props nprops (elLabel el) (Z.of_nat i))).
Proof.
  intros Hi. unfold assignProperty_BftMaterialSection. simpl.
  rewrite list_lookup_imap, Hi. reflexivity.
Qed.

(** X7: an element without Gauss points.  The two sizing functions
    have no defined behaviour: [getNumberOfRequiredStateVars] reads
    [gaussPts[0]], and [assignStateVars] divides by [gaussPts.size()].
    The other member functions return and change nothing but the
    stored coordinates. *)
Theorem without_gauss_points (el : UelDisplacement) (base n : Z) (coords dQ : VectorXd)
    (time : list float) (dT : float) (uninitialized : Locals.t) (mem : KernelMemory)
    (P load_ : list float) (state : StateTypes) (values buf : list float) :
  gaussPts el = [] ->
  getNumberOfRequiredStateVars el = Undefined /\
  assignStateVars el base n = Undefined /\
  (exists el', initializeYourself el coords = Returns el' /\ gaussPts el' = []) /\
  computeYourself el dQ time dT uninitialized mem = Returns mem /\
  computeBodyForce el P load_ = Returns P /\
  setInitialConditions el state values buf = Returns buf.
Proof.
  intros He.
  split; [unfold getNumberOfRequiredStateVars; rewrite He; reflexivity |].
  split; [unfold assignStateVars; rewrite He; reflexivity |].
  split.
  { unfold initializeYourself, for_each.
    change (gaussPts (set_coordinates el (Some coords))) with (gaussPts el).
    rewrite He. simpl. eexists. split; reflexivity. }
  split; [unfold computeYourself; rewrite He; reflexivity |].
  split; [unfold computeBodyForce; rewrite He; reflexivity |].
  unfold setInitialConditions. destruct state; [| reflexivity].
  case_decide; [| reflexivity]. rewrite He. reflexivity.
Qed.

(** X8: a freshly constructed element has one Gauss point per
    integration point; its stress and strain results are null pointers
    of length 6, and asking for "sdv" dereferences the material that is
    not there yet. *)
Theorem make_unbound (noEl : Z) (integrationType : IntegrationTypes)
    (sectionType_ : SectionType) (i : nat) :
  (i < length (NumIntegration_getGaussPointInfo ParentGeometryElement.shape integrationType))%nat ->
  let el := make noEl integrationType sectionType_ in
  length (gaussPts el)
  = length (NumIntegration_getGaussPointInfo ParentGeometryElement.shape integrationType) /\
  getPermanentResultPointer el "stress" (Z.of_nat i) = Returns (None, 6) /\
  getPermanentResultPointer el "strain" (Z.of_nat i) = Returns (None, 6) /\
  getPermanentResultPointer el "sdv" (Z.of_nat i) = Undefined.
Proof.
  intros Hi el.
  destruct (lookup_lt_is_Some_2 _ _ Hi) as [[xi w] Hinfo].
  assert (Hgpt : gaussPts el !! i = Some (GaussPt.make xi w)).
  { unfold el, make. simpl. rewrite list_lookup_fmap, Hinfo. reflexivity. }
  split; [unfold el, make; simpl; apply length_map |].
  split; [| split].
  - rewrite (getPermanentResultPointer_stress el i _ Hgpt). reflexivity.
  - rewrite (getPermanentResultPointer_strain el i _ Hgpt). reflexivity.
  - unfold getPermanentResultPointer. rewrite at_index_of_nat, Hgpt. reflexivity.
Qed.

(** X9: [assignProperty] with a material section does not check what
    the factory and the cast give it.  When they give a null pointer for
    a Gauss point, the call still returns, and the next
    [assignStateVars] or [initializeYourself], and the result "sdv" of
    that Gauss point, have no defined behaviour. *)
Theorem assignProperty_null_material (el : UelDisplacement) (materialCode : Z)
    (materialProperties : list float) (nMaterialProperties : Z) (i : nat) :
  (i < length (gaussPts el))%nat ->
  userLibrary_bftMaterialFactory materialCode materialProperties nMaterialProperties
    (elLabel el) (Z.of_nat i) = None ->
  let el' :=
    assignProperty_BftMaterialSection el materialCode materialProperties nMaterialProperties in
  (forall base n, assignStateVars el' base n = Undefined) /\
  (forall coords, initializeYourself el' coords = Undefined) /\
  getPermanentResultPointer el' "sdv" (Z.of_nat i) = Undefined.
Proof.
  intros Hi Hnull el'.
  destruct (lookup_lt_is_Some_2 _ _ Hi) as [gpt Hgpt].
  pose proof (assignProperty_BftMaterialSection_lookup el materialCode materialProperties
                nMaterialProperties i gpt Hgpt) as Hlook.
  rewrite Hnull in Hlook. fold el' in Hlook.
  split; [| split].
  - intros base n. eapply assignStateVars_material_missing; [exact Hlook | reflexivity].
  - intros coords. eapply initializeYourself_material_missing; [exact Hlook | reflexivity].
  - unfold getPermanentResultPointer. rewrite at_index_of_nat, Hlook. reflexivity.
Qed.

(** X10: [assignProperty] with a material section gives Gauss point [i]
    the material that the factory makes for the element label and the
    index [i], and replaces nothing else: the number of Gauss points
    and the stress and strain results are as before, also when the
    element was bound to a state buffer already. *)
Theorem assignProperty_replaces_material (el : UelDisplacement) (materialCode : Z)
    (materialProperties : list float) (nMaterialProperties : Z) (i : nat) :
  (i < length (gaussPts el))%nat ->
  let el' :=
    assignProperty_BftMaterialSection el materialCode materialProperties nMaterialProperties in
  length (gaussPts el') = length (gaussPts el) /\
  getPermanentResultPointer el' "stress" (Z.of_nat i)
  = getPermanentResultPointer el "stress" (Z.of_nat i) /\
  getPermanentResultPointer el' "strain" (Z.of_nat i)
  = getPermanentResultPointer el "strain" (Z.of_nat i) /\
  exists gpt',
    gaussPts el' !! i = Some gpt' /\
    GaussPt.material gpt'
    = userLibrary_bftMaterialFactory materialCode materialProperties nMaterialProperties
        (elLabel el) (Z.of_nat i).
Proof.
  intros Hi el'.
  destruct (lookup_lt_is_Some_2 _ _ Hi) as [gpt Hgpt].
  pose proof (assignProperty_BftMaterialSection_lookup el materialCode materialProperties
                nMaterialProperties i gpt Hgpt) as Hlook.
  fold el' in Hlook.
  split; [unfold el', assignProperty_BftMaterialSection; simpl; apply length_imap |].
  split; [| split].
  - rewrite (getPermanentResultPointer_stress el' i _ Hlook).
    rewrite (getPermanentResultPointer_stress el i _ Hgpt). reflexivity.
  - rewrite (getPermanentResultPointer_strain el' i _ Hlook).
    rewrite (getPermanentResultPointer_strain el i _ Hgpt). reflexivity.
  - eexists. split; [exact Hlook | reflexivity].
Qed.

(** What a Gauss point is after [initializeYourself]: the Gauss point as
    it was, with a geometry, and with the characteristic length set in
    its material.  The [B] of the geometry is [B_at], and its
    integration volume is [intVol_at]. *)
Lemma initializeYourself_body_Some (el : UelDisplacement) (coords : VectorXd) gpt gpt' :
  initializeYourself_body el coords gpt = Some gpt' ->
  exists geom mat length_,
    GaussPt.material gpt = Some mat /\
    gpt' = GaussPt.set_material (GaussPt.set_geometry gpt (Some geom))
             (Some (Material.setCharacteristicElementLength mat length_)) /\
    Geometry.B geom = B_at coords (GaussPt.xi gpt) /\
    intVol_at el coords gpt = Some (Geometry.intVol geom).
Proof.
  unfold initializeYourself_body, intVol_at, detJ_at, B_at. intros Hb.
  destruct (sectionType el);
    try (destruct (elementProperties el !! 0%nat) as [a |]; [| discriminate]);
    destruct (GaussPt.material gpt) as [mat |]; try discriminate;
    simpl in Hb; injection Hb as <-; do 3 eexists;
    (split; [reflexivity |]); (split; [reflexivity |]);
    split; reflexivity.
Qed.

Lemma initializeYourself_Returns (el : UelDisplacement) (coords : VectorXd) el' :
  initializeYourself el coords = Returns el' ->
  exists gpts,
    for_indexed (fun _ => initializeYourself_body (set_coordinates el (Some coords)) coords)
      0 (gaussPts el) = Some gpts /\
    el' = set_gaussPts (set_coordinates el (Some coords)) gpts.
Proof.
  unfold initializeYourself, for_each.
  change (gaussPts (set_coordinates el (Some coords))) with (gaussPts el).
  destruct (for_indexed _ 0 (gaussPts el)) as [gpts |]; [| discriminate].
  simpl. intros [= <-]. exists gpts. auto.
Qed.

Lemma initializeYourself_lookup (el : UelDisplacement) (coords : VectorXd) el' :
  initializeYourself el coords = Returns el' ->
  length (gaussPts el') = length (gaussPts el) /\
  forall (i : nat) gpt, gaussPts el !! i = Some gpt ->
    exists geom mat length_,
      GaussPt.material gpt = Some mat /\
      gaussPts el' !! i
      = Some (GaussPt.set_material (GaussPt.set_geometry gpt (Some geom))
                (Some (Material.setCharacteristicElementLength mat length_))) /\
      Geometry.B geom = B_at coords (GaussPt.xi gpt) /\
      intVol_at el coords gpt = Some (Geometry.intVol geom).
Proof.
  intros (gpts & Hloop & ->)%initializeYourself_Returns.
  apply for_indexed_Some in Hloop as [Hlen Hlook]. simpl.
  split; [exact Hlen |].
  intros i gpt Hi. destruct (Hlook i gpt Hi) as (gpt' & Hb & Hi').
  apply initializeYourself_body_Some in Hb as (geom & mat & length_ & Hm & -> & HB & Hvol).
  exists geom, mat, length_. auto.
Qed.

(** [initializeYourself] returns when every Gauss point has a material
    and, unless the section is [Solid], there is an element property. *)
Lemma initializeYourself_defined (el : UelDisplacement) (coords : VectorXd) :
  Forall (fun gpt => is_Some (GaussPt.material gpt)) (gaussPts el) ->
  sectionType el = Solid \/ is_Some (elementProperties el !! 0%nat) ->
  exists el', initializeYourself el coords = Returns el'.
Proof.
  intros Hmat Hprops. unfold initializeYourself, for_each.
  set (el1 := set_coordinates el (Some coords)).
  change (gaussPts el1) with (gaussPts el).
  destruct (for_indexed_is_Some (fun _ => initializeYourself_body el1 coords) 0 (gaussPts el))
    as [gpts Hgpts].
  { intros j gpt Hj. rewrite Forall_lookup in Hmat.
    destruct (Hmat j gpt Hj) as [mat Hm].
    unfold initializeYourself_body. change (sectionType el1) with (sectionType el).
    change (elementProperties el1) with (elementProperties el).
    destruct Hprops as [-> | [x Hx]].
    - rewrite Hm. simpl. eauto.
    - rewrite Hx, Hm. destruct (sectionType el); simpl; eauto. }
  rewrite Hgpts. simpl. eauto.
Qed.

(** The binding to the state buffer is not touched by the
    initialisation. *)
Lemma initializeYourself_partitioned (el : UelDisplacement) (coords : VectorXd) el'
    (base m : Z) (buf : list float) :
  initializeYourself el coords = Returns el' ->
  partitioned base m el' buf = partitioned base m el buf.
Proof.
  intros Hr. pose proof (initializeYourself_lookup el coords el' Hr) as [Hlen Hlook].
  unfold partitioned. rewrite Hlen. f_equal. f_equal.
  clear Hr. revert Hlen Hlook. generalize (gaussPts el') (gaussPts el) 0.
  intros l'. induction l' as [| g' l' IH]; intros l o Hlen Hlook.
  - destruct l; [reflexivity | discriminate].
  - destruct l as [| g l]; [discriminate |]. simpl.
    destruct (Hlook 0%nat g eq_refl) as (geom & mat & length_ & Hm & Hi' & _).
    simpl in Hi'. injection Hi' as ->.
    f_equal.
    + unfold bound_at. simpl. rewrite Hm. reflexivity.
    + apply IH; [simpl in Hlen; lia |].
      intros i gpt Hi. apply (Hlook (S i) gpt Hi).
Qed.

(** After the initialisation every Gauss point has its geometry, with
    the [B] that the parent gives it. *)
Lemma initializeYourself_initialised (el : UelDisplacement) (coords : VectorXd) el' :
  (ParentGeometryElement.nDim = 1 -> forall xi, length (B_at coords xi) = 1%nat) ->
  (ParentGeometryElement.nDim = 3 -> forall xi, length (B_at coords xi) = 6%nat) ->
  initializeYourself el coords = Returns el' ->
  forallb initialised (gaussPts el') = true.
Proof.
  intros HB1 HB3 Hr.
  pose proof (initializeYourself_lookup el coords el' Hr) as [Hlen Hlook].
  apply forallb_forall. intros gpt' Hin.
  apply list_elem_of_In, list_elem_of_lookup in Hin as [i Hi'].
  assert (Hi : (i < length (gaussPts el))%nat)
    by (rewrite <- Hlen; eapply lookup_lt_Some; eassumption).
  destruct (lookup_lt_is_Some_2 _ _ Hi) as [gpt Hgpt].
  destruct (Hlook i gpt Hgpt) as (geom & mat & length_ & _ & Hi'' & HB & _).
  rewrite Hi' in Hi''. injection Hi'' as ->.
  unfold initialised. simpl. rewrite HB.
  repeat case_decide; try reflexivity; apply Nat.eqb_eq; auto.
Qed.

(** X11: [initializeYourself] stores the coordinates and gives every
    Gauss point its geometry, and it moves no result: what
    [getPermanentResultPointer] returns for any name and Gauss point is
    what it returned before, so that an element bound to its state
    buffer stays bound. *)
Theorem initializeYourself_keeps_results (el : UelDisplacement) (coords : VectorXd) el' :
  initializeYourself el coords = Returns el' ->
  coordinates el' = Some coords /\
  Forall (fun gpt => is_Some (GaussPt.geometry gpt)) (gaussPts el') /\
  (forall resultName gaussPt,
     getPermanentResultPointer el' resultName gaussPt
     = getPermanentResultPointer el resultName gaussPt) /\
  (forall base m buf, partitioned base m el' buf = partitioned base m el buf).
Proof.
  intros Hr. pose proof (initializeYourself_lookup el coords el' Hr) as [Hlen Hlook].
  split.
  { apply initializeYourself_Returns in Hr as (gpts & _ & ->). reflexivity. }
  split.
  { apply Forall_lookup. intros i gpt' Hi'.
    assert (Hi : (i < length (gaussPts el))%nat)
      by (rewrite <- Hlen; eapply lookup_lt_Some; eassumption).
    destruct (lookup_lt_is_Some_2 _ _ Hi) as [gpt Hgpt].
    destruct (Hlook i gpt Hgpt) as (geom & mat & length_ & _ & Hi'' & _).
    rewrite Hi' in Hi''. injection Hi'' as ->. simpl. eauto. }
  split.
  { intros resultName gaussPt. unfold getPermanentResultPointer.
    destruct (at_index (gaussPts el) gaussPt) as [gpt |] eqn:Hat.
    - apply at_index_Some in Hat as [Hpos Hgpt].
      destruct (Hlook _ gpt Hgpt) as (geom & mat & length_ & Hm & Hi' & _).
      unfold at_index. rewrite decide_True by exact Hpos. rewrite Hi'. simpl.
      rewrite Hm. reflexivity.
    - unfold at_index in *. case_decide; [| reflexivity].
      apply lookup_ge_None in Hat. rewrite <- Hlen in Hat.
      apply lookup_ge_None in Hat. rewrite Hat. reflexivity. }
  intros base m buf. apply (initializeYourself_partitioned el coords el' base m buf Hr).
Qed.

(** X12: nothing of an earlier initialisation survives a later one:
    initialising again, with the same or with other coordinates, gives
    the element that the later initialisation alone gives. *)
Theorem initializeYourself_again (el : UelDisplacement) (coords1 coords2 : VectorXd) el1 :
  initializeYourself el coords1 = Returns el1 ->
  initializeYourself el1 coords2 = initializeYourself el coords2.
Proof.
  intros (gpts1 & Hloop & ->)%initializeYourself_Returns.
  unfold initializeYourself, for_each. simpl.
  rewrite (for_indexed_after _ _
             (fun _ => initializeYourself_body (set_coordinates el (Some coords2)) coords2)
             0 (gaussPts el) gpts1 Hloop); [reflexivity |].
  intros j x x1 Hj Hx.
  apply initializeYourself_body_Some in Hx as (geom & mat & length_ & Hm & -> & _).
  unfold initializeYourself_body. simpl. rewrite Hm.
  destruct (sectionType el); simpl; try reflexivity;
    destruct (elementProperties el !! 0%nat); reflexivity.
Qed.

End LifeCycle.

Lemma without_gauss_points_witness :
  getNumberOfRequiredStateVars (set_gaussPts Instances.triangle_new []) = Undefined /\
  assignStateVars (set_gaussPts Instances.triangle_new []) 0 39 = Undefined /\
  computeYourself (Lib := Instances.triangle_libraries)
    (set_gaussPts Instances.triangle_new []) Instances.triangle_dQ Instances.time_zero 1
    Instances.garbage Instances.triangle_memory
  = Returns Instances.triangle_memory.
Proof.
  destruct (without_gauss_points (Lib := Instances.triangle_libraries)
              (set_gaussPts Instances.triangle_new []) 0 39 [0; 0; 1; 0; 0; 1]%float
              Instances.triangle_dQ Instances.time_zero 1 Instances.garbage
              Instances.triangle_memory [] [] GeostaticStress [] [])
    as (Hreq & Hassign & _ & Hcompute & _).
  - reflexivity.
  - auto.
Defined.

Lemma make_unbound_witness :
  length (gaussPts Instances.triangle_new) = 3%nat /\
  getPermanentResultPointer Instances.triangle_new "stress" 1 = Returns (None, 6) /\
  getPermanentResultPointer Instances.triangle_new "strain" 1 = Returns (None, 6) /\
  getPermanentResultPointer Instances.triangle_new "sdv" 1 = Undefined.
Proof.
  apply (make_unbound (Lib := Instances.triangle_libraries) 7 Instances.FullIntegration
           PlaneStrain 1).
  vm_compute. lia.
Defined.

Lemma assignProperty_null_material_witness :
  assignStateVars
    (assignProperty_BftMaterialSection (Lib := Instances.triangle_libraries)
       Instances.triangle_new 2 [4%float; 10%float] 2) 0 39 = Undefined.
Proof.
  destruct (assignProperty_null_material (Lib := Instances.triangle_libraries)
              Instances.triangle_new 2 [4%float; 10%float] 2 0) as (Hassign & _ & _).
  - vm_compute. lia.
  - reflexivity.
  - apply Hassign.
Defined.

Lemma assignProperty_replaces_material_witness :
  exists gpt',
    gaussPts (assignProperty_BftMaterialSection (Lib := Instances.triangle_libraries)
                Instances.triangle_bound 1 [5%float; 20%float] 2) !! 1%nat = Some gpt' /\
    GaussPt.material gpt' = Some (Instances.linear_material 5 20) /\
    getPermanentResultPointer
      (assignProperty_BftMaterialSection (Lib := Instances.triangle_libraries)
         Instances.triangle_bound 1 [5%float; 20%float] 2) "stress" 1
    = Returns (Some 14, 6).
Proof.
  destruct (assignProperty_replaces_material (Lib := Instances.triangle_libraries)
              Instances.triangle_bound 1 [5%float; 20%float] 2 1)
    as (_ & Hstress & _ & gpt' & Hgpt' & Hm).
  - vm_compute. lia.
  - exists gpt'. split; [exact Hgpt' |]. split; [exact Hm |].
    change (Z.of_nat 1) with 1 in Hstress. rewrite Hstress. vm_compute. reflexivity.
Defined.

Lemma initializeYourself_keeps_results_witness :
  coordinates Instances.triangle_element = Some [0; 0; 1; 0; 0; 1]%float /\
  getPermanentResultPointer Instances.triangle_element "strain" 2
  = getPermanentResultPointer Instances.triangle_bound "strain" 2 /\
  partitioned 0 1 Instances.triangle_element (Instances.zeros 39) = true.
Proof.
  destruct (initializeYourself_keeps_results (Lib := Instances.triangle_libraries)
              Instances.triangle_bound [0; 0; 1; 0; 0; 1]%float Instances.triangle_element)
    as (Hc & _ & Hres & Hpart).
  - vm_compute. reflexivity.
  - split; [exact Hc |]. split; [apply Hres |].
    rewrite Hpart. vm_compute. reflexivity.
Defined.

Lemma initializeYourself_again_witness :
  initializeYourself (Lib := Instances.triangle_libraries) Instances.triangle_element
    [0; 0; 2; 0; 0; 2]%float
  = initializeYourself (Lib := Instances.triangle_libraries) Instances.triangle_bound
      [0; 0; 2; 0; 0; 2]%float.
Proof.
  apply (initializeYourself_again (Lib := Instances.triangle_libraries)
           Instances.triangle_bound [0; 0; 1; 0; 0; 1]%float).
  vm_compute. reflexivity.
Defined.

(** ** The computation kernel, from the call to its return *)

Section KernelReturn.

Context `{Lib : Libraries}.

Variables (el : UelDisplacement) (dQ : VectorXd) (time : list float) (dT : float).

Local Arguments Material.call : simpl never.

(** A stress routine called on a Gauss point whose state variables and
    stress lie inside the buffer is defined. *)
Lemma Material_call_defined routine (mat : Material.t) (buf : list float) (vp m : Z)
    (dE6 : Vector6) (p : float) :
  Material.stateVars mat = Some vp ->
  Material.nStateVars mat = m ->
  0 <= m -> 0 <= vp ->
  vp + m + 6 <= Z.of_nat (length buf) ->
  exists buf' C66 p' dE6',
    Material.call routine mat buf (Some (vp + m)) dE6 time dT p = Some (buf', C66, p', dE6').
Proof.
  intros Hvp Hn Hm Hpos Hroom. unfold Material.call. simpl. rewrite Hvp, Hn. simpl.
  destruct (load6_is_Some buf (vp + m)) as [s Hs]; [lia | lia |].
  rewrite Hs. simpl.
  destruct (load_is_Some buf vp (Z.to_nat m)) as [sdv Hsdv]; [lia | lia |].
  rewrite Hsdv. simpl.
  set (r := routine mat (Material.characteristicElementLength mat) sdv s dE6 time dT p).
  destruct (store_is_Some buf vp (take (Z.to_nat m) (Material.stateVars_written r)))
    as [buf1 Hs1]; [lia | rewrite length_take; lia |].
  rewrite Hs1. simpl.
  pose proof (store_length _ _ _ _ Hs1) as Hl1.
  destruct (store_is_Some buf1 (vp + m) (Vector6_data (Material.stress r)))
    as [buf2 Hs2]; [lia | simpl; lia |].
  unfold store6. rewrite Hs2. simpl. eauto.
Qed.

(** In one dimension the update of a Gauss point leaves the local [S]. *)
Lemma computeYourself_update_S_uniaxial (g : GaussPt.t) loc mem loc' mem' :
  ParentGeometryElement.nDim = 1 ->
  computeYourself_update el dQ time dT g loc mem = Some (loc', mem') ->
  Locals.S loc' = Locals.S loc.
Proof.
  intros Hd Hup. unfold computeYourself_update in Hup.
  destruct (GaussPt.geometry g) as [geom |]; [| discriminate]. simpl in Hup.
  rewrite decide_True in Hup by exact Hd.
  split_all. injection Hup as <- <-. reflexivity.
Qed.

(** In two and three dimensions the update of a Gauss point leaves in
    [S] the stress that the state buffer then holds for it. *)
Lemma computeYourself_update_S (g : GaussPt.t) (sp : Z) loc mem loc' mem' :
  ParentGeometryElement.nDim = 2 \/ ParentGeometryElement.nDim = 3 ->
  GaussPt.stress g = Some sp ->
  GaussPt.strain g = Some (sp + 6) ->
  computeYourself_update el dQ time dT g loc mem = Some (loc', mem') ->
  exists s, load6 (stateVars mem') sp = Some s /\ Locals.S loc' = stress_form s.
Proof.
  intros Hd Hstress Hstrain Hup. unfold computeYourself_update in Hup.
  rewrite Hstress, Hstrain in Hup.
  destruct (GaussPt.geometry g) as [geom |]; [| discriminate]. simpl in Hup.
  rewrite decide_False in Hup by lia.
  unfold stress_form.
  destruct (decide (ParentGeometryElement.nDim = 2)) as [Hd2 | Hd2].
  { destruct (sectionType el); split_all; injection Hup as <- <-; simpl;
      match goal with
      | E1 : load6 ?l sp = Some ?s, E2 : store6 ?l (sp + 6) _ = Some _ |- _ =>
          exists s; split; [| reflexivity];
          rewrite <- E1; apply (load6_same_outside _ _ _ _ _ (store6_same_outside _ _ _ _ E2));
          lia
      end. }
  rewrite decide_True in Hup by lia.
  destruct (sectionType el); split_all; injection Hup as <- <-; simpl;
    match goal with
    | E1 : load6 ?l sp = Some ?s, E2 : store6 ?l (sp + 6) _ = Some _ |- _ =>
        exists s; split; [| reflexivity];
        rewrite <- E1; apply (load6_same_outside _ _ _ _ _ (store6_same_outside _ _ _ _ E2));
        lia
    end.
Qed.

(** When no stress routine is called, the update of a Gauss point
    writes its strain and nothing else, and leaves the fraction. *)
Lemma computeYourself_update_no_call (g : GaussPt.t) loc mem loc' mem' :
  routine_called el = None ->
  ParentGeometryElement.nDim = 2 \/ ParentGeometryElement.nDim = 3 ->
  computeYourself_update el dQ time dT g loc mem = Some (loc', mem') ->
  pNewDT mem' = pNewDT mem /\
  exists q, GaussPt.strain g = Some q /\
    same_outside q (q + 6) (stateVars mem) (stateVars mem').
Proof.
  intros Hrc Hd Hup. unfold computeYourself_update in Hup. unfold routine_called in Hrc.
  destruct (GaussPt.geometry g) as [geom |]; [| discriminate]. simpl in Hup.
  rewrite decide_False in Hup by lia. rewrite decide_False in Hrc by lia.
  destruct (decide (ParentGeometryElement.nDim = 2)) as [Hd2 | Hd2].
  { destruct (sectionType el); try discriminate;
      split_all; injection Hup as <- <-; simpl; (split; [reflexivity |]);
      eexists; (split; [reflexivity |]);
      match goal with
      | E2 : store6 _ _ _ = Some _ |- _ => apply (store6_same_outside _ _ _ _ E2)
      end. }
  rewrite decide_True in Hup by lia. rewrite decide_True in Hrc by lia.
  destruct (sectionType el); try discriminate;
    split_all; injection Hup as <- <-; simpl; (split; [reflexivity |]);
    eexists; (split; [reflexivity |]);
    match goal with
    | E2 : store6 _ _ _ = Some _ |- _ => apply (store6_same_outside _ _ _ _ E2)
    end.
Qed.

(** What every update leaves as it is in the state buffer and in the
    fraction, the loop leaves as it is. *)
Lemma computeYourself_loop_observed {T : Type} (obs : list float -> float -> T)
    (gpts : list GaussPt.t) :
  (forall g loc mem loc1 mem1, g ∈ gpts ->
     computeYourself_update el dQ time dT g loc mem = Some (loc1, mem1) ->
     obs (stateVars mem1) (pNewDT mem1) = obs (stateVars mem) (pNewDT mem)) ->
  forall loc mem e loc' mem',
    computeYourself_loop el dQ time dT gpts loc mem = Some (e, loc', mem') ->
    obs (stateVars mem') (pNewDT mem') = obs (stateVars mem) (pNewDT mem).
Proof.
  induction gpts as [| g rest IH]; intros Hobs loc mem e loc' mem' Hloop; simpl in Hloop.
  - injection Hloop as <- <- <-. reflexivity.
  - destruct (computeYourself_update el dQ time dT g loc mem) as [[loc1 mem1] |] eqn:Hup;
      [| discriminate].
    simpl in Hloop.
    pose proof (Hobs g loc mem loc1 mem1 ltac:(left) Hup) as H1.
    destruct (pNewDT mem1 <? 1)%float.
    + injection Hloop as <- <- <-. exact H1.
    + destruct (computeYourself_accumulate g loc1 mem1) as [mem2 |] eqn:Hacc;
        [| discriminate].
      simpl in Hloop.
      apply computeYourself_accumulate_frame in Hacc as [Hsv Hp].
      rewrite <- H1, <- Hsv, <- Hp.
      apply (IH ltac:(intros; eapply Hobs; [right |]; eassumption) _ _ _ _ _ Hloop).
Qed.

(** How the loop ended shows in the fraction. *)
Lemma computeYourself_loop_end (gpts : list GaussPt.t) :
  forall loc mem e loc' mem',
    computeYourself_loop el dQ time dT gpts loc mem = Some (e, loc', mem') ->
    match e with
    | Completed => (pNewDT mem' <? 1)%float = false \/ (gpts = [] /\ mem' = mem)
    | CutBackRequested =>
        (pNewDT mem' <? 1)%float = true /\
        exists (k : nat) gaussPt loc1 mem1,
          gpts !! k = Some gaussPt /\
          computeYourself_loop el dQ time dT (take k gpts) loc mem
          = Some (Completed, loc1, mem1) /\
          computeYourself_update el dQ time dT gaussPt loc1 mem1 = Some (loc', mem')
    end.
Proof.
  induction gpts as [| g rest IH]; intros loc mem e loc' mem' Hloop; simpl in Hloop.
  - injection Hloop as <- <- <-. right. auto.
  - destruct (computeYourself_update el dQ time dT g loc mem) as [[loc1 mem1] |] eqn:Hup;
      [| discriminate].
    simpl in Hloop.
    destruct (pNewDT mem1 <? 1)%float eqn:Hcut.
    + injection Hloop as <- <- <-. split; [exact Hcut |].
      exists 0%nat, g, loc, mem. simpl. auto.
    + destruct (computeYourself_accumulate g loc1 mem1) as [mem2 |] eqn:Hacc;
        [| discriminate].
      simpl in Hloop.
      pose proof (computeYourself_accumulate_frame _ _ _ _ Hacc) as [_ Hp].
      specialize (IH loc1 mem2 e loc' mem' Hloop).
      destruct e.
      * left. destruct IH as [IH | [_ ->]]; [exact IH | congruence].
      * destruct IH as [Hc (k & gaussPt & loc_k & mem_k & Hk & Hpre & Hupk)].
        split; [exact Hc |].
        exists (S k), gaussPt, loc_k, mem_k. simpl.
        rewrite Hup. simpl. rewrite Hcut, Hacc. simpl. auto.
Qed.

(** A call that returns with a fraction that is not below 1 has
    completed its loop. *)
Lemma computeYourself_completed (uninitialized : Locals.t) (mem mem' : KernelMemory) :
  computeYourself el dQ time dT uninitialized mem = Returns mem' ->
  (pNewDT mem' <? 1)%float = false ->
  exists loc',
    computeYourself_loop el dQ time dT (gaussPts el) uninitialized mem
    = Some (Completed, loc', mem').
Proof.
  intros Hr Hc. unfold computeYourself in Hr.
  destruct (computeYourself_loop el dQ time dT (gaussPts el) uninitialized mem)
    as [[[e loc'] mem''] |] eqn:Hloop; [| discriminate].
  simpl in Hr. injection Hr as ->.
  pose proof (computeYourself_loop_end _ _ _ _ _ _ Hloop) as Hend.
  destruct e; [exists loc'; reflexivity |].
  destruct Hend as [Hc' _]. congruence.
Qed.

(** X13: on return, the fraction tells how the call ended, for an
    element with at least one Gauss point: below 1, the call returned
    from the update of some Gauss point [k], before anything was
    accumulated for it; not below 1, every Gauss point was updated and
    accumulated. *)
Theorem computeYourself_fraction_tells (uninitialized : Locals.t) (mem mem' : KernelMemory) :
  gaussPts el <> [] ->
  computeYourself el dQ time dT uninitialized mem = Returns mem' ->
  if (pNewDT mem' <? 1)%float
  then exists (k : nat) gaussPt loc1 mem1 loc2,
         gaussPts el !! k = Some gaussPt /\
         computeYourself_loop el dQ time dT (take k (gaussPts el)) uninitialized mem
         = Some (Completed, loc1, mem1) /\
         computeYourself_update el dQ time dT gaussPt loc1 mem1 = Some (loc2, mem')
  else exists loc',
         computeYourself_loop el dQ time dT (gaussPts el) uninitialized mem
         = Some (Completed, loc', mem').
Proof.
  intros Hne Hr. unfold computeYourself in Hr.
  destruct (computeYourself_loop el dQ time dT (gaussPts el) uninitialized mem)
    as [[[e loc'] mem''] |] eqn:Hloop; [| discriminate].
  simpl in Hr. injection Hr as ->.
  pose proof (computeYourself_loop_end _ _ _ _ _ _ Hloop) as Hend.
  destruct e.
  - destruct Hend as [Hc | [He _]]; [| contradiction].
    rewrite Hc. exists loc'. reflexivity.
  - destruct Hend as [Hc (k & gaussPt & loc1 & mem1 & Hk & Hpre & Hup)].
    rewrite Hc. exists k, gaussPt, loc1, mem1, loc'. auto.
Qed.

Lemma computeYourself_loop_Pe_uniaxial (gpts : list GaussPt.t) :
  forall loc mem loc' mem',
    ParentGeometryElement.nDim = 1 ->
    computeYourself_loop el dQ time dT gpts loc mem = Some (Completed, loc', mem') ->
    integrate_Pe (fun _ => Some (Locals.S loc)) (Pe mem) gpts = Some (Pe mem').
Proof.
  induction gpts as [| g rest IH]; intros loc mem loc' mem' Hd Hloop; simpl in Hloop.
  - injection Hloop as <- <-. reflexivity.
  - destruct (computeYourself_update el dQ time dT g loc mem) as [[loc1 mem1] |] eqn:Hup;
      [| discriminate].
    simpl in Hloop.
    destruct (pNewDT mem1 <? 1)%float; [discriminate |].
    destruct (computeYourself_accumulate g loc1 mem1) as [mem2 |] eqn:Hacc; [| discriminate].
    simpl in Hloop.
    pose proof (computeYourself_update_S_uniaxial g loc mem loc1 mem1 Hd Hup) as HS.
    destruct (computeYourself_update_outputs el dQ time dT _ _ _ _ _ Hup) as [HPe _].
    unfold computeYourself_accumulate in Hacc.
    simpl. destruct (GaussPt.geometry g) as [geom |]; [| discriminate]. simpl in *.
    injection Hacc as <-.
    specialize (IH _ _ _ _ Hd Hloop). simpl in IH. rewrite HS, HPe in IH. exact IH.
Qed.

(** X14: in one dimension the local [S] is never assigned.  When the
    call completes, [Pe] has been reduced, for one Gauss point after
    the other, by [B^T * S * intVol] with the [S] that the function
    started with, whatever stress the material computed. *)
Theorem computeYourself_uniaxial_Pe (uninitialized : Locals.t) (mem mem' : KernelMemory) :
  ParentGeometryElement.nDim = 1 ->
  computeYourself el dQ time dT uninitialized mem = Returns mem' ->
  (pNewDT mem' <? 1)%float = false ->
  integrate_Pe (fun _ => Some (Locals.S uninitialized)) (Pe mem) (gaussPts el)
  = Some (Pe mem').
Proof.
  intros Hd Hr Hc.
  destruct (computeYourself_completed uninitialized mem mem' Hr Hc) as [loc' Hloop].
  apply (computeYourself_loop_Pe_uniaxial (gaussPts el) uninitialized mem loc' mem' Hd Hloop).
Qed.

Variables (base m : Z).

Lemma partitioned_true (buf : list float) :
  partitioned base m el buf = true ->
  0 <= base /\ 0 <= m /\
  (forall (j : nat) gpt, gaussPts el !! j = Some gpt ->
     bound_at base m (0 + Z.of_nat j) gpt = true) /\
  base + Z.of_nat (length (gaussPts el)) * (m + 12) <= Z.of_nat (length buf).
Proof.
  unfold partitioned. rewrite !andb_true_iff, !Z.leb_le.
  intros [[[Hbase Hm] Hbound] Hroom]. rewrite bound_from_lookup in Hbound. auto.
Qed.

(** The update of a Gauss point that is bound to a block inside the
    buffer, and initialised, is defined. *)
Lemma computeYourself_update_defined (i : Z) (g : GaussPt.t) loc mem :
  bound_at base m i g = true ->
  0 <= base -> 0 <= m -> 0 <= i ->
  base + (i + 1) * (m + 12) <= Z.of_nat (length (stateVars mem)) ->
  initialised g = true ->
  is_Some (computeYourself_update el dQ time dT g loc mem).
Proof.
  intros Hbound Hbase Hm Hi Hroom Hinit.
  apply bound_at_block in Hbound as (Hstress & Hstrain & mat & Hmat & Hvp & Hn).
  set (vp := base + i * (m + 12)) in *.
  assert (Hvp0 : 0 <= vp) by (unfold vp; nia).
  assert (Hend : vp + m + 12 <= Z.of_nat (length (stateVars mem))) by (unfold vp; nia).
  unfold initialised in Hinit. unfold computeYourself_update.
  rewrite Hstress, Hstrain, Hmat.
  destruct (GaussPt.geometry g) as [geom |]; [| discriminate]. simpl.
  assert (Hcall : forall routine dE6,
            exists buf C66 p' dE6',
              Material.call routine mat (stateVars mem) (Some (vp + m)) dE6 time dT (pNewDT mem)
              = Some (buf, C66, p', dE6') /\ length buf = length (stateVars mem)).
  { intros routine dE6.
    destruct (Material_call_defined routine mat (stateVars mem) vp m dE6 (pNewDT mem)
                Hvp Hn Hm Hvp0 ltac:(lia)) as (buf & C66 & p' & dE6' & Hc).
    exists buf, C66, p', dE6'. split; [exact Hc |].
    apply (Material_call_frame time dT _ _ _ _ _ _ _ _ _ _ _ Hvp Hn Hm Hc). }
  assert (Hrest : forall buf (dE6' : Vector6),
            length buf = length (stateVars mem) ->
            exists s e buf',
              load6 buf (vp + m) = Some s /\ load6 buf (vp + m + 6) = Some e /\
              store6 buf (vp + m + 6) (Vector6_add e dE6') = Some buf').
  { intros buf dE6' Hl.
    destruct (load6_is_Some buf (vp + m)) as [s Hs]; [lia | lia |].
    destruct (load6_is_Some buf (vp + m + 6)) as [e He]; [lia | lia |].
    destruct (store_is_Some buf (vp + m + 6) (Vector6_data (Vector6_add e dE6')))
      as [buf' Hs']; [lia | simpl; lia |].
    exists s, e, buf'. auto. }
  destruct (decide (ParentGeometryElement.nDim = 1)) as [Hd1 | Hd1].
  { apply Nat.eqb_eq in Hinit.
    destruct (Geometry.B geom) as [| row [| row' B']]; try discriminate. simpl.
    destruct (Hcall Material.computeUniaxialStress (Vec6 (dot row dQ) 0 0 0 0 0))
      as (buf & C66 & p' & dE6' & Hc & _).
    rewrite Hc. simpl. eauto. }
  destruct (decide (ParentGeometryElement.nDim = 2)) as [Hd2 | Hd2].
  { destruct (sectionType el); simpl.
    - destruct (Hrest (stateVars mem) (Vgt_planeVoigtToVoigt (mat_vec (Geometry.B geom) dQ))
                  eq_refl) as (s & e & buf' & Hs & He & Hs').
      rewrite Hs. simpl. rewrite He. simpl. rewrite Hs'. simpl. eauto.
    - destruct (Hcall Material.computePlaneStress
                  (Vgt_planeVoigtToVoigt (mat_vec (Geometry.B geom) dQ)))
        as (buf & C66 & p' & dE6' & Hc & Hl).
      rewrite Hc. simpl.
      destruct (Hrest buf dE6' Hl) as (s & e & buf' & Hs & He & Hs').
      rewrite Hs. simpl. rewrite He. simpl. rewrite Hs'. simpl. eauto.
    - destruct (Hcall Material.computeStress
                  (Vgt_planeVoigtToVoigt (mat_vec (Geometry.B geom) dQ)))
        as (buf & C66 & p' & dE6' & Hc & Hl).
      rewrite Hc. simpl.
      destruct (Hrest buf dE6' Hl) as (s & e & buf' & Hs & He & Hs').
      rewrite Hs. simpl. rewrite He. simpl. rewrite Hs'. simpl. eauto.
    - destruct (Hrest (stateVars mem) (Vgt_planeVoigtToVoigt (mat_vec (Geometry.B geom) dQ))
                  eq_refl) as (s & e & buf' & Hs & He & Hs').
      rewrite Hs. simpl. rewrite He. simpl. rewrite Hs'. simpl. eauto. }
  destruct (decide (ParentGeometryElement.nDim = 3)) as [Hd3 | Hd3]; [| eauto].
  apply Nat.eqb_eq in Hinit.
  assert (HdE : exists dE6, Vector6_of (mat_vec (Geometry.B geom) dQ) = Some dE6).
  { unfold mat_vec.
    destruct (Geometry.B geom) as [| a [| b [| c [| d [| e [| f [| h B']]]]]]];
      try discriminate.
    simpl. eauto. }
  destruct HdE as [dE6 HdE]. rewrite HdE. simpl.
  destruct (sectionType el); simpl;
    try (destruct (Hrest (stateVars mem) dE6 eq_refl) as (s & e & buf' & Hs & He & Hs');
         rewrite Hs; simpl; rewrite He; simpl; rewrite Hs'; simpl; eauto).
  destruct (Hcall Material.computeStress dE6) as (buf & C66 & p' & dE6' & Hc & Hl).
  rewrite Hc. simpl.
  destruct (Hrest buf dE6' Hl) as (s & e & buf' & Hs & He & Hs').
  rewrite Hs. simpl. rewrite He. simpl. rewrite Hs'. simpl. eauto.
Qed.

Lemma computeYourself_loop_defined (gpts : list GaussPt.t) :
  forall (o : Z) loc mem,
    0 <= base -> 0 <= m -> 0 <= o ->
    (forall (j : nat) gpt, gpts !! j = Some gpt ->
       bound_at base m (o + Z.of_nat j) gpt = true) ->
    base + (o + Z.of_nat (length gpts)) * (m + 12) <= Z.of_nat (length (stateVars mem)) ->
    forallb initialised gpts = true ->
    is_Some (computeYourself_loop el dQ time dT gpts loc mem).
Proof.
  induction gpts as [| g rest IH]; intros o loc mem Hbase Hm Ho Hbound Hroom Hinit;
    simpl; [eauto |].
  simpl in Hinit. apply andb_true_iff in Hinit as [Hg Hinit].
  simpl length in Hroom.
  pose proof (Hbound 0%nat g eq_refl) as Hb. rewrite Z.add_0_r in Hb.
  destruct (computeYourself_update_defined o g loc mem Hb Hbase Hm Ho ltac:(nia) Hg)
    as [[loc1 mem1] Hup].
  rewrite Hup. simpl.
  destruct (pNewDT mem1 <? 1)%float; [eauto |].
  destruct (computeYourself_update_spec el dQ time dT base m o g loc mem loc1 mem1 Hb Hm Hup)
    as ([Hlen _] & _).
  unfold computeYourself_accumulate.
  unfold initialised in Hg.
  destruct (GaussPt.geometry g) as [geom |]; [| discriminate]. simpl.
  apply (IH (o + 1)); try assumption; try lia.
  - intros j gpt Hj. specialize (Hbound (S j) gpt Hj).
    replace (o + 1 + Z.of_nat j) with (o + Z.of_nat (S j)) by lia. exact Hbound.
  - simpl. rewrite Hlen. nia.
Qed.

(** X15: [computeYourself] has defined behaviour on an element whose
    Gauss points are bound to their blocks of a state buffer that holds
    them all, and have their geometry: for every [dQ], time, [dT],
    [Pe], [Ke] and fraction, and whatever the locals hold at the
    start. *)
Theorem computeYourself_defined (uninitialized : Locals.t) (mem : KernelMemory) :
  partitioned base m el (stateVars mem) = true ->
  forallb initialised (gaussPts el) = true ->
  exists mem', computeYourself el dQ time dT uninitialized mem = Returns mem'.
Proof.
  intros (Hbase & Hm & Hbound & Hroom)%partitioned_true Hinit.
  destruct (computeYourself_loop_defined (gaussPts el) 0 uninitialized mem Hbase Hm
              ltac:(lia) Hbound ltac:(lia) Hinit) as [[[e loc'] mem'] Hloop].
  exists mem'. unfold computeYourself. rewrite Hloop. reflexivity.
Qed.

(** X16: [computeYourself] writes the state buffer inside the blocks of
    its own Gauss points only: the buffer keeps its length and every
    double outside these blocks, on a completed call and on a cut-back
    alike, so that the element is still bound to the buffer. *)
Theorem computeYourself_frame (uninitialized : Locals.t) (mem mem' : KernelMemory) :
  partitioned base m el (stateVars mem) = true ->
  computeYourself el dQ time dT uninitialized mem = Returns mem' ->
  same_outside base (base + Z.of_nat (length (gaussPts el)) * (m + 12))
    (stateVars mem) (stateVars mem') /\
  partitioned base m el (stateVars mem') = true.
Proof.
  intros Hpart Hr.
  assert (Hsame : same_outside base (base + Z.of_nat (length (gaussPts el)) * (m + 12))
                    (stateVars mem) (stateVars mem')).
  { apply partitioned_true in Hpart as (Hbase & Hm & Hbound & Hroom).
    unfold computeYourself in Hr.
    destruct (computeYourself_loop el dQ time dT (gaussPts el) uninitialized mem)
      as [[[e loc'] mem''] |] eqn:Hloop; [| discriminate].
    simpl in Hr. injection Hr as ->.
    pose proof (computeYourself_loop_frame el dQ time dT base m (gaussPts el) 0
                  uninitialized mem e loc' mem' Hm ltac:(lia) Hbound Hloop) as Hf.
    replace (base + 0 * (m + 12)) with base in Hf by lia.
    exact Hf. }
  split; [exact Hsame |].
  unfold partitioned in *. rewrite (proj1 Hsame). exact Hpart.
Qed.

Lemma computeYourself_loop_Pe (gpts : list GaussPt.t) :
  forall (o : Z) loc mem loc' mem',
    ParentGeometryElement.nDim = 2 \/ ParentGeometryElement.nDim = 3 ->
    0 <= m -> 0 <= o ->
    (forall (j : nat) gpt, gpts !! j = Some gpt ->
       bound_at base m (o + Z.of_nat j) gpt = true) ->
    computeYourself_loop el dQ time dT gpts loc mem = Some (Completed, loc', mem') ->
    integrate_Pe (stress_at (stateVars mem')) (Pe mem) gpts = Some (Pe mem').
Proof.
  induction gpts as [| g rest IH]; intros o loc mem loc' mem' Hd Hm Ho Hbound Hloop;
    simpl in Hloop.
  - injection Hloop as <- <-. reflexivity.
  - destruct (computeYourself_update el dQ time dT g loc mem) as [[loc1 mem1] |] eqn:Hup;
      [| discriminate].
    simpl in Hloop.
    destruct (pNewDT mem1 <? 1)%float; [discriminate |].
    destruct (computeYourself_accumulate g loc1 mem1) as [mem2 |] eqn:Hacc; [| discriminate].
    simpl in Hloop.
    pose proof (Hbound 0%nat g eq_refl) as Hb. rewrite Z.add_0_r in Hb.
    apply bound_at_block in Hb as (Hstress & Hstrain & _).
    destruct (computeYourself_update_S g _ loc mem loc1 mem1 Hd Hstress Hstrain Hup)
      as (s & Hs & HS).
    destruct (computeYourself_update_outputs el dQ time dT _ _ _ _ _ Hup) as [HPe _].
    assert (Hrest : forall (j : nat) gpt, rest !! j = Some gpt ->
              bound_at base m (o + 1 + Z.of_nat j) gpt = true).
    { intros j gpt Hj. specialize (Hbound (S j) gpt Hj).
      replace (o + 1 + Z.of_nat j) with (o + Z.of_nat (S j)) by lia. exact Hbound. }
    pose proof (computeYourself_loop_frame el dQ time dT base m rest (o + 1) loc1 mem2
                  Completed loc' mem' Hm ltac:(lia) Hrest Hloop) as Hf.
    specialize (IH (o + 1) _ _ _ _ Hd Hm ltac:(lia) Hrest Hloop).
    unfold computeYourself_accumulate in Hacc.
    simpl. destruct (GaussPt.geometry g) as [geom |]; [| discriminate]. simpl in *.
    injection Hacc as <-. simpl in *.
    assert (Hat : stress_at (stateVars mem') g = Some (Locals.S loc1)).
    { unfold stress_at. rewrite Hstress. simpl.
      rewrite (load6_same_outside _ _ _ _ _ Hf) by (left; nia).
      rewrite Hs. simpl. rewrite HS. reflexivity. }
    rewrite Hat. simpl. rewrite <- HPe. exact IH.
Qed.

(** X17: in two and three dimensions, when the call completes, [Pe] is
    consistent with the state buffer: it has been reduced, for one
    Gauss point after the other, by [B^T * S * intVol] with [S] the
    stress that the buffer holds for the Gauss point on return. *)
Theorem computeYourself_Pe_of_stress (uninitialized : Locals.t) (mem mem' : KernelMemory) :
  ParentGeometryElement.nDim = 2 \/ ParentGeometryElement.nDim = 3 ->
  partitioned base m el (stateVars mem) = true ->
  computeYourself el dQ time dT uninitialized mem = Returns mem' ->
  (pNewDT mem' <? 1)%float = false ->
  integrate_Pe (stress_at (stateVars mem')) (Pe mem) (gaussPts el) = Some (Pe mem').
Proof.
  intros Hd (Hbase & Hm & Hbound & Hroom)%partitioned_true Hr Hc.
  destruct (computeYourself_completed uninitialized mem mem' Hr Hc) as [loc' Hloop].
  apply (computeYourself_loop_Pe (gaussPts el) 0 uninitialized mem loc' mem' Hd Hm
           ltac:(lia) Hbound Hloop).
Qed.

(** X18: a section type that the branch of the dimension does not
    handle is not rejected.  In two dimensions with [UniaxialStress] or
    [Solid], and in three with anything but [Solid], no stress routine
    is called: the call returns with the fraction, the state variables
    and the stress of every Gauss point as they were. *)
Theorem computeYourself_section_mismatch (uninitialized : Locals.t)
    (mem mem' : KernelMemory) :
  (ParentGeometryElement.nDim = 2 /\
   (sectionType el = UniaxialStress \/ sectionType el = Solid)) \/
  (ParentGeometryElement.nDim = 3 /\ sectionType el <> Solid) ->
  partitioned base m el (stateVars mem) = true ->
  computeYourself el dQ time dT uninitialized mem = Returns mem' ->
  pNewDT mem' = pNewDT mem /\
  forall i : nat, (i < length (gaussPts el))%nat ->
    load (stateVars mem') (base + Z.of_nat i * (m + 12)) (Z.to_nat (m + 6))
    = load (stateVars mem) (base + Z.of_nat i * (m + 12)) (Z.to_nat (m + 6)).
Proof.
  intros Hmis (Hbase & Hm & Hbound & Hroom)%partitioned_true Hr.
  assert (Hd : ParentGeometryElement.nDim = 2 \/ ParentGeometryElement.nDim = 3)
    by (destruct Hmis as [[? _] | [? _]]; auto).
  assert (Hrc : routine_called el = None).
  { unfold routine_called. destruct Hmis as [[Hd2 Hs] | [Hd3 Hs]].
    - rewrite decide_False by lia. rewrite decide_True by exact Hd2.
      destruct Hs as [-> | ->]; reflexivity.
    - rewrite decide_False by lia. rewrite decide_False by lia.
      rewrite decide_True by exact Hd3.
      destruct (sectionType el); try reflexivity. contradiction. }
  unfold computeYourself in Hr.
  destruct (computeYourself_loop el dQ time dT (gaussPts el) uninitialized mem)
    as [[[e loc'] mem''] |] eqn:Hloop; [| discriminate].
  simpl in Hr. injection Hr as ->.
  split.
  - apply (computeYourself_loop_observed (fun _ p => p) (gaussPts el)
             ltac:(intros g loc0 mem0 loc1 mem1 _ Hup;
                   apply (computeYourself_update_no_call g loc0 mem0 loc1 mem1 Hrc Hd Hup))
             _ _ _ _ _ Hloop).
  - intros i Hi.
    refine (computeYourself_loop_observed
              (fun buf _ => load buf (base + Z.of_nat i * (m + 12)) (Z.to_nat (m + 6)))
              (gaussPts el) _ _ _ _ _ _ Hloop).
    intros g loc0 mem0 loc1 mem1 Hin Hup.
    apply list_elem_of_lookup in Hin as [j Hj].
    pose proof (lookup_lt_Some _ _ _ Hj) as Hjl.
    apply Hbound in Hj. apply bound_at_block in Hj as (_ & Hstrain & _).
    destruct (computeYourself_update_no_call g loc0 mem0 loc1 mem1 Hrc Hd Hup)
      as (_ & q & Hq & Hsame).
    rewrite Hstrain in Hq. injection Hq as <-.
    apply (load_same_outside _ _ _ _ _ _ Hsame).
    rewrite Z2Nat.id by lia.
    destruct (Z_lt_le_dec (Z.of_nat j) (Z.of_nat i)); [right; nia | left; nia].
Qed.

(** X19: when the call completes, every Gauss point was updated and
    keeps what its update left: its stress is the one its material
    answered, and in two and three dimensions its strain is the strain
    from before the call plus the strain increment that the update
    added. *)
Theorem computeYourself_completed_state (uninitialized : Locals.t)
    (mem mem' : KernelMemory) :
  partitioned base m el (stateVars mem) = true ->
  computeYourself el dQ time dT uninitialized mem = Returns mem' ->
  (pNewDT mem' <? 1)%float = false ->
  forall (j : nat) gaussPt, gaussPts el !! j = Some gaussPt ->
    exists loc_j mem_j stress_data strain_data,
      computeYourself_loop el dQ time dT (take j (gaussPts el)) uninitialized mem
      = Some (Completed, loc_j, mem_j) /\
      GaussPt.stress gaussPt = Some stress_data /\
      GaussPt.strain gaussPt = Some strain_data /\
      (forall r, material_response el dQ time dT gaussPt mem_j = Some r ->
         load6 (stateVars mem') stress_data = Some (Material.stress r)) /\
      (ParentGeometryElement.nDim = 2 \/ ParentGeometryElement.nDim = 3 ->
         exists e dE6',
           load6 (stateVars mem) strain_data = Some e /\
           dE6_added el dQ time dT gaussPt mem_j = Some dE6' /\
           load6 (stateVars mem') strain_data = Some (Vector6_add e dE6')).
Proof.
  intros (Hbase & Hm & Hbound & Hroom)%partitioned_true Hr Hc j gaussPt Hj.
  destruct (computeYourself_completed uninitialized mem mem' Hr Hc) as [loc' Hloop].
  pose proof (lookup_lt_Some _ _ _ Hj) as Hjl.
  destruct (computeYourself_loop_completed_at el dQ time dT base m (gaussPts el) 0
              uninitialized mem loc' mem' j gaussPt Hm ltac:(lia) Hbound Hloop Hj)
    as (loc_j & mem_j & loc_j' & mem_j' & Hpre & Hup & _ & Hafter).
  pose proof (Hbound j gaussPt Hj) as Hbj.
  destruct (computeYourself_update_spec el dQ time dT base m _ _ _ _ _ _ Hbj Hm Hup)
    as (_ & _ & _ & _ & Hstrain_j).
  pose proof (computeYourself_loop_frame el dQ time dT base m (take j (gaussPts el)) 0
                uninitialized mem Completed loc_j mem_j Hm ltac:(lia)) as Hbefore.
  rewrite length_take_le in Hbefore by lia.
  specialize (Hbefore
    ltac:(intros i gpt Hi; apply lookup_take_Some in Hi as [Hi _]; apply Hbound; exact Hi)
    Hpre).
  pose proof Hbj as Hblock. apply bound_at_block in Hblock as (Hstress & Hstrain & _).
  set (b := m + 12) in *.
  assert (Hb : 12 <= b) by (unfold b; lia).
  exists loc_j, mem_j, (base + (0 + Z.of_nat j) * b + m), (base + (0 + Z.of_nat j) * b + m + 6).
  split; [exact Hpre |]. split; [exact Hstress |]. split; [exact Hstrain |].
  assert (Hs : load6 (stateVars mem') (base + (0 + Z.of_nat j) * b + m)
               = load6 (stateVars mem_j') (base + (0 + Z.of_nat j) * b + m)).
  { apply (load6_same_outside _ _ _ _ _ Hafter). left. unfold b in *. nia. }
  assert (He : load6 (stateVars mem') (base + (0 + Z.of_nat j) * b + m + 6)
               = load6 (stateVars mem_j') (base + (0 + Z.of_nat j) * b + m + 6)).
  { apply (load6_same_outside _ _ _ _ _ Hafter). left. unfold b in *. nia. }
  split.
  - intros r Hresp. rewrite Hs.
    apply (computeYourself_update_answer el dQ time dT base m _ _ _ _ _ _ r Hbj Hm Hup Hresp).
  - intros Hdim. destruct (Hstrain_j Hdim) as (e & dE6 & He0 & HdE & He1).
    exists e, dE6. split; [| split; [exact HdE | rewrite He; exact He1]].
    rewrite <- He0. symmetry.
    apply (load6_same_outside _ _ _ _ _ Hbefore). right. unfold b in *. nia.
Qed.

(** X20: in one dimension [computeYourself] never writes a strain: on
    return, completed or cut back, the strain of every Gauss point is
    what the state buffer held for it before the call. *)
Theorem computeYourself_uniaxial_strain (uninitialized : Locals.t)
    (mem mem' : KernelMemory) :
  ParentGeometryElement.nDim = 1 ->
  partitioned base m el (stateVars mem) = true ->
  computeYourself el dQ time dT uninitialized mem = Returns mem' ->
  forall (i : nat) gaussPt, gaussPts el !! i = Some gaussPt ->
    exists strain_data,
      GaussPt.strain gaussPt = Some strain_data /\
      load6 (stateVars mem') strain_data = load6 (stateVars mem) strain_data.
Proof.
  intros Hd (Hbase & Hm & Hbound & Hroom)%partitioned_true Hr i gaussPt Hi.
  unfold computeYourself in Hr.
  destruct (computeYourself_loop el dQ time dT (gaussPts el) uninitialized mem)
    as [[[e loc'] mem''] |] eqn:Hloop; [| discriminate].
  simpl in Hr. injection Hr as ->.
  pose proof (Hbound i gaussPt Hi) as Hbi.
  apply bound_at_block in Hbi as (_ & Hstrain & _).
  eexists. split; [exact Hstrain |].
  refine (computeYourself_loop_observed
            (fun buf _ => load6 buf (base + (0 + Z.of_nat i) * (m + 12) + m + 6))
            (gaussPts el) _ _ _ _ _ _ Hloop).
  intros g loc0 mem0 loc1 mem1 Hin Hup.
  apply list_elem_of_lookup in Hin as [j Hj].
  pose proof (Hbound j g Hj) as Hbj.
  destruct (computeYourself_update_spec el dQ time dT base m _ _ _ _ _ _ Hbj Hm Hup)
    as (Hsame & _ & _ & Hkeep & _).
  destruct (decide (j = i)) as [-> | Hne]; [exact (Hkeep Hd) |].
  apply (load6_same_outside _ _ _ _ _ Hsame).
  destruct (Z_lt_le_dec (Z.of_nat j) (Z.of_nat i)); [right; nia | left; nia].
Qed.

End KernelReturn.

Lemma computeYourself_fraction_tells_witness :
  exists (k : nat) gaussPt loc1 mem1 loc2,
    computeYourself (Lib := Instances.triangle_libraries) Instances.triangle_element
      Instances.triangle_dQ Instances.time_zero 1 Instances.garbage Instances.triangle_memory
    = Returns Instances.triangle_cut_back /\
    gaussPts Instances.triangle_element !! k = Some gaussPt /\
    computeYourself_loop (Lib := Instances.triangle_libraries) Instances.triangle_element
      Instances.triangle_dQ Instances.time_zero 1
      (take k (gaussPts Instances.triangle_element))
      Instances.garbage Instances.triangle_memory
    = Some (Completed, loc1, mem1) /\
    computeYourself_update (Lib := Instances.triangle_libraries) Instances.triangle_element
      Instances.triangle_dQ Instances.time_zero 1 gaussPt loc1 mem1
    = Some (loc2, Instances.triangle_cut_back).
Proof.
  assert (Hr : computeYourself (Lib := Instances.triangle_libraries)
                 Instances.triangle_element Instances.triangle_dQ Instances.time_zero 1
                 Instances.garbage Instances.triangle_memory
               = Returns Instances.triangle_cut_back) by (vm_compute; reflexivity).
  pose proof (computeYourself_fraction_tells (Lib := Instances.triangle_libraries)
                Instances.triangle_element Instances.triangle_dQ Instances.time_zero 1
                Instances.garbage Instances.triangle_memory Instances.triangle_cut_back
                ltac:(vm_compute; discriminate) Hr) as Htells.
  assert (Hc : (pNewDT Instances.triangle_cut_back <? 1)%float = true)
    by (vm_compute; reflexivity).
  rewrite Hc in Htells.
  destruct Htells as (k & gaussPt & loc1 & mem1 & loc2 & Hk & Hpre & Hup).
  exists k, gaussPt, loc1, mem1, loc2. auto.
Defined.

Lemma computeYourself_uniaxial_Pe_witness :
  integrate_Pe (fun _ => Some [7%float]) [0; 0]%float (gaussPts Instances.bar_element)
  = Some (Pe Instances.bar_completed).
Proof.
  apply (computeYourself_uniaxial_Pe (Lib := Instances.bar_libraries)
           Instances.bar_element Instances.bar_dQ Instances.time_zero 1
           Instances.garbage Instances.bar_memory Instances.bar_completed).
  - reflexivity.
  - vm_compute. reflexivity.
  - vm_compute. reflexivity.
Defined.

Lemma computeYourself_defined_witness :
  exists mem',
    computeYourself (Lib := Instances.triangle_libraries) Instances.triangle_element
      Instances.triangle_dQ Instances.time_zero 1 Instances.garbage Instances.triangle_memory
    = Returns mem'.
Proof.
  apply (computeYourself_defined (Lib := Instances.triangle_libraries)
           Instances.triangle_element Instances.triangle_dQ Instances.time_zero 1 0 1).
  - vm_compute. reflexivity.
  - vm_compute. reflexivity.
Defined.

Lemma computeYourself_frame_witness :
  same_outside 0 (0 + Z.of_nat (length (gaussPts Instances.triangle_element)) * (1 + 12))
    (stateVars Instances.triangle_memory) (stateVars Instances.triangle_cut_back) /\
  partitioned 0 1 Instances.triangle_element (stateVars Instances.triangle_cut_back) = true.
Proof.
  apply (computeYourself_frame (Lib := Instances.triangle_libraries)
           Instances.triangle_element Instances.triangle_dQ Instances.time_zero 1 0 1
           Instances.garbage).
  - vm_compute. reflexivity.
  - vm_compute. reflexivity.
Defined.

Lemma computeYourself_Pe_of_stress_witness :
  integrate_Pe
    (stress_at (Lib := Instances.triangle_libraries) (stateVars Instances.triangle_completed))
    (Pe Instances.triangle_rest) (gaussPts Instances.triangle_element)
  = Some (Pe Instances.triangle_completed).
Proof.
  apply (computeYourself_Pe_of_stress (Lib := Instances.triangle_libraries)
           Instances.triangle_element Instances.triangle_dQ Instances.time_zero 1 0 1
           Instances.garbage).
  - left. reflexivity.
  - vm_compute. reflexivity.
  - vm_compute. reflexivity.
  - vm_compute. reflexivity.
Defined.

Lemma computeYourself_section_mismatch_witness :
  pNewDT Instances.triangle_solid_returned = pNewDT Instances.triangle_memory /\
  load (stateVars Instances.triangle_solid_returned) (0 + Z.of_nat 1 * (1 + 12))
    (Z.to_nat (1 + 6))
  = load (stateVars Instances.triangle_memory) (0 + Z.of_nat 1 * (1 + 12))
      (Z.to_nat (1 + 6)).
Proof.
  destruct (computeYourself_section_mismatch (Lib := Instances.triangle_libraries)
              Instances.triangle_solid_element Instances.triangle_dQ Instances.time_zero 1
              0 1 Instances.garbage Instances.triangle_memory
              Instances.triangle_solid_returned) as [Hp Hall].
  - left. split; [reflexivity |]. right. reflexivity.
  - vm_compute. reflexivity.
  - vm_compute. reflexivity.
  - split; [exact Hp |]. apply (Hall 1%nat). vm_compute. lia.
Defined.

Lemma computeYourself_completed_state_witness :
  exists loc_j mem_j stress_data strain_data,
    computeYourself_loop (Lib := Instances.triangle_libraries) Instances.triangle_element
      Instances.triangle_dQ Instances.time_zero 1
      (take 2 (gaussPts Instances.triangle_element))
      Instances.garbage Instances.triangle_rest
    = Some (Completed, loc_j, mem_j) /\
    load6 (stateVars Instances.triangle_completed) stress_data = Some (Vec6 4 0 0 0 0 0) /\
    load6 (stateVars Instances.triangle_completed) strain_data = Some (Vec6 1 0 0 0 0 0).
Proof.
  edestruct (computeYourself_completed_state (Lib := Instances.triangle_libraries)
               Instances.triangle_element Instances.triangle_dQ Instances.time_zero 1
               0 1 Instances.garbage Instances.triangle_rest Instances.triangle_completed)
    as (loc_j & mem_j & stress_data & strain_data & Hpre & Hs & He & Hanswer & Hstrain).
  - vm_compute. reflexivity.
  - vm_compute. reflexivity.
  - vm_compute. reflexivity.
  - exact (eq_refl : gaussPts Instances.triangle_element !! 2%nat = Some _).
  - vm_compute in Hs. injection Hs as <-.
    vm_compute in He. injection He as <-.
    vm_compute in Hpre. injection Hpre as <- <-.
    destruct (Hstrain ltac:(left; reflexivity)) as (e & dE6 & He0 & HdE & He1).
    vm_compute in He0. injection He0 as <-.
    vm_compute in HdE. injection HdE as <-.
    do 4 eexists. split; [vm_compute; reflexivity |].
    split; [| rewrite He1; vm_compute; reflexivity].
    rewrite (Hanswer _ eq_refl). vm_compute. reflexivity.
Defined.

Lemma computeYourself_uniaxial_strain_witness :
  GaussPt.strain <$> gaussPts Instances.bar_element !! 1%nat = Some (Some 20) /\
  load6 (stateVars Instances.bar_completed) 20 = load6 (stateVars Instances.bar_memory) 20.
Proof.
  edestruct (computeYourself_uniaxial_strain (Lib := Instances.bar_libraries)
               Instances.bar_element Instances.bar_dQ Instances.time_zero 1 0 1
               Instances.garbage Instances.bar_memory Instances.bar_completed)
    as (strain_data & Hs & Hkeep).
  - reflexivity.
  - vm_compute. reflexivity.
  - vm_compute. reflexivity.
  - exact (eq_refl : gaussPts Instances.bar_element !! 1%nat = Some _).
  - vm_compute in Hs. injection Hs as <-.
    split; [reflexivity | exact Hkeep].
Defined.

(** ** Body forces, and the calls in their order *)

Section BodyForce.

Context `{Lib : Libraries}.

(** The loop of [computeBodyForce] over Gauss points that have their
    geometry. *)
Lemma computeBodyForce_loop (load_ f : list float) (volume : GaussPt.t -> option float)
    (gpts' : list GaussPt.t) :
  load load_ 0 (Z.to_nat ParentGeometryElement.nDim) = Some f ->
  forall (gpts : list GaussPt.t) (P : VectorXd),
    length gpts' = length gpts ->
    (forall (i : nat) gpt, gpts !! i = Some gpt ->
       exists gpt' geom,
         gpts' !! i = Some gpt' /\
         GaussPt.geometry gpt' = Some geom /\
         GaussPt.xi gpt' = GaussPt.xi gpt /\
         volume gpt = Some (Geometry.intVol geom)) ->
    foldl (fun pe gpt => pe ≫= fun Pe_ => computeBodyForce_body load_ Pe_ gpt) (Some P) gpts'
    = integrate_body_force f volume P gpts.
Proof.
  intros Hload. induction gpts' as [| g' rest' IH]; intros gpts P Hlen Hlook.
  - destruct gpts; [reflexivity | discriminate].
  - destruct gpts as [| g rest]; [discriminate |].
    destruct (Hlook 0%nat g eq_refl) as (gpt' & geom & Hg' & Hgeom & Hxi & Hvol).
    simpl in Hg'. injection Hg' as <-.
    simpl. unfold computeBodyForce_body at 2. rewrite Hload, Hgeom, Hvol, Hxi. simpl.
    apply IH; [simpl in Hlen; lia |].
    intros i gpt Hi. apply (Hlook (S i) gpt Hi).
Qed.

(** X21: after [initializeYourself], [computeBodyForce] returns, and
    adds to [P], for one Gauss point after the other,
    [NB( N( xi ) )^T * f * volume] with the integration volume of the
    section type: weight * det(J) at the coordinates of the
    initialisation, times [elementProperties[0]] unless the section is
    [Solid]. *)
Theorem computeBodyForce_after_initializeYourself (el : UelDisplacement)
    (coords : VectorXd) el' (P load_ f : list float) :
  initializeYourself el coords = Returns el' ->
  load load_ 0 (Z.to_nat ParentGeometryElement.nDim) = Some f ->
  exists P',
    computeBodyForce el' P load_ = Returns P' /\
    integrate_body_force f (intVol_at el coords) P (gaussPts el) = Some P'.
Proof.
  intros Hr Hload.
  pose proof (initializeYourself_lookup el coords el' Hr) as [Hlen Hlook].
  assert (Hloop :
    computeBodyForce el' P load_
    = complete (integrate_body_force f (intVol_at el coords) P (gaussPts el))).
  { unfold computeBodyForce. f_equal.
    apply (computeBodyForce_loop load_ f _ _ Hload _ _ Hlen).
    intros i gpt Hi.
    destruct (Hlook i gpt Hi) as (geom & mat & length_ & _ & Hi' & _ & Hvol).
    do 2 eexists. split; [exact Hi' |]. simpl. auto. }
  assert (Hdef : forall gpts (Q : VectorXd),
            (forall gpt, gpt ∈ gpts -> is_Some (intVol_at el coords gpt)) ->
            is_Some (integrate_body_force f (intVol_at el coords) Q gpts)).
  { induction gpts as [| g rest IH]; intros Q Hvol; simpl; [eauto |].
    destruct (Hvol g ltac:(left)) as [v Hv]. rewrite Hv. simpl.
    apply IH. intros gpt Hin. apply Hvol. right. exact Hin. }
  destruct (Hdef (gaussPts el) P) as [P' HP'].
  { intros gpt Hin. apply list_elem_of_lookup in Hin as [i Hi].
    destruct (Hlook i gpt Hi) as (geom & _ & _ & _ & _ & _ & Hvol). eauto. }
  exists P'. split; [| exact HP'].
  rewrite Hloop, HP'. reflexivity.
Qed.

(** X22: [computeYourself] and [computeBodyForce] dereference the
    geometry of the first Gauss point unchecked: called before
    [initializeYourself] has created it, they have no defined
    behaviour. *)
Theorem kernel_before_initializeYourself (el : UelDisplacement) gpt rest
    (dQ : VectorXd) (time : list float) (dT : float) (uninitialized : Locals.t)
    (mem : KernelMemory) (P load_ : list float) :
  gaussPts el = gpt :: rest ->
  GaussPt.geometry gpt = None ->
  computeYourself el dQ time dT uninitialized mem = Undefined /\
  computeBodyForce el P load_ = Undefined.
Proof.
  intros He Hg. split.
  - unfold computeYourself. rewrite He. simpl.
    unfold computeYourself_update. rewrite Hg. reflexivity.
  - unfold computeBodyForce. rewrite He. simpl.
    unfold computeBodyForce_body at 2. rewrite Hg.
    destruct (load load_ 0 (Z.to_nat ParentGeometryElement.nDim)); simpl;
      rewrite foldl_undefined; reflexivity.
Qed.

Lemma assignStateVars_Returns (el : UelDisplacement) (base n : Z) el' :
  assignStateVars el base n = Returns el' ->
  sectionType el' = sectionType el /\ elementProperties el' = elementProperties el.
Proof.
  unfold assignStateVars. case_decide; [discriminate |].
  destruct (for_indexed _ 0 (gaussPts el)) as [gpts |]; [| discriminate].
  simpl. intros [= <-]. auto.
Qed.

(** In two dimensions with a plane section, and in three with [Solid],
    a step assigns [S] and [C]: what the locals held before it is not
    read. *)
Lemma computeYourself_update_assigns (el : UelDisplacement) (dQ : VectorXd)
    (time : list float) (dT : float) (gaussPt : GaussPt.t)
    (loc1 loc2 : Locals.t) (mem : KernelMemory) :
  (ParentGeometryElement.nDim = 2 /\
   (sectionType el = PlaneStress \/ sectionType el = PlaneStrain))
  \/ (ParentGeometryElement.nDim = 3 /\ sectionType el = Solid) ->
  computeYourself_update el dQ time dT gaussPt loc1 mem
  = computeYourself_update el dQ time dT gaussPt loc2 mem.
Proof.
  intros Hsec. unfold computeYourself_update.
  destruct (GaussPt.geometry gaussPt) as [geom |]; [| reflexivity].
  cbn [mbind option_bind].
  destruct (decide (ParentGeometryElement.nDim = 1)) as [Hd1 | _];
    [destruct Hsec as [[Hd _] | [Hd _]]; lia |].
  destruct (decide (ParentGeometryElement.nDim = 2)) as [Hd2 | Hd2].
  - destruct Hsec as [[_ [Hs | Hs]] | [Hd _]]; [| | lia]; rewrite Hs; reflexivity.
  - destruct (decide (ParentGeometryElement.nDim = 3)) as [Hd3 | Hd3].
    + destruct Hsec as [[Hd _] | [_ Hs]]; [lia |]. rewrite Hs. reflexivity.
    + destruct Hsec as [[Hd _] | [Hd _]]; contradiction.
Qed.

(** So the whole call does not depend on what [S] and [C] hold when it
    starts. *)
Lemma computeYourself_locals_assigned (el : UelDisplacement) (dQ : VectorXd)
    (time : list float) (dT : float) (loc1 loc2 : Locals.t) (mem : KernelMemory) :
  (ParentGeometryElement.nDim = 2 /\
   (sectionType el = PlaneStress \/ sectionType el = PlaneStrain))
  \/ (ParentGeometryElement.nDim = 3 /\ sectionType el = Solid) ->
  computeYourself el dQ time dT loc1 mem = computeYourself el dQ time dT loc2 mem.
Proof.
  intros Hsec. unfold computeYourself.
  destruct (gaussPts el) as [| gaussPt rest]; [reflexivity |].
  cbn [computeYourself_loop].
  rewrite (computeYourself_update_assigns el dQ time dT gaussPt loc1 loc2 mem Hsec).
  reflexivity.
Qed.

(** X23: the calls in their order, where the section type is one that
    the dimension handles: [PlaneStress] or [PlaneStrain] in two
    dimensions, with an element property for the thickness, or [Solid]
    in three, with the six rows of [B] that its fixed-size type has.  On
    such an element with at least one Gauss point and a material in every
    Gauss point, [assignStateVars] with a length from 12 doubles per
    Gauss point to [INT_MAX], then [initializeYourself], lead to an
    element on which every call of [computeYourself] with a state buffer
    that holds this length returns: no null pointer is followed, nothing
    is read or written outside the buffer, and the result is the same
    whatever the locals [S] and [C] hold at the start, since every step
    assigns both before the accumulation reads them.  The material
    routines are taken as the record has them: functions that write
    their own state variables and the stress. *)
Theorem life_cycle_defined (el : UelDisplacement) (base n : Z) (coords : VectorXd) :
  gaussPts el <> [] ->
  Forall (fun gpt => is_Some (GaussPt.material gpt)) (gaussPts el) ->
  0 <= base ->
  0 <= n <= INT_MAX ->
  12 * Z.of_nat (length (gaussPts el)) <= n ->
  (ParentGeometryElement.nDim = 2 /\
   (sectionType el = PlaneStress \/ sectionType el = PlaneStrain) /\
   is_Some (elementProperties el !! 0%nat))
  \/ (ParentGeometryElement.nDim = 3 /\
      sectionType el = Solid /\
      forall xi, length (B_at coords xi) = 6%nat) ->
  exists el1 el2,
    assignStateVars el base n = Returns el1 /\
    initializeYourself el1 coords = Returns el2 /\
    forall dQ time dT mem,
      base + n <= Z.of_nat (length (stateVars mem)) ->
      exists mem',
        forall uninitialized,
          computeYourself el2 dQ time dT uninitialized mem = Returns mem'.
Proof.
  intros Hne Hmat Hbase Hn Hroom Hsec.
  destruct (assignStateVars_binds el base n Hne Hmat Hn) as (el1 & Hr1 & Hlen1 & Hb).
  destruct (assignStateVars_Returns el base n el1 Hr1) as [Hsec1 Hep].
  set (g := Z.of_nat (length (gaussPts el))) in *.
  assert (Hg : 1 <= g).
  { unfold g. destruct (gaussPts el); [congruence | simpl; lia]. }
  assert (Hq : 12 <= n / g) by (apply Z.div_le_lower_bound; lia).
  assert (Hgq : g * (n / g) <= n) by (apply Z.mul_div_le; lia).
  assert (Hmat1 : Forall (fun gpt => is_Some (GaussPt.material gpt)) (gaussPts el1)).
  { apply Forall_lookup. intros i gpt Hi.
    rewrite bound_from_lookup in Hb. specialize (Hb i gpt Hi).
    apply bound_at_true in Hb as (_ & _ & mat & Hm & _). eauto. }
  assert (Hprops : sectionType el1 = Solid \/ is_Some (elementProperties el1 !! 0%nat)).
  { rewrite Hsec1, Hep. destruct Hsec as [(_ & _ & Hp) | (_ & Hs & _)]; auto. }
  assert (HB1 : ParentGeometryElement.nDim = 1 ->
                forall xi, length (B_at coords xi) = 1%nat).
  { intros Hd. destruct Hsec as [(Hd' & _) | (Hd' & _)]; lia. }
  assert (HB3 : ParentGeometryElement.nDim = 3 ->
                forall xi, length (B_at coords xi) = 6%nat).
  { intros Hd. destruct Hsec as [(Hd' & _) | (_ & _ & HB)]; [lia | exact HB]. }
  destruct (initializeYourself_defined el1 coords Hmat1 Hprops) as [el2 Hr2].
  assert (Hsec2 : sectionType el2 = sectionType el).
  { destruct (initializeYourself_Returns el1 coords el2 Hr2) as (gpts & _ & ->).
    simpl. exact Hsec1. }
  exists el1, el2. split; [exact Hr1 |]. split; [exact Hr2 |].
  intros dQ time dT mem Hbuf.
  assert (Hpart : partitioned base (n / g - 12) el2 (stateVars mem) = true).
  { rewrite (initializeYourself_partitioned el1 coords el2 _ _ _ Hr2).
    unfold partitioned. rewrite Hb, Hlen1. fold g.
    rewrite !andb_true_iff, !Z.leb_le. repeat split; lia. }
  apply partitioned_true in Hpart as (_ & Hm & Hbound & Hfits).
  destruct (computeYourself_loop_defined el2 dQ time dT base (n / g - 12) (gaussPts el2) 0
              {| Locals.S := []; Locals.C := [] |} mem Hbase Hm ltac:(lia) Hbound ltac:(lia)
              (initializeYourself_initialised el1 coords el2 HB1 HB3 Hr2))
    as [[[e loc'] mem'] Hloop].
  exists mem'. intros uninitialized.
  rewrite (computeYourself_locals_assigned el2 dQ time dT uninitialized
             {| Locals.S := []; Locals.C := [] |} mem).
  - unfold computeYourself. rewrite Hloop. reflexivity.
  - rewrite Hsec2. destruct Hsec as [(Hd & Hs & _) | (Hd & Hs & _)]; auto.
Qed.

End BodyForce.

Lemma computeBodyForce_after_initializeYourself_witness :
  exists P',
    computeBodyForce (H := Instances.triangle) Instances.triangle_element
      [0; 0; 0; 0; 0; 0]%float [0; -8]%float = Returns P' /\
    integrate_body_force (Lib := Instances.triangle_libraries) [0; -8]%float
      (intVol_at (Lib := Instances.triangle_libraries) Instances.triangle_bound
         [0; 0; 1; 0; 0; 1]%float)
      [0; 0; 0; 0; 0; 0]%float (gaussPts Instances.triangle_bound) = Some P'.
Proof.
  apply (computeBodyForce_after_initializeYourself (Lib := Instances.triangle_libraries)
           Instances.triangle_bound [0; 0; 1; 0; 0; 1]%float Instances.triangle_element).
  - vm_compute. reflexivity.
  - vm_compute. reflexivity.
Defined.

Lemma kernel_before_initializeYourself_witness :
  computeYourself (Lib := Instances.triangle_libraries) Instances.triangle_bound
    Instances.triangle_dQ Instances.time_zero 1 Instances.garbage Instances.triangle_memory
  = Undefined /\
  computeBodyForce (H := Instances.triangle) Instances.triangle_bound
    [0; 0; 0; 0; 0; 0]%float [0; -8]%float = Undefined.
Proof.
  eapply (kernel_before_initializeYourself (Lib := Instances.triangle_libraries)
            Instances.triangle_bound).
  - vm_compute. reflexivity.
  - reflexivity.
Defined.

Lemma life_cycle_defined_witness :
  exists el1 el2,
    assignStateVars Instances.triangle_assigned 0 39 = Returns el1 /\
    initializeYourself (Lib := Instances.triangle_libraries) el1
      [0; 0; 1; 0; 0; 1]%float = Returns el2 /\
    forall dQ time dT mem,
      0 + 39 <= Z.of_nat (length (stateVars mem)) ->
      exists mem',
        forall uninitialized,
          computeYourself (Lib := Instances.triangle_libraries) el2 dQ time dT
            uninitialized mem
          = Returns mem'.
Proof.
  apply (life_cycle_defined (Lib := Instances.triangle_libraries)
           Instances.triangle_assigned 0 39 [0; 0; 1; 0; 0; 1]%float).
  - vm_compute. discriminate.
  - vm_compute. repeat constructor; eexists; reflexivity.
  - lia.
  - vm_compute. split; discriminate.
  - vm_compute. discriminate.
  - left. split; [reflexivity |]. split; [right; reflexivity |].
    vm_compute. eexists; reflexivity.
Defined.

(** ** The pressure load and the initial conditions, in their places *)

Section LoadsAndConditions.

Context `{Lib : Libraries}.

(** X24: a pressure load reads [elementProperties[0]], the thickness,
    in two dimensions and in no other.  On an element without element
    properties the call has no defined behaviour in two dimensions; in
    one and three it gives what it gives with any properties
    assigned. *)
Theorem computeDistributedLoad_thickness (el : UelDisplacement) (P : VectorXd)
    (elementFace : Z) (load_ : list float) :
  computeDistributedLoad (assignProperty_ElementProperties el []) Pressure P elementFace load_
  = if decide (ParentGeometryElement.nDim = 2) then Undefined
    else computeDistributedLoad el Pressure P elementFace load_.
Proof.
  unfold computeDistributedLoad. simpl.
  destruct (decide (ParentGeometryElement.nDim = 2)); [| reflexivity].
  destruct (load_ !! 0%nat); simpl; [| reflexivity].
  destruct (coordinates el); reflexivity.
Qed.

(** One Gauss point: the three stores are in the first three
    coefficients of its stress. *)
Lemma setInitialConditions_body_frame (el : UelDisplacement) (values buf : list float)
    (gpt : GaussPt.t) buf' :
  setInitialConditions_body el values buf gpt = Some buf' ->
  exists p, GaussPt.stress gpt = Some p /\ same_outside p (p + 3) buf buf'.
Proof.
  unfold setInitialConditions_body. intros Hb. split_steps Hb.
  eexists. split; [reflexivity |].
  match goal with
  | E1 : store buf _ _ = Some ?b1, E2 : store ?b1 _ _ = Some ?b2 |- _ =>
      apply store_same_outside in E1; apply store_same_outside in E2;
      apply store_same_outside in Hb; simpl in E1, E2, Hb;
      apply (same_outside_trans _ _ buf b1 buf');
      [ eapply same_outside_weaken; [| | exact E1]; lia
      | apply (same_outside_trans _ _ b1 b2 buf');
        [ eapply same_outside_weaken; [| | exact E2]; lia
        | eapply same_outside_weaken; [| | exact Hb]; lia ] ]
  end.
Qed.

Lemma setInitialConditions_loop_frame (el : UelDisplacement) (values : list float)
    (gpts : list GaussPt.t) :
  forall buf buf',
    foldl (fun b gaussPt => b ≫= fun buf_ => setInitialConditions_body el values buf_ gaussPt)
      (Some buf) gpts = Some buf' ->
    length buf' = length buf /\
    forall i : nat,
      (forall gpt p, gpt ∈ gpts -> GaussPt.stress gpt = Some p ->
         ~ (p <= Z.of_nat i < p + 3)) ->
      buf' !! i = buf !! i.
Proof.
  induction gpts as [| g rest IH]; intros buf buf' Hfold; simpl in Hfold.
  - injection Hfold as <-. auto.
  - destruct (setInitialConditions_body el values buf g) as [buf1 |] eqn:Hbody.
    + destruct (IH buf1 buf' Hfold) as [Hlen Hkeep].
      apply setInitialConditions_body_frame in Hbody as (p & Hp & [Hlen1 Hkeep1]).
      split; [congruence |].
      intros i Hi. rewrite Hkeep, Hkeep1.
      * reflexivity.
      * apply (Hi g p); [left | exact Hp].
      * intros gpt q Hin Hq. apply (Hi gpt q); [right; exact Hin | exact Hq].
    + rewrite foldl_undefined in Hfold. discriminate.
Qed.

(** X25: [setInitialConditions] writes the first three coefficients of
    the stress of its Gauss points and nothing else: the state buffer
    keeps its length, and every double of it that is not one of these:
    the shear stresses, the strains, the state variables of the
    materials, and what lies outside the element. *)
Theorem setInitialConditions_frame (el : UelDisplacement) (state : StateTypes)
    (values buf buf' : list float) :
  setInitialConditions el state values buf = Returns buf' ->
  length buf' = length buf /\
  forall i : nat,
    (forall gpt p, gpt ∈ gaussPts el -> GaussPt.stress gpt = Some p ->
       ~ (p <= Z.of_nat i < p + 3)) ->
    buf' !! i = buf !! i.
Proof.
  unfold setInitialConditions. intros Hr.
  destruct state; [| injection Hr as <-; auto].
  case_decide; [| injection Hr as <-; auto].
  destruct (foldl _ (Some buf) (gaussPts el)) as [buf'' |] eqn:Hfold; [| discriminate].
  simpl in Hr. injection Hr as ->.
  apply (setInitialConditions_loop_frame el values (gaussPts el) buf buf' Hfold).
Qed.

End LoadsAndConditions.

Lemma setInitialConditions_frame_witness :
  exists buf',
    setInitialConditions (Lib := Instances.triangle_libraries) Instances.triangle_element
      GeostaticStress [-1; 0; -3; 2; 0.5; 0.25]%float (stateVars Instances.triangle_memory)
    = Returns buf' /\
    length buf' = 39%nat /\
    buf' !! 20%nat = Some 0%float.
Proof.
  destruct (setInitialConditions (Lib := Instances.triangle_libraries)
              Instances.triangle_element GeostaticStress [-1; 0; -3; 2; 0.5; 0.25]%float
              (stateVars Instances.triangle_memory)) as [buf' | |] eqn:Hr;
    [| vm_compute in Hr; discriminate | vm_compute in Hr; discriminate].
  destruct (setInitialConditions_frame (Lib := Instances.triangle_libraries) _ _ _ _ _ Hr)
    as [Hlen Hkeep].
  exists buf'. split; [reflexivity |]. split; [rewrite Hlen; reflexivity |].
  rewrite (Hkeep 20%nat); [reflexivity |].
  intros gpt p Hin Hp.
  apply list_elem_of_lookup in Hin as [j Hj].
  destruct j as [| [| [| j]]]; vm_compute in Hj; try discriminate;
    injection Hj as <-; vm_compute in Hp; injection Hp as <-; lia.
Defined.

Section InitialConditionsAgain.

Context `{Lib : Libraries}.

Variables (el : UelDisplacement) (coords : VectorXd).
Variables (sigY1 y1 sigY2 y2 ratio_x ratio_z : float).
Variables (base m : Z).

(** X26: setting the geostatic stress twice is setting it once: a
    second [setInitialConditions] with the same values returns the
    state buffer as the first one left it. *)
Theorem setInitialConditions_idempotent (buf buf' : list float) :
  coordinates el = Some coords ->
  partitioned base m el buf = true ->
  Forall (fun gpt => is_Some (coordAtGauss coords gpt !! 1%nat)) (gaussPts el) ->
  setInitialConditions el GeostaticStress [sigY1; y1; sigY2; y2; ratio_x; ratio_z] buf
  = Returns buf' ->
  setInitialConditions el GeostaticStress [sigY1; y1; sigY2; y2; ratio_x; ratio_z] buf'
  = Returns buf'.
Proof.
  intros Hc Hpart Hcoord Hr. unfold setInitialConditions in *.
  case_decide as Hd; [| injection Hr as <-; reflexivity].
  destruct (foldl _ (Some buf) (gaussPts el)) as [b1 |] eqn:Hfold1; [| discriminate].
  simpl in Hr. injection Hr as ->.
  apply partitioned_true in Hpart as (Hbase & Hm & Hbound & Hroom).
  destruct (setInitialConditions_loop_spec el coords sigY1 y1 sigY2 y2 ratio_x ratio_z Hc
              base m (gaussPts el) 0 buf Hbase Hm ltac:(lia) Hbound ltac:(lia) Hcoord)
    as (b1 & Hf1 & [Hlen1 _] & Hall1).
  rewrite Hfold1 in Hf1. injection Hf1 as <-.
  destruct (setInitialConditions_loop_spec el coords sigY1 y1 sigY2 y2 ratio_x ratio_z Hc
              base m (gaussPts el) 0 buf' Hbase Hm ltac:(lia) Hbound
              ltac:(rewrite Hlen1; lia) Hcoord)
    as (buf'' & Hfold2 & _ & Hall2).
  rewrite Hfold2. simpl. f_equal.
  destruct (setInitialConditions_loop_frame el _ (gaussPts el) buf' buf'' Hfold2)
    as [Hlen2 Hkeep].
  apply list_eq. intros i.
  set (written := fun gpt : GaussPt.t =>
         match GaussPt.stress gpt with
         | Some p => (p <=? Z.of_nat i) && (Z.of_nat i <? p + 3)
         | None => false
         end).
  destruct (existsb written (gaussPts el)) eqn:Hex.
  - apply existsb_exists in Hex as (gpt & Hin & Hw).
    apply list_elem_of_In, list_elem_of_lookup in Hin as [j Hj].
    destruct (Hall1 j gpt Hj) as (p & old & y & Hp & _ & Hy & Hload1).
    destruct (Hall2 j gpt Hj) as (p' & old' & y' & Hp' & Hold' & Hy' & Hload2).
    rewrite Hp in Hp'. injection Hp' as <-.
    rewrite Hy in Hy'. injection Hy' as <-.
    rewrite Hload1 in Hold'. injection Hold' as <-.
    unfold written in Hw. rewrite Hp in Hw.
    apply andb_true_iff in Hw as [Hlo Hhi].
    apply Z.leb_le in Hlo. apply Z.ltb_lt in Hhi.
    apply load6_Some in Hload1 as (Hp0 & A0 & A1 & A2 & _).
    apply load6_Some in Hload2 as (_ & B0 & B1 & B2 & _).
    assert (Hi : i = (Z.to_nat p + 0)%nat \/ i = (Z.to_nat p + 1)%nat
                 \/ i = (Z.to_nat p + 2)%nat) by lia.
    unfold geostatic in A0, A1, A2, B0, B1, B2.
    cbn [v6_0 v6_1 v6_2] in A0, A1, A2, B0, B1, B2.
    destruct Hi as [-> | [-> | ->]]; congruence.
  - apply Hkeep. intros gpt p Hin Hp Hrange.
    assert (Hw : written gpt = true).
    { unfold written. rewrite Hp. apply andb_true_iff.
      split; [apply Z.leb_le | apply Z.ltb_lt]; lia. }
    assert (Hex' : existsb written (gaussPts el) = true).
    { apply existsb_exists. exists gpt. split; [apply list_elem_of_In; exact Hin | exact Hw]. }
    congruence.
Qed.

End InitialConditionsAgain.

Lemma setInitialConditions_idempotent_witness :
  exists buf',
    setInitialConditions (Lib := Instances.triangle_libraries) Instances.triangle_element
      GeostaticStress [-1; 0; -3; 2; 0.5; 0.25]%float (stateVars Instances.triangle_memory)
    = Returns buf' /\
    setInitialConditions (Lib := Instances.triangle_libraries) Instances.triangle_element
      GeostaticStress [-1; 0; -3; 2; 0.5; 0.25]%float buf'
    = Returns buf'.
Proof.
  destruct (setInitialConditions (Lib := Instances.triangle_libraries)
              Instances.triangle_element GeostaticStress [-1; 0; -3; 2; 0.5; 0.25]%float
              (stateVars Instances.triangle_memory)) as [buf' | |] eqn:Hr;
    [| vm_compute in Hr; discriminate | vm_compute in Hr; discriminate].
  exists buf'. split; [reflexivity |].
  apply (setInitialConditions_idempotent (Lib := Instances.triangle_libraries)
           Instances.triangle_element [0; 0; 1; 0; 0; 1]%float (-1) 0 (-3) 2 0.5 0.25 0 1
           (stateVars Instances.triangle_memory) buf').
  - reflexivity.
  - vm_compute. reflexivity.
  - vm_compute. repeat constructor; eexists; reflexivity.
  - exact Hr.
Defined.
